(** * LazyLibrarian library scan: metadata extraction and catalog reconciliation

    A shallow embedding of [lazylibrarian/librarysync.py]
    ([get_book_info], [find_book_in_db], [LibraryScan]) together with the
    properties of it that the specification states.

    Python strings are [string] (a unicode text is held as its UTF-8
    bytes, and its length is the number of its characters); Python
    integers are [Z]; a value that may be
    [None] (or an SQL NULL) is an [option]; the SQL tables are lists of row
    records, in table order; a call that may raise returns an [outcome]. *)

From Stdlib Require Import ZArith List String Ascii Bool Lia.
Import ListNotations.

Set Warnings "-register-all".

Local Open Scope string_scope.
Local Open Scope list_scope.

(* ------------------------------------------------------------------ *)
(** ** Python string operations used by the scanner *)

Module PyStr.

(** Truth value of a string: the empty string is false. *)
Definition truthy (s : string) : bool := negb (s =? "").

(** Truth value of a value that may be [None]. *)
Definition truthy_opt (o : option string) : bool :=
  match o with Some s => truthy s | None => false end.

(** ASCII case folding: what [str.lower] does on a byte string and what
    SQLite's NOCASE collation does before it compares. *)
Definition lower_ascii (c : ascii) : ascii :=
  let n := nat_of_ascii c in
  if (65 <=? n)%nat && (n <=? 90)%nat then ascii_of_nat (n + 32) else c.

Fixpoint lower (s : string) : string :=
  match s with
  | EmptyString => EmptyString
  | String c r => String (lower_ascii c) (lower r)
  end.

(** [sub in s]. *)
Fixpoint contains (sub s : string) : bool :=
  if prefix sub s then true
  else match s with
       | EmptyString => false
       | String _ r => contains sub r
       end.

(** [s.replace(old, new)] for a non-empty [old]: occurrences are replaced
    from the left and do not overlap.  [skip] counts the characters of a
    matched occurrence that are still to be dropped. *)
Fixpoint replace_from (old new : string) (skip : nat) (s : string) : string :=
  match s with
  | EmptyString => EmptyString
  | String c r =>
      match skip with
      | S k => replace_from old new k r
      | O =>
          if prefix old s
          then new ++ replace_from old new (String.length old - 1) r
          else String c (replace_from old new 0 r)
      end
  end.

Definition replace (old new s : string) : string :=
  if old =? "" then s else replace_from old new 0 s.

(** [s.rfind(c)]: index of the last occurrence of [c], or -1. *)
Fixpoint rfind_from (c : ascii) (s : string) (i acc : Z) : Z :=
  match s with
  | EmptyString => acc
  | String a r => rfind_from c r (i + 1) (if Ascii.eqb a c then i else acc)
  end.

Definition rfind (c : ascii) (s : string) : Z := rfind_from c s 0 (-1).

(** [s[a:b]] for indices within 0..len. *)
Definition slice (a b : Z) (s : string) : string :=
  substring (Z.to_nat a) (Z.to_nat (b - a)) s.

Fixpoint all_chars (p : ascii -> bool) (s : string) : bool :=
  match s with
  | EmptyString => true
  | String c r => p c && all_chars p r
  end.

(** [os.path.splitext] (posixpath): the extension starts at the last dot
    of the last path component, and leading dots of that component do not
    start an extension.  The library's loop returns at the first
    character between the separator and the last dot that is not a dot;
    [all_chars] says that there is none. *)
Definition splitext (p : string) : string * string :=
  let sepIndex := rfind "/" p in
  let dotIndex := rfind "." p in
  if (dotIndex >? sepIndex)%Z then
    if all_chars (Ascii.eqb ".") (slice (sepIndex + 1) dotIndex p)
    then (p, "")
    else (slice 0 dotIndex p, slice dotIndex (Z.of_nat (String.length p)) p)
  else (p, "").

(** [os.path.join(a, b)] for two components (posixpath). *)
Definition path_join (a b : string) : string :=
  if prefix "/" b then b
  else if (a =? "") || (rfind "/" a =? Z.of_nat (String.length a) - 1)%Z
       then a ++ b
       else a ++ "/" ++ b.

(** [s.split(sep)[1]] for a one-character separator that occurs in [s]:
    what lies between the first and the second occurrence. *)
Fixpoint upto (c : ascii) (s : string) : string :=
  match s with
  | EmptyString => EmptyString
  | String a r => if Ascii.eqb a c then EmptyString else String a (upto c r)
  end.

Fixpoint after (c : ascii) (s : string) : string :=
  match s with
  | EmptyString => EmptyString
  | String a r => if Ascii.eqb a c then r else after c r
  end.

Definition split_second (c : ascii) (s : string) : string :=
  upto c (after c s).

(** *** Byte strings and unicode

    Python 2 has byte strings ([str]) and [unicode] texts.  A byte string
    is held as its bytes; a unicode text is held as the bytes of its
    UTF-8 form, in which a byte [10xxxxxx] continues a character and
    every other byte starts one. *)
Definition continuation (c : ascii) : bool :=
  let n := nat_of_ascii c in (128 <=? n)%nat && (n <=? 191)%nat.

(** [len(u)] for a unicode text: the number of its characters (code
    points). *)
Fixpoint chars (u : string) : nat :=
  match u with
  | EmptyString => 0
  | String c r => if continuation c then chars r else S (chars r)
  end.

(** Well-formed UTF-8: [need] bytes of the character are still to come,
    and the next is between [lo] and [hi]. *)
Fixpoint utf8_from (need lo hi : nat) (s : string) : bool :=
  match s with
  | EmptyString => (need =? 0)%nat
  | String c r =>
      let n := nat_of_ascii c in
      match need with
      | S k => (lo <=? n)%nat && (n <=? hi)%nat && utf8_from k 128 191 r
      | O =>
          if (n <? 128)%nat then utf8_from 0 128 191 r
          else if (194 <=? n)%nat && (n <=? 223)%nat then utf8_from 1 128 191 r
          else if (n =? 224)%nat then utf8_from 2 160 191 r
          else if (225 <=? n)%nat && (n <=? 239)%nat then utf8_from 2 128 191 r
          else if (n =? 240)%nat then utf8_from 3 144 191 r
          else if (241 <=? n)%nat && (n <=? 243)%nat then utf8_from 3 128 191 r
          else if (n =? 244)%nat then utf8_from 3 128 143 r
          else false
      end
  end.

(** [s.decode('utf-8')]: the text, or nothing when the bytes are not
    UTF-8 and the call raises [UnicodeDecodeError]. *)
Definition utf8_decode (s : string) : option string :=
  if utf8_from 0 128 191 s then Some s else None.

(** The text of the given bytes. *)
Fixpoint bytes (l : list nat) : string :=
  match l with
  | [] => EmptyString
  | n :: r => String (ascii_of_nat n) (bytes r)
  end.

End PyStr.

(* ------------------------------------------------------------------ *)
(** ** Calls that may raise *)

(** An exception of the class [Exception], which is what the handlers of
    the scanner catch. *)
Inductive exn : Type :=
| KeyError (key : string)
| IOError (path : string)
| OtherError (what : string).

Inductive outcome (A : Type) : Type :=
| Returned (a : A)
| Raised (e : exn).

Arguments Returned {A} a.
Arguments Raised {A} e.

(** A Python dictionary with string keys, as a list of bindings with at most
    one binding per key. *)
Module Dict.

Definition t (V : Type) := list (string * V).

Fixpoint get {V} (d : t V) (k : string) : option V :=
  match d with
  | [] => None
  | (k', v) :: r => if k' =? k then Some v else get r k
  end.

Definition has {V} (d : t V) (k : string) : bool :=
  match get d k with Some _ => true | None => false end.

Fixpoint set {V} (d : t V) (k : string) (v : V) : t V :=
  match d with
  | [] => [(k, v)]
  | (k', v') :: r => if k' =? k then (k, v) :: r else (k', v') :: set r k v
  end.

End Dict.

(* ------------------------------------------------------------------ *)
(** ** Container readers: [get_book_info] *)

Module BookInfo.

(** An [ElementTree] element: tag, attribute dictionary, text (which may
    be [None]) and children; [len(e)] is the number of children and
    [e[n]] the n-th child. *)
Inductive element : Type :=
| Element (tag : string) (attrib : Dict.t string) (text : option string)
          (children : list element).

Definition tag (e : element) : string :=
  match e with Element t _ _ _ => t end.
Definition attrib (e : element) : Dict.t string :=
  match e with Element _ a _ _ => a end.
Definition text (e : element) : option string :=
  match e with Element _ _ x _ => x end.
Definition children (e : element) : list element :=
  match e with Element _ _ _ c => c end.

(** What the Mobi reader gives for a parsed container: the calls
    [book.author()], [book.title()], [book.language()] and [book.isbn()],
    each of which may raise. *)
Record mobi : Type := {
  mobi_author : outcome (option string);
  mobi_title : outcome (option string);
  mobi_language : outcome (option string);
  mobi_isbn : outcome (option string)
}.

(** A zip archive: its members by name, each with what reading it gives,
    its data or the error of a damaged member ([BadZipfile]). *)
Definition archive : Type := Dict.t (outcome string).

(** The libraries the reader calls.  [None] stands for a raised
    exception ([ZipFile], [Mobi.parse], [ElementTree.fromstring],
    [open]).  [decode] is [x.decode(lazylibrarian.SYS_ENCODING)] under
    [if isinstance(x, str)]: the unicode text of a byte string in the
    encoding of the system, the text itself when it is unicode already,
    and [None] when the bytes are no text of that encoding and the call
    raises [UnicodeDecodeError]. *)
Record world : Type := {
  ZipFile : string -> option archive;
  Mobi : string -> option mobi;
  fromstring : string -> option element;
  open_read : string -> option string;
  is_valid_isbn : option string -> bool;
  decode : string -> option string
}.

(** [zipdata.read(name)] raises [KeyError] when the archive has no member
    of that name, and what the member raises when it is damaged. *)
Definition zip_read (zipdata : archive) (name : string) : outcome string :=
  match Dict.get zipdata name with
  | Some member => member
  | None => Raised (KeyError name)
  end.

(** [if isinstance(x, str): x = x.decode(lazylibrarian.SYS_ENCODING)] for
    a value that may be [None]. *)
Definition decode_value (w : world) (x : option string)
  : outcome (option string) :=
  match x with
  | None => Returned None
  | Some s =>
      match decode w s with
      | Some u => Returned (Some u)
      | None => Raised (OtherError "UnicodeDecodeError")
      end
  end.

(** [str(attrib)]: the text of a dictionary of strings. *)
Fixpoint repr_items (a : Dict.t string) : string :=
  match a with
  | [] => ""
  | [(k, v)] => "'" ++ k ++ "': '" ++ v ++ "'"
  | (k, v) :: r => "'" ++ k ++ "': '" ++ v ++ "', " ++ repr_items r
  end.

Definition repr_attrib (a : Dict.t string) : string :=
  "{" ++ repr_items a ++ "}".

(** Modelled from the spec: [formatter.replace_all], which is not part of
    the sources at hand; it applies every replacement of the dictionary
    to the text (here: stray [<br>] and [</br>] tags are removed). *)
Definition replace_all (txt : string) (dic : list (string * string)) : string :=
  fold_left (fun t kv => PyStr.replace (fst kv) (snd kv) t) dic txt.

(** The result dictionary; a value may be [None]. *)
Definition result := Dict.t (option string).

(** The first [while] loop: the [full-path] attribute of the first child
    of [tree[0]] that has one; [cfname] stays [""] when none has. *)
Fixpoint find_full_path (l : list element) : string :=
  match l with
  | [] => ""
  | e :: r =>
      match Dict.get (attrib e) "full-path" with
      | Some p => p
      | None => find_full_path r
      end
  end.

(** One turn of the second [while] loop.  The text of an element is a
    byte string only when all of it is ASCII (the parser gives unicode
    otherwise), and its decode is then the text itself. *)
Definition repackage_one (w : world) (res : result) (e : element) : result :=
  let tag := PyStr.lower (tag e) in
  if PyStr.contains "}" tag then
    let tag := PyStr.split_second "}" tag in
    let txt := text e in
    let attrib := PyStr.lower (repr_attrib (attrib e)) in
    if PyStr.contains "title" tag then Dict.set res "title" txt
    else if PyStr.contains "language" tag then Dict.set res "language" txt
    else if PyStr.contains "creator" tag && negb (Dict.has res "creator")
         then Dict.set res "creator" txt
    else if PyStr.contains "identifier" tag && PyStr.contains "isbn" attrib
         then (if is_valid_isbn w txt then Dict.set res "identifier" txt else res)
    else if PyStr.contains "identifier" tag && PyStr.contains "goodreads" attrib
         then Dict.set res "gr_id" txt
    else res
  else res.

(** The tail of the function, shared by epub and opf: parse the metadata
    text and repackage the children of its first child. *)
Definition repackage (w : world) (res : result) (txt : string) : outcome result :=
  match fromstring w txt with
  | None => Returned res
  | Some tree =>
      match children tree with
      | [] => Returned res
      | tree0 :: _ => Returned (fold_left (repackage_one w) (children tree0) res)
      end
  end.

Definition get_book_info (w : world) (fname : string) : outcome result :=
  let res : result := [] in
  let extn := snd (PyStr.splitext fname) in
  if negb (PyStr.truthy extn) then Returned res
  else if (extn =? ".mobi") || (extn =? ".azw3") then
    let res := Dict.set res "type" (Some (PyStr.slice 1 (Z.of_nat (String.length extn)) extn)) in
    match Mobi w fname with
    | None => Returned res
    | Some book =>
        match mobi_author book with
        | Raised e => Raised e
        | Returned author =>
        match mobi_title book with
        | Raised e => Raised e
        | Returned title =>
        match decode_value w author with
        | Raised e => Raised e
        | Returned author =>
        match decode_value w title with
        | Raised e => Raised e
        | Returned title =>
            let res := Dict.set res "creator" author in
            let res := Dict.set res "title" title in
            match mobi_language book with
            | Raised e => Raised e
            | Returned language =>
                let res := Dict.set res "language" language in
                match mobi_isbn book with
                | Raised e => Raised e
                | Returned isbn =>
                    let res := Dict.set res "identifier" isbn in
                    Returned res
                end
            end
        end end end end
    end
  else if extn =? ".epub" then
    let res := Dict.set res "type" (Some "epub") in
    match ZipFile w fname with
    | None => Returned res
    | Some zipdata =>
        match zip_read zipdata "META-INF/container.xml" with
        | Raised e => Raised e
        | Returned txt =>
            match fromstring w txt with
            | None => Returned res
            | Some tree =>
                match children tree with
                | [] => Returned res
                | tree0 :: _ =>
                    let cfname := find_full_path (children tree0) in
                    match zip_read zipdata cfname with
                    | Raised e => Raised e
                    | Returned txt => repackage w res txt
                    end
                end
            end
        end
    end
  else if extn =? ".opf" then
    let res := Dict.set res "type" (Some "opf") in
    match open_read w fname with
    | None => Raised (IOError fname)
    | Some txt =>
        let dic := [("<br>", ""); ("</br>", "")] in
        repackage w res (replace_all txt dic)
    end
  else Returned res.

(** An epub whose container.xml is well-formed and has children, none of
    which names the content file. *)
Definition container_without_full_path : element :=
  Element "container" [] None
    [Element "rootfiles" [] None
       [Element "rootfile" [("media-type", "application/oebps-package+xml")] None []]].

Definition container_text : string :=
  "<container><rootfiles><rootfile media-type='application/oebps-package+xml'/></rootfiles></container>".

Definition broken_epub_world : world := {|
  ZipFile := fun fname =>
    if fname =? "/books/a/broken.epub"
    then Some [("META-INF/container.xml", Returned container_text);
               ("content.opf", Returned "<package/>")]
    else None;
  Mobi := fun _ => None;
  fromstring := fun txt =>
    if txt =? container_text then Some container_without_full_path else None;
  open_read := fun _ => None;
  is_valid_isbn := fun _ => false;
  decode := PyStr.utf8_decode
|}.

(** An epub whose container.xml is damaged, and a mobi whose author is
    no UTF-8 (the byte 255). *)
Definition damaged_world : world := {|
  ZipFile := fun _ =>
    Some [("META-INF/container.xml", Raised (OtherError "BadZipfile"))];
  Mobi := fun _ =>
    Some {| mobi_author := Returned (Some (PyStr.bytes [74; 255; 110; 101]));
            mobi_title := Returned (Some "Emma");
            mobi_language := Returned (Some "en");
            mobi_isbn := Returned None |};
  fromstring := fun _ => None;
  open_read := fun _ => None;
  is_valid_isbn := fun _ => false;
  decode := PyStr.utf8_decode
|}.

End BookInfo.

(* ------------------------------------------------------------------ *)
(** ** The catalog store *)

Module Db.

(** The double-quote character, and a string made of it. *)
Definition dquote_char : ascii := ascii_of_nat 34.
Definition dquote : string := String dquote_char EmptyString.

(** Rows of the [authors] and [books] tables, with the columns the scanner
    reads or writes.  A column that may be NULL is an [option]. *)
Record author_row : Type := {
  a_AuthorID : string;
  a_AuthorName : string;
  a_Status : string
}.

Record book_row : Type := {
  b_BookID : string;
  b_AuthorID : string;
  b_BookName : string;
  b_BookISBN : option string;
  b_Status : string;
  b_BookFile : option string;
  b_BookLibrary : option string;
  b_AudioStatus : string;
  b_AudioFile : option string;
  b_AudioLibrary : option string
}.

(** A row of the [languages] table: [(isbn, lang)]; the language is NULL
    when the metadata of the file gave [None] for it. *)
Definition language_row : Type := (string * option string)%type.

Record db : Type := {
  authors : list author_row;
  books : list book_row;
  languages : list language_row
}.

(** Comparison under [COLLATE NOCASE]: the 26 upper case letters of ASCII
    are folded to lower case, then the texts are compared. *)
Definition nocase_eqb (a b : string) : bool :=
  PyStr.lower a =? PyStr.lower b.

(** [FROM books,authors WHERE books.AuthorID = authors.AuthorID]. *)
Definition books_authors (d : db) : list (book_row * author_row) :=
  flat_map
    (fun b => map (pair b)
                  (filter (fun a => a_AuthorID a =? b_AuthorID b) (authors d)))
    (books d).

(** Modelled from the spec: [DBConnection.match] and [DBConnection.select]
    of [lazylibrarian/database.py], which is not part of the sources at
    hand: [select] gives the rows of the query, [match] the first of them
    or nothing.  Parameters are bound to the statement as they are. *)
Definition select_where {R} (p : R -> bool) (rows : list R) : list R :=
  filter p rows.

Definition match_where {R} (p : R -> bool) (rows : list R) : option R :=
  match filter p rows with
  | [] => None
  | r :: _ => Some r
  end.

End Db.

(* ------------------------------------------------------------------ *)
(** ** Fuzzy catalog matcher: [find_book_in_db] *)

Module Matcher.
Import Db.

(** The string functions of [formatter] and [fuzzywuzzy] that the matcher
    calls; they are not part of the sources at hand and every statement
    below holds for all of them. *)
Record fuzz : Type := {
  unaccented : string -> string;
  split_title : string -> string -> string * string;
  getList : string -> list string;
  token_sort_ratio : string -> string -> Z;
  partial_ratio : string -> string -> Z
}.

(** The local variables of the loop.  An id is [None] while it holds the
    integer 0 it is initialised with.  The [*_name] variables are only
    logged and are left out. *)
Record best : Type := {
  best_ratio : Z;
  best_partial : Z;
  best_partname : Z;
  ratio_id : option string;
  partial_id : option string;
  partname_id : option string;
  partname : Z
}.

Definition best_init : best := {|
  best_ratio := 0; best_partial := 0; best_partname := 0;
  ratio_id := None; partial_id := None; partname_id := None;
  partname := 0
|}.

(** The body of [for a_book in books]. *)
Definition fuzzy_step (fz : fuzz) (book_lower book_partname : string)
           (st : best) (a_book : book_row) : best :=
  let a_book_lower := unaccented fz (PyStr.lower (b_BookName a_book)) in
  let ratio := token_sort_ratio fz book_lower a_book_lower in
  let partial := partial_ratio fz book_lower a_book_lower in
  let partname :=
    if PyStr.truthy book_partname
    then partial_ratio fz book_partname a_book_lower
    else partname st in
  let words := (Z.of_nat (List.length (getList fz book_lower))
                - Z.of_nat (List.length (getList fz a_book_lower)))%Z in
  let ratio := (ratio - Z.abs words)%Z in
  let partial := (partial - Z.abs words)%Z in
  let partname := (partname - Z.abs words)%Z in
  let st1 :=
    if (ratio >? best_ratio st)%Z
    then {| best_ratio := ratio; best_partial := best_partial st;
            best_partname := best_partname st;
            ratio_id := Some (b_BookID a_book); partial_id := partial_id st;
            partname_id := partname_id st; partname := partname |}
    else {| best_ratio := best_ratio st; best_partial := best_partial st;
            best_partname := best_partname st;
            ratio_id := ratio_id st; partial_id := partial_id st;
            partname_id := partname_id st; partname := partname |} in
  let st2 :=
    if (partial >? best_partial st1)%Z
    then {| best_ratio := best_ratio st1; best_partial := partial;
            best_partname := best_partname st1;
            ratio_id := ratio_id st1; partial_id := Some (b_BookID a_book);
            partname_id := partname_id st1; partname := partname |}
    else st1 in
  if (partname >? best_partname st2)%Z
  then {| best_ratio := best_ratio st2; best_partial := best_partial st2;
          best_partname := partname;
          ratio_id := ratio_id st2; partial_id := partial_id st2;
          partname_id := Some (b_BookID a_book); partname := partname |}
  else st2.

(** The [else] branch of [find_book_in_db], on the rows [books] that the
    second query gives. *)
Definition fuzzy_match (fz : fuzz) (author book : string)
           (books : list book_row) : option string :=
  let book_lower := unaccented fz (PyStr.lower book) in
  let book_partname := fst (split_title fz author book_lower) in
  let book_partname :=
    if book_partname =? book_lower then "" else book_partname in
  let st := fold_left (fuzzy_step fz book_lower book_partname) books best_init in
  if (best_ratio st >? 90)%Z then ratio_id st
  else if (best_partial st >? 85)%Z then partial_id st
  else if (best_partname st >? 95)%Z then partname_id st
  else None.

(** The query parameter: every double quote of [s] is doubled
    ([s.replace] of one double quote by two). *)
Definition sql_param (s : string) : string :=
  PyStr.replace dquote (dquote ++ dquote) s.

(** [find_book_in_db(author, book)]; [None] is the 0 it returns when no
    book is found. *)
Definition find_book_in_db (fz : fuzz) (d : db) (author book : string)
  : option string :=
  let match_ :=
    match_where
      (fun ba => nocase_eqb (a_AuthorName (snd ba)) (sql_param author)
                 && nocase_eqb (b_BookName (fst ba)) (sql_param book))
      (books_authors d) in
  match match_ with
  | Some ba => Some (b_BookID (fst ba))
  | None =>
      let books :=
        select_where
          (fun ba => nocase_eqb (a_AuthorName (snd ba)) (sql_param author))
          (books_authors d) in
      fuzzy_match fz author book (map fst books)
  end.

(** *** The matcher in the words of the specification *)

(** The word-count penalty between the normalised query title [q] and the
    normalised candidate title [c]. *)
Definition penalty (fz : fuzz) (q c : string) : Z :=
  Z.abs (Z.of_nat (List.length (getList fz q))
         - Z.of_nat (List.length (getList fz c))).

Definition normalised (fz : fuzz) (title : string) : string :=
  unaccented fz (PyStr.lower title).

Definition adjusted_ratio (fz : fuzz) (q : string) (b : book_row) : option Z :=
  let c := normalised fz (b_BookName b) in
  Some (token_sort_ratio fz q c - penalty fz q c)%Z.

Definition adjusted_partial (fz : fuzz) (q : string) (b : book_row) : option Z :=
  let c := normalised fz (b_BookName b) in
  Some (partial_ratio fz q c - penalty fz q c)%Z.

(** The core title is used when it differs from the full title (and is
    not empty: there is then nothing to compare). *)
Definition core_used (core q : string) : bool :=
  negb (core =? q) && PyStr.truthy core.

Definition adjusted_partname (fz : fuzz) (core q : string) (b : book_row)
  : option Z :=
  let c := normalised fz (b_BookName b) in
  if core_used core q
  then Some (partial_ratio fz core c - penalty fz q c)%Z
  else None.

(** One running maximum: the best score so far, starting from 0, and the
    id of the candidate that set it. *)
Definition running_step (score : book_row -> option Z)
           (acc : Z * option string) (b : book_row) : Z * option string :=
  match score b with
  | Some s => if (s >? fst acc)%Z then (s, Some (b_BookID b)) else acc
  | None => acc
  end.

Definition running_max (score : book_row -> option Z) (cands : list book_row)
  : Z * option string :=
  fold_left (running_step score) cands (0%Z, None).

(** Threshold selection in the fixed order ratio, partial, partname. *)
Definition select (r p n : Z * option string) : option string :=
  if (fst r >? 90)%Z then snd r
  else if (fst p >? 85)%Z then snd p
  else if (fst n >? 95)%Z then snd n
  else None.

Definition approximate_match (fz : fuzz) (author book : string)
           (cands : list book_row) : option string :=
  let q := normalised fz book in
  let core := fst (split_title fz author q) in
  select (running_max (adjusted_ratio fz q) cands)
         (running_max (adjusted_partial fz q) cands)
         (running_max (adjusted_partname fz core q) cands).

(** A crude scorer to run the matcher on examples: titles score 100 when
    they are equal, or when one holds the other, and 0 when not; the
    reduced title is what stands before a bracket. *)
Fixpoint words_from (s cur : string) : list string :=
  match s with
  | EmptyString => if cur =? "" then [] else [cur]
  | String c r =>
      if Ascii.eqb c " "
      then (if cur =? "" then words_from r "" else cur :: words_from r "")
      else words_from r (cur ++ String c EmptyString)%string
  end.

Definition toy_fuzz : fuzz := {|
  unaccented := fun s => s;
  split_title := fun _ book => (PyStr.upto "(" book, PyStr.after "(" book);
  getList := fun s => words_from s "";
  token_sort_ratio := fun a b => if a =? b then 100%Z else 0%Z;
  partial_ratio := fun a b =>
    if PyStr.contains a b || PyStr.contains b a then 100%Z else 0%Z
|}.

Definition austen_catalog : db := {|
  authors := [ {| a_AuthorID := "a1"; a_AuthorName := "Jane Austen";
                  a_Status := "Active" |} ];
  books := [ {| b_BookID := "b1"; b_AuthorID := "a1"; b_BookName := "Emma";
                b_BookISBN := None; b_Status := "Open";
                b_BookFile := None; b_BookLibrary := None;
                b_AudioStatus := "Skipped"; b_AudioFile := None;
                b_AudioLibrary := None |};
             {| b_BookID := "b2"; b_AuthorID := "a1";
                b_BookName := "Pride and Prejudice";
                b_BookISBN := None; b_Status := "Open";
                b_BookFile := None; b_BookLibrary := None;
                b_AudioStatus := "Skipped"; b_AudioFile := None;
                b_AudioLibrary := None |} ];
  languages := []
|}.

(** A catalog with one author whose name holds double quotes. *)
Definition quoted_author : string :=
  "Dwayne " ++ dquote ++ "The Rock" ++ dquote ++ " Johnson".

Definition quoted_catalog : db := {|
  authors := [ {| a_AuthorID := "a1"; a_AuthorName := quoted_author;
                  a_Status := "Active" |} ];
  books := [ {| b_BookID := "b7"; b_AuthorID := "a1"; b_BookName := "Foo";
                b_BookISBN := None; b_Status := "Open";
                b_BookFile := None; b_BookLibrary := None;
                b_AudioStatus := "Skipped"; b_AudioFile := None;
                b_AudioLibrary := None |} ];
  languages := []
|}.

End Matcher.

(* ------------------------------------------------------------------ *)
(** ** Filename pattern: the expression compiled from the file template *)

Module Pattern.

(** [for char in EBOOK_DEST_FILE: matchString = matchString + '\\' + char]. *)
Fixpoint escape_each (template : string) : string :=
  match template with
  | EmptyString => EmptyString
  | String c r => String "\" (String c (escape_each r))
  end.

(** The loop over [booktype_list], with its counter. *)
Fixpoint join_booktypes (count : Z) (booktypes : string) (l : list string)
  : string :=
  match l with
  | [] => booktypes
  | book_type :: r =>
      let count := (count + 1)%Z in
      join_booktypes count
        (if (count =? 0)%Z then book_type else booktypes ++ "|" ++ book_type)
        r
  end.

(** The text handed to [re.compile]. *)
Definition matchString (template : string) (booktype_list : list string)
  : string :=
  let booktypes := join_booktypes (-1) "" booktype_list in
  PyStr.replace "\$\T\i\t\l\e" "(?P<book>.*?)"
    (PyStr.replace "\$\A\u\t\h\o\r" "(?P<author>.*?)" (escape_each template))
  ++ "\.[" ++ booktypes ++ "]".

(** The part of Python's regular expressions that such a text can hold:
    a literal character, a lazy named group [(?P<name>.*?)], and a
    character set [[...]]. *)
Inductive node : Type :=
| Lit (c : ascii)
| LazyAny (name : string)
| CharSet (cs : list ascii).

Definition is_digit (c : ascii) : bool :=
  let n := nat_of_ascii c in (48 <=? n)%nat && (n <=? 57)%nat.

(** After a backslash these have a meaning of their own; every other
    character stands for itself. *)
Definition special_escape (c : ascii) : bool :=
  is_digit c || existsb (Ascii.eqb c) (list_ascii_of_string "AbBdDsSwWZafnrtvx").

Definition metachar (c : ascii) : bool :=
  existsb (Ascii.eqb c) (list_ascii_of_string ".^$*+?{}|()[]\#").

Definition whitespace (c : ascii) : bool :=
  existsb (Ascii.eqb c) [" "%char; ascii_of_nat 9; ascii_of_nat 10;
                         ascii_of_nat 11; ascii_of_nat 12; ascii_of_nat 13].

(** The characters of a set up to its closing bracket, and what follows;
    ranges, escapes and negation are outside the modelled part. *)
Fixpoint read_set (s : string) (acc : list ascii) : option (list ascii * string) :=
  match s with
  | EmptyString => None
  | String c r =>
      if Ascii.eqb c "]" then
        match acc with [] => None | _ => Some (rev acc, r) end
      else if Ascii.eqb c "\" || Ascii.eqb c "-" || Ascii.eqb c "["
              || (Ascii.eqb c "^" && match acc with [] => true | _ => false end)
           then None
           else read_set r (c :: acc)
  end.

Definition group_names (ns : list node) : list string :=
  flat_map (fun n => match n with LazyAny name => [name] | _ => [] end) ns.

(** [re.compile(text, re.VERBOSE)] on the modelled part; [None] for a text
    outside it or one that [re] refuses.  In verbose mode white space
    outside a set is dropped unless a backslash precedes it. *)
Fixpoint parse (fuel : nat) (s : string) : option (list node) :=
  match fuel with
  | O => match s with EmptyString => Some [] | _ => None end
  | S fuel =>
      match s with
      | EmptyString => Some []
      | String c r =>
          if Ascii.eqb c "\" then
            match r with
            | EmptyString => None
            | String e r' =>
                if special_escape e then None
                else option_map (cons (Lit e)) (parse fuel r')
            end
          else if prefix "(?P<" s then
            let after_open := PyStr.slice 4 (Z.of_nat (String.length s)) s in
            let name := PyStr.upto ">" after_open in
            let rest := PyStr.after ">" after_open in
            if prefix ".*?)" rest && PyStr.truthy name then
              option_map (cons (LazyAny name))
                         (parse fuel (PyStr.slice 4 (Z.of_nat (String.length rest)) rest))
            else None
          else if Ascii.eqb c "[" then
            match read_set r [] with
            | Some (cs, rest) => option_map (cons (CharSet cs)) (parse fuel rest)
            | None => None
            end
          else if whitespace c then parse fuel r
          else if metachar c then None
          else option_map (cons (Lit c)) (parse fuel r)
      end
  end.

Fixpoint distinct (l : list string) : bool :=
  match l with
  | [] => true
  | x :: r => negb (existsb (String.eqb x) r) && distinct r
  end.

(** A group name may be defined once only. *)
Definition compile (text : string) : option (list node) :=
  match parse (String.length text) text with
  | Some ns => if distinct (group_names ns) then Some ns else None
  | None => None
  end.

Definition newline : ascii := ascii_of_nat 10.

(** Matching from the start of [s], by backtracking: a lazy group first
    tries to take nothing and takes one more character (any but a
    newline) each time the rest of the expression fails.  The result
    holds what each group has taken. *)
Fixpoint match_nodes (ns : list node) (s : string) (groups : Dict.t string)
  : option (Dict.t string) :=
  match ns with
  | [] => Some groups
  | Lit c :: r =>
      match s with
      | String a s' => if Ascii.eqb a c then match_nodes r s' groups else None
      | EmptyString => None
      end
  | CharSet cs :: r =>
      match s with
      | String a s' =>
          if existsb (Ascii.eqb a) cs then match_nodes r s' groups else None
      | EmptyString => None
      end
  | LazyAny name :: r =>
      (fix expand (taken s : string) {struct s} : option (Dict.t string) :=
         match match_nodes r s (Dict.set groups name taken) with
         | Some g => Some g
         | None =>
             match s with
             | EmptyString => None
             | String a s' =>
                 if Ascii.eqb a newline then None
                 else expand (taken ++ String a EmptyString)%string s'
             end
         end) EmptyString s
  end.

(** [pattern.match(files)]: the groups of the match, or [None]. *)
Definition re_match (pattern : list node) (files : string)
  : option (Dict.t string) :=
  match_nodes pattern files [].

(** The pattern of a scan, from the two configuration values. *)
Definition scan_pattern (template : string) (booktype_list : list string)
  : option (list node) :=
  compile (matchString template booktype_list).

(** The configuration as it is shipped, and its pattern. *)
Definition default_template : string := "$Title - $Author".
Definition default_booktypes : list string := ["epub"; "mobi"; "pdf"].

Definition default_pattern : list node :=
  Eval vm_compute in
    match scan_pattern default_template default_booktypes with
    | Some p => p
    | None => []
    end.

End Pattern.

(* ------------------------------------------------------------------ *)
(** ** Language cache *)

Module LangCache.
Import Db.

(** [SELECT lang FROM languages where isbn=?]: the first row of that
    prefix. *)
Definition match_lang (isbnhead : string) (tbl : list language_row)
  : option language_row :=
  match_where (fun row => fst row =? isbnhead) tbl.

(** [insert into languages values (?, ?)]. *)
Definition insert_lang (isbnhead : string) (language : option string)
           (tbl : list language_row) : list language_row :=
  tbl ++ [(isbnhead, language)].

(** The cache write of a matched file, for the language and the isbn its
    metadata gave. *)
Definition cache_language (is_valid_isbn : string -> bool)
           (language : option string) (isbn : string) (tbl : list language_row)
  : list language_row :=
  if negb (match language with Some l => l =? "Unknown" | None => false end)
     && is_valid_isbn isbn then
    let isbnhead :=
      if (String.length isbn =? 10)%nat
      then PyStr.slice 0 3 isbn
      else PyStr.slice 3 6 isbn in
    match match_lang isbnhead tbl with
    | None => insert_lang isbnhead language tbl
    | Some _ => tbl
    end
  else tbl.

(** The cache writes of a scan, file after file; each file comes with
    the [(language, isbn)] of its metadata. *)
Definition cache_languages (is_valid_isbn : string -> bool)
           (found : list (option string * string)) (tbl : list language_row)
  : list language_row :=
  fold_left (fun t m => cache_language is_valid_isbn (fst m) (snd m) t) found tbl.

(** The language cached for a prefix. *)
Definition cached (isbnhead : string) (tbl : list language_row)
  : option (option string) :=
  option_map snd (match_lang isbnhead tbl).

(** A stand-in for [formatter.is_valid_isbn] that checks the length only. *)
Definition length_10_or_13 (isbn : string) : bool :=
  (String.length isbn =? 10)%nat || (String.length isbn =? 13)%nat.

End LangCache.

(* ------------------------------------------------------------------ *)
(** ** Removal detection *)

Module Removal.
Import Db.

(** The SQL operator [LIKE] of SQLite: [%] stands for any run of
    characters, [_] for any one character, and letters of ASCII match
    in either case. *)
Fixpoint like (pat s : string) : bool :=
  match pat with
  | EmptyString => match s with EmptyString => true | _ => false end
  | String p pat' =>
      if Ascii.eqb p "%" then
        (fix any (s : string) : bool :=
           like pat' s
           || match s with
              | EmptyString => false
              | String _ s' => any s'
              end) s
      else
        match s with
        | EmptyString => false
        | String a s' =>
            (Ascii.eqb p "_"
             || Ascii.eqb (PyStr.lower_ascii a) (PyStr.lower_ascii p))
            && like pat' s'
        end
  end.

(** [col like "<startdir>%"]; NULL is like nothing. *)
Definition under (startdir : string) (file : option string) : bool :=
  match file with
  | Some f => like (startdir ++ "%") f
  | None => false
  end.

Definition not_null (x : option string) : bool :=
  match x with Some _ => true | None => false end.

(** [update books set Status=?,BookFile='',BookLibrary='' where BookID=?]
    with empty texts for the file and the library date. *)
Definition mark_ebook (status bookid : string) (b : book_row) : book_row :=
  if b_BookID b =? bookid then
    {| b_BookID := b_BookID b; b_AuthorID := b_AuthorID b;
       b_BookName := b_BookName b; b_BookISBN := b_BookISBN b;
       b_Status := status; b_BookFile := Some ""; b_BookLibrary := Some "";
       b_AudioStatus := b_AudioStatus b; b_AudioFile := b_AudioFile b;
       b_AudioLibrary := b_AudioLibrary b |}
  else b.

(** The same for [AudioStatus], [AudioFile] and [AudioLibrary]. *)
Definition mark_audio (status bookid : string) (b : book_row) : book_row :=
  if b_BookID b =? bookid then
    {| b_BookID := b_BookID b; b_AuthorID := b_AuthorID b;
       b_BookName := b_BookName b; b_BookISBN := b_BookISBN b;
       b_Status := b_Status b; b_BookFile := b_BookFile b;
       b_BookLibrary := b_BookLibrary b;
       b_AudioStatus := status; b_AudioFile := Some "";
       b_AudioLibrary := Some "" |}
  else b.

Definition update_books (f : book_row -> book_row) (d : db) : db :=
  {| authors := authors d; books := map f (books d); languages := languages d |}.

(** The rows of the query of one library, whose file and library-date
    columns [file] and [lib] read: [<lib> is not null], and in a scan of
    a part of the library [and <file> like "<startdir>%"]. *)
Definition selected (file lib : book_row -> option string)
           (startdir destdir : string) (ba : book_row * author_row) : bool :=
  not_null (lib (fst ba))
  && (if negb (startdir =? destdir) then under startdir (file (fst ba)) else true).

(** The body of [for book in books:]; [mark] is the update statement. *)
Definition remove_step (file : book_row -> option string)
           (mark : string -> string -> book_row -> book_row)
           (isfile : string -> bool) (status : string)
           (d : db) (ba : book_row * author_row) : db :=
  match file (fst ba) with
  | Some bookfile =>
      if PyStr.truthy bookfile && negb (isfile bookfile)
      then update_books (mark status (b_BookID (fst ba))) d
      else d
  | None => d
  end.

(** One branch of [if remove:].  The rows are selected once; the loop
    then updates the table row by row. *)
Definition remove_columns (file lib : book_row -> option string)
           (mark : string -> string -> book_row -> book_row)
           (isfile : string -> bool) (status startdir destdir : string)
           (d : db) : db :=
  let books := select_where (selected file lib startdir destdir) (books_authors d) in
  fold_left (remove_step file mark isfile status) books d.

(** [bookfile and not os.path.isfile(bookfile)]. *)
Definition gone (file : book_row -> option string) (isfile : string -> bool)
           (b : book_row) : bool :=
  match file b with
  | Some bookfile => PyStr.truthy bookfile && negb (isfile bookfile)
  | None => false
  end.

(** Some row of [rows] is gone and has the id of [b]. *)
Definition touched (file : book_row -> option string) (isfile : string -> bool)
           (rows : list (book_row * author_row)) (b : book_row) : bool :=
  existsb (fun ba => gone file isfile (fst ba)
                     && (b_BookID b =? b_BookID (fst ba))) rows.

(** The block [if remove:] of [LibraryScan].  The start directory is
    pasted into the text of the statement between double quotes; a start
    directory that holds a double quote is not modelled ([None]). *)
Definition remove_missing (isfile : string -> bool)
           (status library startdir destdir : string) (d : db) : option db :=
  if negb (startdir =? destdir) && PyStr.contains dquote startdir then None
  else if library =? "eBook"
       then Some (remove_columns b_BookFile b_BookLibrary mark_ebook
                                 isfile status startdir destdir d)
       else Some (remove_columns b_AudioFile b_AudioLibrary mark_audio
                                 isfile status startdir destdir d).

(** The columns of a library. *)
Definition file_column (library : string) : book_row -> option string :=
  if library =? "eBook" then b_BookFile else b_AudioFile.

Definition lib_column (library : string) : book_row -> option string :=
  if library =? "eBook" then b_BookLibrary else b_AudioLibrary.

Definition mark_of (library : string) : string -> string -> book_row -> book_row :=
  if library =? "eBook" then mark_ebook else mark_audio.

(** An entry that the pass takes as lost: it has an author row and a
    library date, a recorded path that is not empty and is not a file on
    disk, and, in a scan of a part of the library, a path that is like the
    start directory followed by anything. *)
Definition lost (isfile : string -> bool) (library startdir destdir : string)
           (d : db) (b : book_row) : Prop :=
  In b (books d)
  /\ (exists a, In a (authors d) /\ a_AuthorID a = b_AuthorID b)
  /\ lib_column library b <> None
  /\ (startdir = destdir \/ under startdir (file_column library b) = true)
  /\ exists f, file_column library b = Some f /\ f <> "" /\ isfile f = false.

(** A catalog with one book on record under [/lib/a], and a disk on
    which that file is gone. *)
Definition one_book_catalog : db := {|
  authors := [ {| a_AuthorID := "a1"; a_AuthorName := "Jane Austen";
                  a_Status := "Active" |} ];
  books := [ {| b_BookID := "b1"; b_AuthorID := "a1"; b_BookName := "Emma";
                b_BookISBN := None; b_Status := "Open";
                b_BookFile := Some "/lib/a/Emma.epub";
                b_BookLibrary := Some "2017-01-01";
                b_AudioStatus := "Skipped"; b_AudioFile := None;
                b_AudioLibrary := None |} ];
  languages := []
|}.

Definition empty_disk (path : string) : bool := false.

End Removal.

(* ------------------------------------------------------------------ *)
(** ** The scan: [LibraryScan] *)

Module Scan.
Import Db.

(** What a scan works on: the catalog and the two update flags of the
    [lazylibrarian] module. *)
Record state : Type := {
  database : db;
  EBOOK_UPDATE : Z;
  AUDIO_UPDATE : Z
}.

(** A computation on the state that returns or raises. *)
Definition M (A : Type) : Type := state -> state * outcome A.

Definition ret {A} (a : A) : M A := fun s => (s, Returned a).

Definition raise {A} (e : exn) : M A := fun s => (s, Raised e).

Definition bind {A B} (c : M A) (k : A -> M B) : M B :=
  fun s =>
    match c s with
    | (s', Returned a) => k a s'
    | (s', Raised e) => (s', Raised e)
    end.

Notation "x <- c ;; k" := (bind c (fun x => k))
  (at level 61, c at next level, right associativity).
Notation "c ;;; k" := (bind c (fun _ => k))
  (at level 61, right associativity).

(** [try: c except Exception: h]. *)
Definition try_except {A} (c : M A) (h : M A) : M A :=
  fun s =>
    match c s with
    | (s', Returned a) => (s', Returned a)
    | (s', Raised _) => h s'
    end.

Definition modify (f : state -> state) : M unit := fun s => (f s, Returned tt).

Definition on_db (f : db -> db) (s : state) : state :=
  {| database := f (database s);
     EBOOK_UPDATE := EBOOK_UPDATE s; AUDIO_UPDATE := AUDIO_UPDATE s |}.

(** [EBOOK_UPDATE = v] or [AUDIO_UPDATE = v], by the library scanned. *)
Definition set_update_flag (library : string) (v : Z) (s : state) : state :=
  if library =? "eBook" then
    {| database := database s; EBOOK_UPDATE := v; AUDIO_UPDATE := AUDIO_UPDATE s |}
  else if library =? "Audio" then
    {| database := database s; EBOOK_UPDATE := EBOOK_UPDATE s; AUDIO_UPDATE := v |}
  else s.

(** Modelled from the spec: [DBConnection.upsert] of
    [lazylibrarian/database.py], which is not part of the sources at
    hand, for the table [authors], the value [Status] and the key
    [AuthorID].  It is called only after a row of that key was found, so
    it is the update of the rows of that key. *)
Definition upsert_author_status (authid status : string) (d : db) : db :=
  {| authors :=
       map (fun a =>
              if a_AuthorID a =? authid
              then {| a_AuthorID := a_AuthorID a;
                      a_AuthorName := a_AuthorName a; a_Status := status |}
              else a)
           (authors d);
     books := books d;
     languages := languages d |}.

(** [if authid: match = ...; if match: upsert(Status)]. *)
Definition set_author_status (authid : option string) (status : string)
  : M unit :=
  modify (fun s =>
    if PyStr.truthy_opt authid then
      match authid with
      | Some id =>
          match match_where (fun a => a_AuthorID a =? id) (authors (database s)) with
          | Some _ => on_db (upsert_author_status id status) s
          | None => s
          end
      | None => s
      end
    else s).

(** What the scan calls and does not define, and the parts of
    [LibraryScan] that the statements below do not look into: the
    cleanup at the start of a full scan (statistics, spaces in author
    names), the walk over the directory tree, which gives the number of
    new books and the last author it saw, the report at the end of a
    full scan, and [importer.update_totals]. *)
Record env : Type := {
  DIRECTORY : string -> string;
  isdir : string -> bool;
  isfile : string -> bool;
  NOTFOUND_STATUS : string;
  full_scan_cleanup : M unit;
  walk : string -> string -> M (Z * option string);
  full_scan_report : M unit;
  update_totals : string -> M unit
}.

(** [for author in authors: update_totals(author['AuthorID'])]. *)
Fixpoint update_all (e : env) (ids : list string) : M unit :=
  match ids with
  | [] => ret tt
  | id :: r => update_totals e id ;;; update_all e r
  end.

(** The removal pass as a step of the scan. *)
Definition remove_pass (e : env) (library startdir destdir : string) : M unit :=
  fun s =>
    match Removal.remove_missing (isfile e) (NOTFOUND_STATUS e)
                                 library startdir destdir (database s) with
    | Some d => (on_db (fun _ => d) s, Returned tt)
    | None => (s, Raised (OtherError "statement"))
    end.

(** The body of the [try]. *)
Definition scan_body (e : env) (startdir destdir library : string)
           (authid : option string) (remove : bool) : M (option Z) :=
  (if startdir =? destdir
   then modify (set_update_flag library 1) ;;; full_scan_cleanup e
   else set_author_status authid "Loading") ;;;
  (if remove then remove_pass e library startdir destdir else ret tt) ;;;
  found <- walk e startdir library ;;
  let new_book_count := fst found in
  let author := snd found in
  authors <-
    (if startdir =? destdir then
       full_scan_report e ;;;
       modify (set_update_flag library 0) ;;;
       (fun s => (s, Returned (map a_AuthorID (authors (database s)))))
     else
       set_author_status authid "Active" ;;;
       match author with
       | None => raise (OtherError "AttributeError")
       | Some author =>
           fun s =>
             (s, Returned
                   (map a_AuthorID
                        (select_where
                           (fun a => a_AuthorName a =? Matcher.sql_param author)
                           (authors (database s)))))
       end) ;;
  update_all e authors ;;;
  ret (Some new_book_count).

(** The [except Exception:] of [LibraryScan]; the function then ends
    without a value. *)
Definition scan_except (startdir destdir library : string)
           (authid : option string) : M (option Z) :=
  (if startdir =? destdir
   then modify (set_update_flag library 0)
   else set_author_status authid "Active") ;;;
  ret None.

Definition LibraryScan (e : env) (startdir : option string) (library : string)
           (authid : option string) (remove : bool) : M (option Z) :=
  let destdir := DIRECTORY e library in
  if negb (PyStr.truthy_opt startdir) && negb (PyStr.truthy destdir)
  then ret (Some 0%Z)
  else
    let startdir :=
      match startdir with
      | Some dir => if PyStr.truthy dir then dir else destdir
      | None => destdir
      end in
    if negb (isdir e startdir) then ret (Some 0%Z)
    else
      try_except (scan_body e startdir destdir library authid remove)
                 (scan_except startdir destdir library authid).

(** The ids and statuses of the author rows. *)
Definition statuses (s : state) : list (string * string) :=
  map (fun a => (a_AuthorID a, a_Status a)) (authors (database s)).

(** The author [authid] has a row. *)
Definition author_known (authid : string) (s : state) : Prop :=
  In authid (map fst (statuses s)).

(** The status of the author [authid]: that of every row of that id, of
    which there is one at least. *)
Definition author_has_status (authid status : string) (s : state) : Prop :=
  author_known authid s
  /\ forall row, In row (statuses s) -> fst row = authid -> snd row = status.

(** [c] keeps the property [I] of the state, whether it returns or
    raises; [c] started where [I] holds gives [Q] when it returns. *)
Definition keeps {A} (I : state -> Prop) (c : M A) : Prop :=
  forall s, I s -> I (fst (c s)).

Definition yields {A} (I Q : state -> Prop) (c : M A) : Prop :=
  forall s, I s -> forall s' a, c s = (s', Returned a) -> Q s'.

(** A library at [/lib] whose tree holds no file, with a walk that finds
    nothing, and one in which the walk raises. *)
Definition quiet_env : env := {|
  DIRECTORY := fun _ => "/lib";
  isdir := fun _ => true;
  isfile := fun _ => false;
  NOTFOUND_STATUS := "Skipped";
  full_scan_cleanup := ret tt;
  walk := fun _ _ => ret (0%Z, Some "");
  full_scan_report := ret tt;
  update_totals := fun _ => ret tt
|}.

Definition failing_env : env := {|
  DIRECTORY := fun _ => "/lib";
  isdir := fun _ => true;
  isfile := fun _ => false;
  NOTFOUND_STATUS := "Skipped";
  full_scan_cleanup := ret tt;
  walk := fun _ _ => raise (IOError "/lib/a");
  full_scan_report := ret tt;
  update_totals := fun _ => ret tt
|}.

Definition one_book_state : state := {|
  database := Removal.one_book_catalog;
  EBOOK_UPDATE := 0;
  AUDIO_UPDATE := 0
|}.

End Scan.

(* ------------------------------------------------------------------ *)
(** ** Metadata of one file: the cascade inside the walk *)

Module Resolver.

(** The readers the cascade calls.  [opf_file] and [is_valid_booktype]
    are functions of [common] and [formatter]; [id3] stands for the
    reads of the performer and title tags, which may raise. *)
Record readers : Type := {
  world : BookInfo.world;
  opf_file : string -> string;
  id3 : string -> outcome (option string * option string);
  is_valid_booktype : string -> string -> bool
}.

(** The calls made for a file, in order. *)
Inductive call : Type :=
| GetBookInfo (fname : string)
| Id3Reader (fname : string)
| PatternMatch (files : string).

(** The variables the cascade sets. *)
Record meta : Type := {
  matched : bool;
  author : option string;
  book : option string;
  language : option string;
  isbn : option string;
  gr_id : option string;
  extn : option string
}.

(** [len(x) > 2] for a text of the metadata, which is unicode. *)
Definition longer_than_2 (o : option string) : bool :=
  match o with
  | Some s => (2 <? PyStr.chars s)%nat
  | None => false
  end.

(** [author and book and len(book) > 2 and len(author) > 2]. *)
Definition usable (author book : option string) : bool :=
  PyStr.truthy_opt author && PyStr.truthy_opt book
  && longer_than_2 book && longer_than_2 author.

(** [res = get_book_info(f)] inside [try], with [res = {}] when it
    raises. *)
Definition read_info (rd : readers) (fname : string) : BookInfo.result :=
  match BookInfo.get_book_info (world rd) fname with
  | Returned res => res
  | Raised _ => []
  end.

Definition get_or {V} (res : Dict.t V) (key : string) (default : V) : V :=
  match Dict.get res key with Some v => v | None => default end.

(** The values a result gives, when it has a title and a creator; the
    file's own metadata may change [extn], the sidecar may set [gr_id]. *)
Definition take (res : BookInfo.result) (embedded : bool) (m : meta) : meta :=
  if Dict.has res "title" && Dict.has res "creator" then
    let book := get_or res "title" None in
    let author := get_or res "creator" None in
    {| matched := if usable author book then true else matched m;
       author := author;
       book := book;
       language := get_or res "language" (language m);
       isbn := get_or res "identifier" (isbn m);
       gr_id := if embedded then gr_id m else get_or res "gr_id" (gr_id m);
       extn := if embedded then get_or res "type" (extn m) else extn m |}
  else m.

(** The last step, on what [pattern.match(files)] gave: the groups
    [author] and [book] are read, the book and then the author are
    decoded, and the match is dropped when one of them is empty or has
    two characters or less.  Reading a group that the pattern does not
    define raises [IndexError], and a capture that is no text of the
    encoding of the system raises [UnicodeDecodeError]. *)
Definition pattern_step (rd : readers) (m : meta)
           (found : option (Dict.t string)) : outcome meta :=
  match found with
  | None => Returned
      {| matched := false; author := author m; book := book m;
         language := language m; isbn := isbn m; gr_id := gr_id m;
         extn := extn m |}
  | Some groups =>
      match Dict.get groups "author", Dict.get groups "book" with
      | Some author, Some book =>
          let match_ := true in
          let match_ :=
            if negb (PyStr.truthy author) || negb (PyStr.truthy book)
            then false else match_ in
          match BookInfo.decode (world rd) book with
          | None => Raised (OtherError "UnicodeDecodeError")
          | Some book =>
              match BookInfo.decode (world rd) author with
              | None => Raised (OtherError "UnicodeDecodeError")
              | Some author =>
                  let match_ :=
                    if match_ then
                      if (PyStr.chars book <=? 2)%nat
                         || (PyStr.chars author <=? 2)%nat
                      then false else match_
                    else match_ in
                  Returned
                    {| matched := match_; author := Some author;
                       book := Some book;
                       language := language m; isbn := isbn m;
                       gr_id := gr_id m; extn := extn m |}
              end
          end
      | _, _ => Raised (OtherError "IndexError")
      end
  end.

Definition meta_init (files : string) : meta := {|
  matched := false; author := Some ""; book := Some "";
  language := Some "Unknown"; isbn := Some ""; gr_id := Some "";
  extn := Some (snd (PyStr.splitext files))
|}.

(** The cascade for the file [files] of the directory [r], once the file
    has passed the check of its type: embedded metadata of an epub or a
    mobi, then the sidecar of the directory, then the tags of an audio
    file, then the pattern.  It gives the calls it made and the
    variables. *)
Definition resolve (rd : readers) (pattern : list Pattern.node)
           (r files : string) : list call * outcome meta :=
  let m := meta_init files in
  let file_extn := snd (PyStr.splitext files) in
  let '(calls, m) :=
    if (file_extn =? ".epub") || (file_extn =? ".mobi") then
      let book_filename := PyStr.path_join r files in
      ([GetBookInfo book_filename], take (read_info rd book_filename) true m)
    else ([], m) in
  let metafile := opf_file rd r in
  let calls := calls ++ [GetBookInfo metafile] in
  let m := take (read_info rd metafile) false m in
  let '(calls, m) :=
    if negb (matched m) && is_valid_booktype rd files "audiobook" then
      let filename := PyStr.path_join r files in
      (calls ++ [Id3Reader filename],
       match id3 rd filename with
       | Returned (author, book) =>
           {| matched := PyStr.truthy_opt author && PyStr.truthy_opt book;
              author := author; book := book;
              language := language m; isbn := isbn m; gr_id := gr_id m;
              extn := extn m |}
       | Raised _ => m
       end)
    else (calls, m) in
  if negb (matched m)
  then (calls ++ [PatternMatch files],
        pattern_step rd m (Pattern.re_match pattern files))
  else (calls, Returned m).

(** Readers for a directory without sidecar and without tags. *)
Definition plain_readers : readers := {|
  world := BookInfo.broken_epub_world;
  opf_file := fun _ => "";
  id3 := fun _ => Raised (OtherError "id3");
  is_valid_booktype := fun files booktype =>
    (booktype =? "ebook")
    && existsb (String.eqb (snd (PyStr.splitext files)))
               [".epub"; ".mobi"; ".azw3"; ".pdf"]
|}.

(** Readers for a directory without sidecar in which every mobi or azw3
    container gives an author and a title. *)
Definition kindle_readers : readers := {|
  world := {|
    BookInfo.ZipFile := fun _ => None;
    BookInfo.Mobi := fun _ =>
      Some {| BookInfo.mobi_author := Returned (Some "Jane Austen");
              BookInfo.mobi_title := Returned (Some "Emma");
              BookInfo.mobi_language := Returned (Some "en");
              BookInfo.mobi_isbn := Returned None |};
    BookInfo.fromstring := fun _ => None;
    BookInfo.open_read := fun _ => None;
    BookInfo.is_valid_isbn := fun _ => false;
    BookInfo.decode := PyStr.utf8_decode
  |};
  opf_file := fun _ => "";
  id3 := fun _ => Raised (OtherError "id3");
  is_valid_booktype := fun files booktype =>
    (booktype =? "ebook")
    && existsb (String.eqb (snd (PyStr.splitext files)))
               [".epub"; ".mobi"; ".azw3"; ".pdf"]
|}.

(** *** Files of a directory that was seen before *)

Definition mem (x : string) (l : list string) : bool :=
  existsb (String.eqb x) l.

(** The two tests before a file is looked at. *)
Definition already_scanned (library : string) (IMP_SINGLEBOOK : bool)
           (subdirectory : string) (processed_subdirectories : list string)
  : bool :=
  if (library =? "eBook") && IMP_SINGLEBOOK
     && mem subdirectory processed_subdirectories then true
  else if (library =? "Audio") && mem subdirectory processed_subdirectories
       then true
       else false.

(** [for files in f] for the files of one directory [r]: a file whose
    directory was seen before is passed over; any other file is looked
    at, and when a book is found in it ([found], which stands for the
    rest of the loop body up to [if match:]) its directory is added to
    the list.  The result is the files looked at and the list. *)
Fixpoint scan_files (found : string -> bool) (library : string)
         (IMP_SINGLEBOOK : bool) (startdir r : string) (f : list string)
         (processed_subdirectories : list string)
  : list string * list string :=
  match f with
  | [] => ([], processed_subdirectories)
  | files :: rest =>
      let subdirectory := PyStr.replace startdir "" r in
      if already_scanned library IMP_SINGLEBOOK subdirectory processed_subdirectories
      then scan_files found library IMP_SINGLEBOOK startdir r rest
                      processed_subdirectories
      else
        let processed_subdirectories :=
          if found files
          then processed_subdirectories ++ [subdirectory]
          else processed_subdirectories in
        let '(looked, processed) :=
          scan_files found library IMP_SINGLEBOOK startdir r rest
                     processed_subdirectories in
        (files :: looked, processed)
  end.

End Resolver.


(* ------------------------------------------------------------------ *)
(** ** Elements of a metadata block *)

Module Opf.
Import BookInfo.

(** The tag of an element as the loop of [get_book_info] reads it: lower
    case, and what follows the namespace; [None] for a tag without
    namespace, which the loop passes over. *)
Definition local_tag (e : element) : option string :=
  let tag := PyStr.lower (tag e) in
  if PyStr.contains "}" tag then Some (PyStr.split_second "}" tag) else None.

(** An element that the loop takes as a creator: the tests for a title
    and a language come first. *)
Definition is_creator (e : element) : bool :=
  match local_tag e with
  | Some tag =>
      negb (PyStr.contains "title" tag) && negb (PyStr.contains "language" tag)
      && PyStr.contains "creator" tag
  | None => false
  end.

(** A sidecar with two creators, an isbn and a GoodReads id. *)
Definition dc (name : string) : string :=
  "{http://purl.org/dc/elements/1.1/}" ++ name.

Definition sample_package : element :=
  Element "{http://www.idpf.org/2007/opf}package" [] None
    [Element "{http://www.idpf.org/2007/opf}metadata" [] None
       [Element (dc "title") [] (Some "Emma") [];
        Element (dc "creator") [] (Some "Jane Austen") [];
        Element (dc "creator") [] (Some "Fiona Stafford") [];
        Element (dc "language") [] (Some "en") [];
        Element (dc "identifier")
                [("{http://www.idpf.org/2007/opf}scheme", "ISBN")]
                (Some "0141439580") [];
        Element (dc "identifier")
                [("{http://www.idpf.org/2007/opf}scheme", "GOODREADS")]
                (Some "6969") []]].

Definition sample_text : string := "<package>Emma</package>".

(** A disk with that sidecar at [/lib/a/metadata.opf] and nothing else. *)
Definition sample_world : world := {|
  ZipFile := fun _ => None;
  Mobi := fun _ => None;
  fromstring := fun txt =>
    if txt =? sample_text then Some sample_package else None;
  open_read := fun fname =>
    if fname =? "/lib/a/metadata.opf" then Some sample_text else None;
  is_valid_isbn := fun isbn =>
    match isbn with
    | Some s => (String.length s =? 10)%nat || (String.length s =? 13)%nat
    | None => false
    end;
  decode := PyStr.utf8_decode
|}.

End Opf.


(* ------------------------------------------------------------------ *)
(** ** The update flag of a library *)

Module Flags.
Import Scan.

(** [lazylibrarian.EBOOK_UPDATE] for the eBook library and
    [lazylibrarian.AUDIO_UPDATE] for the Audio library. *)
Definition update_flag (library : string) (s : state) : Z :=
  if library =? "eBook" then EBOOK_UPDATE s else AUDIO_UPDATE s.

(** The start directory a call scans: the one given, or the directory of
    the library when none is given. *)
Definition scanned (e : env) (startdir : option string) (library : string) : string :=
  match startdir with
  | Some dir => if PyStr.truthy dir then dir else DIRECTORY e library
  | None => DIRECTORY e library
  end.

End Flags.


(* ------------------------------------------------------------------ *)
(** ** Reading aids for the walk and the language cache *)

Module Aids.

(** The files of a list up to the first in which a book is found, that
    one included. *)
Fixpoint until_found (found : string -> bool) (f : list string) : list string :=
  match f with
  | [] => []
  | files :: rest =>
      if found files then [files] else files :: until_found found rest
  end.

(** The prefix under which the language of an isbn is cached. *)
Definition isbn_prefix (isbn : string) : string :=
  if (String.length isbn =? 10)%nat
  then PyStr.slice 0 3 isbn
  else PyStr.slice 3 6 isbn.

End Aids.


(* ------------------------------------------------------------------ *)
(** ** A directory with a mobi file and a sidecar *)

Module Samples.
Import Resolver.


(** The file name [Emma - ] followed by a capital and a small e with
    acute accent, two characters in four bytes, and [.pdf]. *)
Definition accents : string := PyStr.bytes [195; 137; 195; 169].


(** A name whose author is no UTF-8: the byte 255. *)
Definition undecodable_name : string :=
  ("Emma - " ++ PyStr.bytes [74; 255; 110; 101] ++ ".pdf")%string.

(** A pattern from a template without the author: [$Title]. *)
Definition title_only_pattern : list Pattern.node :=
  Eval vm_compute in
    match Pattern.scan_pattern "$Title" Pattern.default_booktypes with
    | Some p => p
    | None => []
    end.

End Samples.


(* ------------------------------------------------------------------ *)
(** ** The walk: directories that are not entered *)

Module Prune.

(** A directory that the walk is not to enter: its name starts with an
    underscore or a dot, or it holds a file [.ll_ignore]. *)
Definition skipped (exists_ : string -> bool) (r directory : string) : bool :=
  prefix "_" directory || prefix "." directory
  || exists_ (PyStr.path_join (PyStr.path_join r directory) ".ll_ignore").

(** [d.remove(directory)]: the first element equal to [directory] goes. *)
Fixpoint remove_first (directory : string) (d : list string) : list string :=
  match d with
  | [] => []
  | x :: rest => if x =? directory then rest else x :: remove_first directory rest
  end.

(** [for directory in d:] over the list [d] that the body changes: the
    loop reads the element at its index in the list as it is then, and
    ends when the index is past the end.  [fuel] bounds the turns. *)
Fixpoint prune_from (skip : string -> bool) (fuel index : nat) (d : list string)
  : list string :=
  match fuel with
  | O => d
  | S fuel =>
      match nth_error d index with
      | None => d
      | Some directory =>
          if skip directory
          then prune_from skip fuel (S index) (remove_first directory d)
          else prune_from skip fuel (S index) d
      end
  end.

(** The directories of [r] that [os.walk] goes on to enter; the list has
    at most as many turns as it has elements. *)
Definition prune (exists_ : string -> bool) (r : string) (d : list string)
  : list string :=
  prune_from (skipped exists_ r) (List.length d) 0 d.

(** What is left of a list when every element to skip is dropped, but the
    element that follows a dropped one is never looked at. *)
Fixpoint kept (skip : string -> bool) (d : list string) : list string :=
  match d with
  | [] => []
  | x :: rest =>
      if skip x
      then match rest with
           | [] => []
           | y :: rest' => y :: kept skip rest'
           end
      else x :: kept skip rest
  end.

(** Two elements to skip stand side by side. *)
Fixpoint adjacent (skip : string -> bool) (d : list string) : bool :=
  match d with
  | [] => false
  | x :: rest =>
      match rest with
      | [] => false
      | y :: _ => (skip x && skip y) || adjacent skip rest
      end
  end.

Definition no_marker (path : string) : bool := false.

End Prune.


(* ------------------------------------------------------------------ *)
(** ** The walk: a matched file is put on record *)

Module Location.
Import Db.

(** The counters of the scan that this step adds to. *)
Record counts : Type := {
  new_book_count : Z;
  modified_count : Z
}.

(** The three update statements for the eBook columns, each
    [where BookID=?]. *)
Definition open_ebook (bookid : string) (b : book_row) : book_row :=
  if b_BookID b =? bookid then
    {| b_BookID := b_BookID b; b_AuthorID := b_AuthorID b;
       b_BookName := b_BookName b; b_BookISBN := b_BookISBN b;
       b_Status := "Open"; b_BookFile := b_BookFile b;
       b_BookLibrary := b_BookLibrary b;
       b_AudioStatus := b_AudioStatus b; b_AudioFile := b_AudioFile b;
       b_AudioLibrary := b_AudioLibrary b |}
  else b.

Definition date_ebook (now bookid : string) (b : book_row) : book_row :=
  if b_BookID b =? bookid then
    {| b_BookID := b_BookID b; b_AuthorID := b_AuthorID b;
       b_BookName := b_BookName b; b_BookISBN := b_BookISBN b;
       b_Status := b_Status b; b_BookFile := b_BookFile b;
       b_BookLibrary := Some now;
       b_AudioStatus := b_AudioStatus b; b_AudioFile := b_AudioFile b;
       b_AudioLibrary := b_AudioLibrary b |}
  else b.

Definition file_ebook (book_filename bookid : string) (b : book_row) : book_row :=
  if b_BookID b =? bookid then
    {| b_BookID := b_BookID b; b_AuthorID := b_AuthorID b;
       b_BookName := b_BookName b; b_BookISBN := b_BookISBN b;
       b_Status := b_Status b; b_BookFile := Some book_filename;
       b_BookLibrary := b_BookLibrary b;
       b_AudioStatus := b_AudioStatus b; b_AudioFile := b_AudioFile b;
       b_AudioLibrary := b_AudioLibrary b |}
  else b.

(** The same for the Audio columns. *)
Definition open_audio (bookid : string) (b : book_row) : book_row :=
  if b_BookID b =? bookid then
    {| b_BookID := b_BookID b; b_AuthorID := b_AuthorID b;
       b_BookName := b_BookName b; b_BookISBN := b_BookISBN b;
       b_Status := b_Status b; b_BookFile := b_BookFile b;
       b_BookLibrary := b_BookLibrary b;
       b_AudioStatus := "Open"; b_AudioFile := b_AudioFile b;
       b_AudioLibrary := b_AudioLibrary b |}
  else b.

Definition date_audio (now bookid : string) (b : book_row) : book_row :=
  if b_BookID b =? bookid then
    {| b_BookID := b_BookID b; b_AuthorID := b_AuthorID b;
       b_BookName := b_BookName b; b_BookISBN := b_BookISBN b;
       b_Status := b_Status b; b_BookFile := b_BookFile b;
       b_BookLibrary := b_BookLibrary b;
       b_AudioStatus := b_AudioStatus b; b_AudioFile := b_AudioFile b;
       b_AudioLibrary := Some now |}
  else b.

Definition file_audio (book_filename bookid : string) (b : book_row) : book_row :=
  if b_BookID b =? bookid then
    {| b_BookID := b_BookID b; b_AuthorID := b_AuthorID b;
       b_BookName := b_BookName b; b_BookISBN := b_BookISBN b;
       b_Status := b_Status b; b_BookFile := b_BookFile b;
       b_BookLibrary := b_BookLibrary b;
       b_AudioStatus := b_AudioStatus b; b_AudioFile := Some book_filename;
       b_AudioLibrary := b_AudioLibrary b |}
  else b.

(** The disk and the clock, as this step sees them. *)
Record disk : Type := {
  exists_ : string -> bool;
  listdir : string -> list string;
  is_valid_booktype : string -> string -> bool;
  now : string
}.

(** [for book_type in booktype_list:] the file of the first type, in the
    order of the configuration, that is on disk beside the file found;
    the file found when there is none. *)
Fixpoint preferred_type (dk : disk) (book_basename : string)
         (booktype_list : list string) (book_filename : string) : string :=
  match booktype_list with
  | [] => book_filename
  | book_type :: rest =>
      let preferred_type_ := (book_basename ++ "." ++ book_type)%string in
      if exists_ dk preferred_type_ then preferred_type_
      else preferred_type dk book_basename rest book_filename
  end.

(** [for fname in os.listdir(r):] the first audio file of the directory
    with [01] in its name. *)
Fixpoint first_part (dk : disk) (r : string) (listing : list string)
         (book_filename : string) : string :=
  match listing with
  | [] => book_filename
  | fname :: rest =>
      if is_valid_booktype dk fname "audiobook" && PyStr.contains "01" fname
      then PyStr.path_join r fname
      else first_part dk r rest book_filename
  end.

(** The file that is put on record for the file [files] of [r]. *)
Definition location (dk : disk) (EBOOK_TYPE : list string)
           (library r files : string) : string :=
  let book_filename := PyStr.path_join r files in
  if library =? "eBook"
  then preferred_type dk (fst (PyStr.splitext book_filename)) EBOOK_TYPE book_filename
  else first_part dk r (listdir dk r) book_filename.

(** The row that [check_status] holds: the first of the query by id over
    the books and their authors. *)
Definition check_status (bookid : string) (d : db) : option (book_row * author_row) :=
  match_where (fun ba => b_BookID (fst ba) =? bookid) (books_authors d).

(** One library's branch, on the columns [status] and [file] of the row
    read, with its three update statements. *)
Definition record_columns
           (status : book_row -> string) (file : book_row -> option string)
           (open_ : string -> book_row -> book_row)
           (date_ file_ : string -> string -> book_row -> book_row)
           (now_ book_filename bookid : string) (row : book_row)
           (c : counts) (d : db) : counts * db :=
  let '(c, d) :=
    if negb (status row =? "Open")
    then ({| new_book_count := new_book_count c + 1;
             modified_count := modified_count c |},
          Removal.update_books (date_ now_ bookid)
            (Removal.update_books (open_ bookid) d))
    else (c, d) in
  if negb (PyStr.truthy_opt (file row))
  then (c, Removal.update_books (file_ book_filename bookid) d)
  else if negb (match file row with
                | Some f => f =? book_filename
                | None => false
                end)
       then ({| new_book_count := new_book_count c;
                modified_count := modified_count c + 1 |},
             Removal.update_books (file_ book_filename bookid) d)
       else (c, d).

(** [if bookid:] ... up to the location of the book, for a [bookid] that
    is not empty; the copy of the cover is left out.  A library that is
    neither eBook nor Audio changes nothing. *)
Definition record_location (dk : disk) (EBOOK_TYPE : list string)
           (library r files bookid : string) (c : counts) (d : db)
  : counts * db :=
  match check_status bookid d with
  | None => (c, d)
  | Some (row, _) =>
      if library =? "eBook" then
        record_columns b_Status b_BookFile open_ebook date_ebook file_ebook
                       (now dk) (location dk EBOOK_TYPE library r files)
                       bookid row c d
      else if library =? "Audio" then
        record_columns b_AudioStatus b_AudioFile open_audio date_audio file_audio
                       (now dk) (location dk EBOOK_TYPE library r files)
                       bookid row c d
      else (c, d)
  end.

(** A disk on which [/lib/a/Emma.mobi] has an epub beside it. *)
Definition two_formats : disk := {|
  exists_ := fun path => path =? "/lib/a/Emma.epub";
  listdir := fun _ => ["Emma.epub"; "Emma.mobi"];
  is_valid_booktype := fun _ _ => false;
  now := "2017-06-01"
|}.

Definition wanted_catalog : db := {|
  authors := [ {| a_AuthorID := "a1"; a_AuthorName := "Jane Austen";
                  a_Status := "Active" |} ];
  books := [ {| b_BookID := "b1"; b_AuthorID := "a1"; b_BookName := "Emma";
                b_BookISBN := None; b_Status := "Wanted";
                b_BookFile := None; b_BookLibrary := None;
                b_AudioStatus := "Skipped"; b_AudioFile := None;
                b_AudioLibrary := None |} ];
  languages := []
|}.

Definition no_counts : counts := {| new_book_count := 0; modified_count := 0 |}.

End Location.


(* ------------------------------------------------------------------ *)
(** ** The status column of a library *)

Module Columns.
Import Db.

Definition status_column (library : string) : book_row -> string :=
  if library =? "eBook" then b_Status else b_AudioStatus.

(** The recorded file is another than [book_filename]. *)
Definition moved (file : option string) (book_filename : string) : bool :=
  match file with
  | Some f => PyStr.truthy f && negb (f =? book_filename)
  | None => false
  end.

End Columns.


(* ------------------------------------------------------------------ *)
(** ** The web server: [webStart.initialize] *)

Module WebStart.

(** The values that the options and the configuration of the server
    hold: truth values, numbers, texts, [None], objects that are passed
    on by name, and the password check for one user that
    [checkpassword_dict] builds. *)
Inductive value : Type :=
| VBool (b : bool)
| VInt (z : Z)
| VStr (s : string)
| VNone
| VObject (name : string)
| VCheckPassword (user password : value).

Definition truthy (v : value) : bool :=
  match v with
  | VBool b => b
  | VInt z => negb (z =? 0)%Z
  | VStr s => PyStr.truthy s
  | VNone => false
  | VObject _ => true
  | VCheckPassword _ _ => true
  end.

(** [v != ""]. *)
Definition not_empty_text (v : value) : bool :=
  match v with
  | VStr s => PyStr.truthy s
  | _ => true
  end.

(** What the function reads from its surroundings: the disk, the
    directories of the program, the text of a value ([str]), and whether
    the port is free ([check_port] raises [IOError] when it is not). *)
Record host : Type := {
  path_exists : string -> bool;
  PROG_DIR : string;
  CACHEDIR : string;
  str : value -> string;
  check_port : string -> value -> bool
}.

(** How the function ends when nothing is raised: the server runs, or the
    process exits with a code. *)
Inductive ending : Type :=
| Started
| Exit (code : Z).

(** What the function hands to [cherrypy]: the global configuration, and
    the root and configuration of the mounted application. *)
Record server : Type := {
  config : Dict.t value;
  mount_root : string;
  conf : Dict.t (Dict.t value);
  ended : ending
}.

Definition bind {A B} (c : outcome A) (k : A -> outcome B) : outcome B :=
  match c with
  | Returned a => k a
  | Raised e => Raised e
  end.

Notation "x <- c ;; k" := (bind c (fun x => k))
  (at level 61, c at next level, right associativity).

(** [options[key]]. *)
Definition getitem (options : Dict.t value) (key : string) : outcome value :=
  match Dict.get options key with
  | Some v => Returned v
  | None => Raised (KeyError key)
  end.

(** [os.path.exists(v)]: a value that is no text is refused. *)
Definition exists_ (h : host) (v : value) : outcome bool :=
  match v with
  | VStr path => Returned (path_exists h path)
  | _ => Raised (OtherError "TypeError")
  end.

(** The format [%d] takes a number. *)
Definition number (v : value) : outcome unit :=
  match v with
  | VInt _ | VBool _ => Returned tt
  | _ => Raised (OtherError "TypeError")
  end.

Definition staticdir (dir : string) : Dict.t value :=
  [("tools.staticdir.on", VBool true); ("tools.staticdir.dir", VStr dir)].

(** [d.update(more)]. *)
Definition update {V} (d more : Dict.t V) : Dict.t V :=
  fold_left (fun acc kv => Dict.set acc (fst kv) (snd kv)) more d.

(** The options as the function reads them: [{}] when none are given. *)
Definition given (options : option (Dict.t value)) : Dict.t value :=
  match options with Some o => o | None => [] end.

(** [https_enabled] after the check of the two files: the option is set
    and both are on disk; the key is looked for only when the certificate
    is there. *)
Definition tls (h : host) (https_enabled https_cert https_key : value)
  : outcome bool :=
  if truthy https_enabled then
    cert_there <- exists_ h https_cert ;;
    both_there <- (if cert_there then exists_ h https_key else Returned false) ;;
    Returned both_there
  else Returned false.

(** [options_dict] as it is first built. *)
Definition base_config (http_port http_host : value) : Dict.t value :=
  [("log.screen", VBool false);
   ("server.thread_pool", VInt 10);
   ("server.socket_port", http_port);
   ("server.socket_host", http_host);
   ("engine.autoreload.on", VBool false);
   ("tools.encode.on", VBool true);
   ("tools.encode.encoding", VStr "utf-8");
   ("tools.decode.on", VBool true);
   ("error_page.401", VObject "lazylibrarian.common.error_page_401")].

(** [conf] as it is first built. *)
Definition static_conf (h : host) (http_proxy : value) : Dict.t (Dict.t value) :=
  let data := PyStr.path_join (PROG_DIR h) "data" in
  [("/", staticdir data ++ [("tools.proxy.on", http_proxy)]);
   ("/interfaces", staticdir (PyStr.path_join data "interfaces"));
   ("/images", staticdir (PyStr.path_join data "images"));
   ("/cache", staticdir (CACHEDIR h));
   ("/css", staticdir (PyStr.path_join data "css"));
   ("/js", staticdir (PyStr.path_join data "js"));
   ("/favicon.ico", [("tools.staticfile.on", VBool true);
                     ("tools.staticfile.filename", VStr "images/favicon.ico")])].

(** The block [if options['http_pass'] != "":] with its two changes of
    [conf]. *)
Definition protect (conf : Dict.t (Dict.t value)) (http_user http_pass : value)
  : Dict.t (Dict.t value) :=
  let root :=
    update (match Dict.get conf "/" with Some section => section | None => [] end)
           [("tools.auth_basic.on", VBool true);
            ("tools.auth_basic.realm", VStr "LazyLibrarian");
            ("tools.auth_basic.checkpassword", VCheckPassword http_user http_pass)] in
  Dict.set (Dict.set conf "/" root) "/api" [("tools.auth_basic.on", VBool false)].

Definition initialize (h : host) (options : option (Dict.t value))
  : outcome server :=
  let options := given options in
  https_enabled <- getitem options "https_enabled" ;;
  https_cert <- getitem options "https_cert" ;;
  https_key <- getitem options "https_key" ;;
  https_enabled <- tls h https_enabled https_cert https_key ;;
  http_port <- getitem options "http_port" ;;
  http_host <- getitem options "http_host" ;;
  let options_dict := base_config http_port http_host in
  let options_dict :=
    if https_enabled
    then Dict.set (Dict.set options_dict "server.ssl_certificate" https_cert)
                  "server.ssl_private_key" https_key
    else options_dict in
  _ <- number http_port ;;
  http_proxy <- getitem options "http_proxy" ;;
  let conf := static_conf h http_proxy in
  http_pass <- getitem options "http_pass" ;;
  conf <-
    (if not_empty_text http_pass then
       http_user <- getitem options "http_user" ;;
       Returned (protect conf http_user http_pass)
     else Returned conf) ;;
  http_root <- getitem options "http_root" ;;
  Returned {|
    config := options_dict;
    mount_root := str h http_root;
    conf := conf;
    ended := if check_port h (str h http_host) http_port then Started else Exit 1
  |}.

(** A section of the configuration sets something of the password check. *)
Definition sets_auth (section : Dict.t value) : bool :=
  existsb (fun kv => prefix "tools.auth_basic" (fst kv)) section.

(** Options for a server on port 5299 with a password, and a host with a
    certificate but no key. *)
Definition sample_options : Dict.t value :=
  [("https_enabled", VBool true);
   ("https_cert", VStr "/etc/ll/server.crt");
   ("https_key", VStr "/etc/ll/server.key");
   ("http_port", VInt 5299);
   ("http_host", VStr "0.0.0.0");
   ("http_proxy", VBool false);
   ("http_user", VStr "jane");
   ("http_pass", VStr "emma");
   ("http_root", VStr "/")].

Definition sample_host : host := {|
  path_exists := fun path => path =? "/etc/ll/server.crt";
  PROG_DIR := "/opt/ll";
  CACHEDIR := "/opt/ll/cache";
  str := fun v => match v with VStr s => s | _ => "" end;
  check_port := fun _ _ => true
|}.


(** The options that the function reads in every call. *)
Definition required : list string :=
  ["https_enabled"; "https_cert"; "https_key"; "http_port"; "http_host";
   "http_proxy"; "http_pass"; "http_root"].

End WebStart.


(* ------------------------------------------------------------------ *)
(** ** The walk: the id of a matched file *)

Module Lookup.
Import Db.

(** [s.rstrip('/')]. *)
Fixpoint rstrip_slash (s : string) : string :=
  match s with
  | EmptyString => EmptyString
  | String c r =>
      match rstrip_slash r with
      | EmptyString => if Ascii.eqb c "/" then EmptyString else String c EmptyString
      | r' => String c r'
      end
  end.

(** [os.path.dirname] and [os.path.basename] (posixpath). *)
Definition dirname (p : string) : string :=
  let i := (PyStr.rfind "/" p + 1)%Z in
  let head := PyStr.slice 0 i p in
  if PyStr.truthy head && negb (PyStr.all_chars (Ascii.eqb "/") head)
  then rstrip_slash head
  else head.

Definition basename (p : string) : string :=
  let i := (PyStr.rfind "/" p + 1)%Z in
  PyStr.slice i (Z.of_nat (String.length p)) p.

(** [if newauthor.endswith('_'): newauthor = newauthor[:-1] + '.']. *)
Fixpoint calibre_period (newauthor : string) : string :=
  match newauthor with
  | EmptyString => EmptyString
  | String c EmptyString =>
      if Ascii.eqb c "_" then String "." EmptyString else String c EmptyString
  | String c r => String c (calibre_period r)
  end.

(** The provider of book data that is configured, with its call
    [find_book], which may add the book to the catalog. *)
Record provider : Type := {
  BOOK_API : string;
  find_book : string -> db -> outcome db
}.

(** What [find_book_in_db] gives, as the text that [if not bookid] tests;
    the integer 0 and the empty text are alike to the test. *)
Definition id_text (found : option string) : string :=
  match found with Some id => id | None => "" end.

Definition text_of (v : option string) : string :=
  match v with Some s => s | None => "" end.

(** [SELECT BookID FROM books where BookID=?] has a row. *)
Definition has_book (bookid : string) (d : db) : bool :=
  match match_where (fun b => b_BookID b =? bookid) (books d) with
  | Some _ => true
  | None => false
  end.

(** [if not bookid:] with the id that the metadata gave: the id is taken
    when the catalog has it, or has it after the provider was asked.  The
    variable [gb_id] is empty throughout the scan. *)
Definition by_metadata_id (pr : provider) (gr_id : option string)
           (bookid : string) (d : db) : outcome (db * string) :=
  let gb_id := "" in
  if negb (PyStr.truthy bookid) then
    let bookid :=
      if PyStr.truthy_opt gr_id then text_of gr_id
      else if PyStr.truthy gb_id then gb_id
      else bookid in
    if PyStr.truthy bookid then
      if has_book bookid d then Returned (d, bookid)
      else
        match
          (if (BOOK_API pr =? "GoodReads") && PyStr.truthy_opt gr_id
           then find_book pr (text_of gr_id) d
           else if (BOOK_API pr =? "GoogleBooks") && PyStr.truthy gb_id
                then find_book pr gb_id d
                else Returned d)
        with
        | Raised e => Raised e
        | Returned d' =>
            if has_book bookid d' then Returned (d', bookid) else Returned (d', "")
        end
    else Returned (d, bookid)
  else Returned (d, bookid).

(** [if not bookid and isbn:] the book of that isbn. *)
Definition by_isbn (isbn : option string) (bookid : string) (d : db) : string :=
  if negb (PyStr.truthy bookid) && PyStr.truthy_opt isbn then
    match match_where
            (fun b => match b_BookISBN b with
                      | Some i => i =? text_of isbn
                      | None => false
                      end)
            (books d) with
    | Some b => b_BookID b
    | None => bookid
    end
  else bookid.

(** [if not bookid:] the book under the name of the directory above the
    directory of the file. *)
Definition by_parent (fz : Matcher.fuzz) (author book r : string)
           (bookid : string) (d : db) : string :=
  if negb (PyStr.truthy bookid) then
    let newauthor := calibre_period (basename (dirname r)) in
    if negb (PyStr.lower author =? PyStr.lower newauthor)
    then id_text (Matcher.find_book_in_db fz d newauthor book)
    else bookid
  else bookid.

(** The id of the book for a file with the author and title of its
    metadata, in the directory [r]: by author and title, by the id of the
    metadata, by the isbn, by the directory. *)
Definition lookup (fz : Matcher.fuzz) (pr : provider)
           (author book : string) (isbn gr_id : option string) (r : string)
           (d : db) : outcome (db * string) :=
  let bookid := id_text (Matcher.find_book_in_db fz d author book) in
  match by_metadata_id pr gr_id bookid d with
  | Raised e => Raised e
  | Returned (d, bookid) =>
      let bookid := by_isbn isbn bookid d in
      let bookid := by_parent fz author book r bookid d in
      Returned (d, bookid)
  end.

(** An id that is not empty is the id of a book of the catalog. *)
Definition known (bookid : string) (d : db) : Prop :=
  PyStr.truthy bookid = true -> exists b, In b (books d) /\ b_BookID b = bookid.

(** A provider that knows the book 6969 and adds it to the author [a1]. *)
Definition sample_provider : provider := {|
  BOOK_API := "GoodReads";
  find_book := fun id d =>
    Returned {| authors := authors d;
                books := books d ++
                  [ {| b_BookID := id; b_AuthorID := "a1";
                       b_BookName := "Persuasion";
                       b_BookISBN := None; b_Status := "Skipped";
                       b_BookFile := None; b_BookLibrary := None;
                       b_AudioStatus := "Skipped"; b_AudioFile := None;
                       b_AudioLibrary := None |} ];
                languages := languages d |}
|}.

End Lookup.

(* ------------------------------------------------------------------ *)
(** ** The clean-up of author names at the start of a full scan *)

Module Cleanup.
Import Db.

(** The whitespace of [str.split()]: space, tab, line feed, vertical tab,
    form feed and carriage return. *)
Definition isspace (c : ascii) : bool :=
  let n := nat_of_ascii c in
  (n =? 32)%nat || ((9 <=? n)%nat && (n <=? 13)%nat).

(** [s.split()]: the runs of characters that are not whitespace, from the
    left; [word] is the run that is being read. *)
Fixpoint split_from (word s : string) : list string :=
  match s with
  | EmptyString => if PyStr.truthy word then [word] else []
  | String c r =>
      if isspace c
      then if PyStr.truthy word then word :: split_from "" r
           else split_from "" r
      else split_from (word ++ String c "")%string r
  end.

Definition split (s : string) : list string := split_from "" s.

(** [' '.join(name.split())]. *)
Definition squeeze (name : string) : string := String.concat " " (split name).

(** [AuthorName like "%  %"]: two spaces in a row. *)
Definition double_space (name : string) : bool := PyStr.contains "  " name.

(** [SELECT AuthorID,AuthorName FROM authors WHERE AuthorName like "%  %"]. *)
Definition spaced (d : db) : list author_row :=
  select_where (fun a => double_space (a_AuthorName a)) (authors d).

(** [DELETE from authors where authorname=?]. *)
Definition delete_name (name : string) (d : db) : db :=
  {| authors := filter (fun a => negb (a_AuthorName a =? name)) (authors d);
     books := books d;
     languages := languages d |}.

(** [UPDATE books set AuthorID=? WHERE AuthorID=?]. *)
Definition move_books (to from : string) (d : db) : db :=
  {| authors := authors d;
     books :=
       map (fun b =>
              if b_AuthorID b =? from
              then {| b_BookID := b_BookID b; b_AuthorID := to;
                      b_BookName := b_BookName b; b_BookISBN := b_BookISBN b;
                      b_Status := b_Status b; b_BookFile := b_BookFile b;
                      b_BookLibrary := b_BookLibrary b;
                      b_AudioStatus := b_AudioStatus b;
                      b_AudioFile := b_AudioFile b;
                      b_AudioLibrary := b_AudioLibrary b |}
              else b)
           (books d);
     languages := languages d |}.

(** [UPDATE authors set AuthorName=? WHERE AuthorID=?]. *)
Definition rename (authorname authorid : string) (d : db) : db :=
  {| authors :=
       map (fun a =>
              if a_AuthorID a =? authorid
              then {| a_AuthorID := a_AuthorID a; a_AuthorName := authorname;
                      a_Status := a_Status a |}
              else a)
           (authors d);
     books := books d;
     languages := languages d |}.

(** The body of [for author in authors:]: the author is merged into the
    one that has the name without the extra spaces, or takes that name. *)
Definition merge_step (d : db) (author : author_row) : db :=
  let authorid := a_AuthorID author in
  let authorname := squeeze (a_AuthorName author) in
  match match_where (fun a => a_AuthorName a =? authorname) (authors d) with
  | Some duplicate =>
      let d := delete_name (a_AuthorName author) d in
      if negb (a_AuthorID author =? a_AuthorID duplicate)
      then move_books (a_AuthorID duplicate) (a_AuthorID author) d
      else d
  | None => rename authorname authorid d
  end.

(** The loop over the rows that the query gave before the loop began. *)
Definition remove_extra_spaces (d : db) : db :=
  fold_left merge_step (spaced d) d.

(** A word: no whitespace in it. *)
Fixpoint solid (w : string) : bool :=
  match w with
  | EmptyString => true
  | String c r => negb (isspace c) && solid r
  end.

(** No two spaces in a row; with [after_space], no space at the start
    either. *)
Fixpoint single_spaced (after_space : bool) (s : string) : bool :=
  match s with
  | EmptyString => true
  | String c r =>
      if Ascii.eqb c " "
      then negb after_space && single_spaced true r
      else single_spaced false r
  end.

(** The state of the loop with the rows [rest] still to come: a row of
    [authors] is as the loop leaves it, under an id of its own, or is to
    come; a row to come is still in the table, or the name it is to take
    is there already; a book has the row of its author, or that row is to
    come. *)
Record pending (rest : list author_row) (d : db) : Prop := {
  rest_ids : NoDup (map a_AuthorID rest);
  rest_spaced : forall r, In r rest -> double_space (a_AuthorName r) = true;
  rows_done : forall a, In a (authors d) ->
      (double_space (a_AuthorName a) = false
       /\ ~ In (a_AuthorID a) (map a_AuthorID rest))
      \/ In a rest;
  rest_named : forall r, In r rest ->
      In r (authors d)
      \/ exists a, In a (authors d)
                   /\ a_AuthorName a = squeeze (a_AuthorName r);
  books_held : forall b, In b (books d) ->
      (exists a, In a (authors d) /\ a_AuthorID a = b_AuthorID b)
      \/ In (b_AuthorID b) (map a_AuthorID rest)
}.

(** Every book has the row of its author. *)
Definition attached (d : db) : Prop :=
  forall b, In b (books d) ->
            exists a, In a (authors d) /\ a_AuthorID a = b_AuthorID b.

(** Two spellings of one author, each with a book, and a third author. *)
Definition spaced_catalog : db :=
  {| authors :=
       [ {| a_AuthorID := "a1"; a_AuthorName := "Jane  Austen";
            a_Status := "Active" |};
         {| a_AuthorID := "a2"; a_AuthorName := "Jane Austen";
            a_Status := "Active" |};
         {| a_AuthorID := "a3"; a_AuthorName := "Emily   Bronte";
            a_Status := "Paused" |} ];
     books :=
       [ {| b_BookID := "b1"; b_AuthorID := "a1"; b_BookName := "Emma";
            b_BookISBN := None; b_Status := "Open";
            b_BookFile := None; b_BookLibrary := None;
            b_AudioStatus := "Skipped"; b_AudioFile := None;
            b_AudioLibrary := None |};
         {| b_BookID := "b2"; b_AuthorID := "a2"; b_BookName := "Persuasion";
            b_BookISBN := None; b_Status := "Open";
            b_BookFile := None; b_BookLibrary := None;
            b_AudioStatus := "Skipped"; b_AudioFile := None;
            b_AudioLibrary := None |} ];
     languages := [] |}.

End Cleanup.

(* ================================================================== *)
(** * Properties *)

(* ------------------------------------------------------------------ *)
(** ** Container readers *)

Module BookInfoFacts.
Import BookInfo.

(** An extension that is none of the handled ones gives the empty
    result. *)
Example get_book_info_pdf :
  get_book_info broken_epub_world "/books/a/x.pdf" = Returned [].
Proof. reflexivity. Qed.



(** What lies outside the handlers of [get_book_info] raises: the read
    of a damaged member, and the decode of an author that is no text of
    the encoding of the system. *)
Example get_book_info_damaged_member :
  get_book_info damaged_world "/books/a/damaged.epub"
  = Raised (OtherError "BadZipfile").
Proof. reflexivity. Qed.

Example get_book_info_undecodable_author :
  get_book_info damaged_world "/books/a/damaged.mobi"
  = Raised (OtherError "UnicodeDecodeError").
Proof. reflexivity. Qed.


End BookInfoFacts.

(* ------------------------------------------------------------------ *)
(** ** Fuzzy catalog matcher *)

Module MatcherFacts.
Import Db Matcher.

Local Open Scope Z_scope.

Section Scores.
Variable fz : fuzz.
Variables q core : string.

(** The query's reduced title as the loop sees it. *)
Let book_partname : string := if (core =? q)%string then ""%string else core.

Lemma core_used_truthy : core_used core q = PyStr.truthy book_partname.
Proof.
  unfold core_used, book_partname.
  destruct (core =? q)%string; reflexivity.
Qed.

(** The loop's three pairs after one turn, each as one running-maximum
    step, as long as a partname score that was not computed is not
    positive. *)
Lemma fuzzy_step_running (st : best) (b : book_row) :
  (core_used core q = false -> partname st <= 0) ->
  0 <= best_partname st ->
  let st' := fuzzy_step fz q book_partname st b in
  (best_ratio st', ratio_id st')
    = running_step (adjusted_ratio fz q) (best_ratio st, ratio_id st) b
  /\ (best_partial st', partial_id st')
    = running_step (adjusted_partial fz q) (best_partial st, partial_id st) b
  /\ (best_partname st', partname_id st')
    = running_step (adjusted_partname fz core q)
                   (best_partname st, partname_id st) b
  /\ (core_used core q = false -> partname st' <= 0)
  /\ 0 <= best_partname st'.
Proof.
  intros Hstale Hpos.
  unfold fuzzy_step, running_step, adjusted_ratio, adjusted_partial,
    adjusted_partname, penalty, normalised.
  rewrite core_used_truthy in *.
  set (c := unaccented fz (PyStr.lower (b_BookName b))).
  set (w := Z.abs (Z.of_nat (List.length (getList fz q))
                   - Z.of_nat (List.length (getList fz c)))).
  assert (Hw : 0 <= w) by apply Z.abs_nonneg.
  destruct (PyStr.truthy book_partname) eqn:Hbp; cbn [fst snd].
  - assert (Hcore : book_partname = core).
    { unfold book_partname in *.
      destruct (core =? q)%string; [discriminate Hbp | reflexivity]. }
    rewrite Hcore.
    destruct (token_sort_ratio fz q c - w >? best_ratio st) eqn:E1;
      destruct (partial_ratio fz q c - w >? best_partial st) eqn:E2;
      destruct (partial_ratio fz core c - w >? best_partname st) eqn:E3;
      cbn; repeat (rewrite ?E1, ?E2, ?E3; cbn);
      repeat split; intros; try congruence;
      try (apply Z.gtb_lt in E3); lia.
  - specialize (Hstale eq_refl).
    assert (E3 : (partname st - w >? best_partname st) = false)
      by (rewrite Z.gtb_ltb; apply Z.ltb_ge; lia).
    destruct (token_sort_ratio fz q c - w >? best_ratio st) eqn:E1;
      destruct (partial_ratio fz q c - w >? best_partial st) eqn:E2;
      cbn; repeat (rewrite ?E1, ?E2, ?E3; cbn);
      repeat split; intros; lia.
Qed.

(** The whole loop as three independent running maxima. *)
Lemma fuzzy_loop_running (books : list book_row) :
  forall st : best,
    (core_used core q = false -> partname st <= 0) ->
    0 <= best_partname st ->
    let st' := fold_left (fuzzy_step fz q book_partname) books st in
    (best_ratio st', ratio_id st')
      = fold_left (running_step (adjusted_ratio fz q)) books
                  (best_ratio st, ratio_id st)
    /\ (best_partial st', partial_id st')
      = fold_left (running_step (adjusted_partial fz q)) books
                  (best_partial st, partial_id st)
    /\ (best_partname st', partname_id st')
      = fold_left (running_step (adjusted_partname fz core q)) books
                  (best_partname st, partname_id st).
Proof.
  induction books as [|b books IH]; intros st Hstale Hpos.
  - cbn. repeat split.
  - cbn [fold_left].
    destruct (fuzzy_step_running st b Hstale Hpos) as (E1 & E2 & E3 & Hstale' & Hpos').
    cbv zeta in E1, E2, E3, Hstale', Hpos'.
    rewrite <- E1, <- E2, <- E3.
    apply IH; assumption.
Qed.

End Scores.

(** *** What a running maximum holds *)

Section RunningMax.
Variable score : book_row -> option Z.

Lemma running_fold_ge (l : list book_row) :
  forall acc, fst acc <= fst (fold_left (running_step score) l acc).
Proof.
  induction l as [|b l IH]; intros acc; cbn [fold_left]; [lia|].
  etransitivity; [|apply IH].
  unfold running_step. destruct (score b) as [s|]; [|lia].
  destruct (s >? fst acc) eqn:E; cbn; [|lia].
  apply Z.gtb_lt in E. lia.
Qed.

(** No candidate scores above the running maximum, and the maximum is
    not negative. *)
Lemma running_max_upper (l : list book_row) (b : book_row) (s : Z) :
  In b l -> score b = Some s -> s <= fst (running_max score l).
Proof.
  unfold running_max. generalize (0, @None string).
  induction l as [|x l IH]; intros acc Hin Hs; [contradiction|].
  cbn [fold_left]. destruct Hin as [->|Hin].
  - etransitivity; [|apply running_fold_ge].
    unfold running_step. rewrite Hs.
    destruct (s >? fst acc) eqn:E; cbn; [lia|].
    rewrite Z.gtb_ltb in E; apply Z.ltb_ge in E. lia.
  - apply IH; assumption.
Qed.

Lemma running_max_nonneg (l : list book_row) : 0 <= fst (running_max score l).
Proof. apply (running_fold_ge l (0, None)). Qed.

Lemma running_fold_first (l : list book_row) :
  forall acc,
    fold_left (running_step score) l acc = acc
    \/ exists l1 b l2,
        l = l1 ++ b :: l2
        /\ score b = Some (fst (fold_left (running_step score) l acc))
        /\ snd (fold_left (running_step score) l acc) = Some (b_BookID b)
        /\ fst acc < fst (fold_left (running_step score) l acc)
        /\ (forall x s, In x l1 -> score x = Some s ->
                        s < fst (fold_left (running_step score) l acc)).
Proof.
  induction l as [|b l IH]; intros acc; cbn [fold_left]; [left; reflexivity|].
  destruct (IH (running_step score acc b)) as [Heq | (l1 & b' & l2 & -> & Hs & Hid & Hlt & Hbefore)].
  - rewrite Heq. unfold running_step.
    destruct (score b) as [s|] eqn:Hs; [|left; reflexivity].
    destruct (s >? fst acc) eqn:E; [|left; reflexivity].
    right. exists [], b, l. cbn. apply Z.gtb_lt in E.
    repeat split; try assumption; try lia; try (intros x s0 []).
  - right. exists (b :: l1), b', l2.
    repeat split; try assumption.
    + eapply Z.le_lt_trans; [|exact Hlt].
      unfold running_step. destruct (score b) as [s|]; [|lia].
      destruct (s >? fst acc) eqn:E; cbn; [|lia].
      apply Z.gtb_lt in E. lia.
    + intros x s [->|Hin] Hx; [|eapply Hbefore; eassumption].
      eapply Z.le_lt_trans; [|exact Hlt].
      unfold running_step. rewrite Hx.
      destruct (s >? fst acc) eqn:E; cbn; [lia|].
      rewrite Z.gtb_ltb in E; apply Z.ltb_ge in E. lia.
Qed.

(** A positive running maximum is the score of a candidate, whose id is
    the one kept, and it is the first candidate with the best score. *)
Lemma running_max_first (l : list book_row) :
  0 < fst (running_max score l) ->
  exists l1 b l2,
    l = l1 ++ b :: l2
    /\ score b = Some (fst (running_max score l))
    /\ snd (running_max score l) = Some (b_BookID b)
    /\ (forall x s, In x l1 -> score x = Some s -> s < fst (running_max score l)).
Proof.
  unfold running_max. intros Hpos.
  destruct (running_fold_first l (0, None)) as [Heq | (l1 & b & l2 & E & Hs & Hid & _ & Hb)].
  - rewrite Heq in Hpos. cbn in Hpos. lia.
  - exists l1, b, l2. repeat split; assumption.
Qed.

End RunningMax.

(** C1: the approximate-match step of [find_book_in_db] is the matcher of
    the specification: per candidate a token-sort ratio, a partial ratio
    and, when the reduced title is in use, a partial ratio against it,
    each less the absolute difference of the word counts; three
    independent running maxima; and the id of the ratio-best candidate if
    its score is above 90, else of the partial-best above 85, else of the
    partname-best above 95, else 0. *)
Theorem fuzzy_match_is_approximate_match
        (fz : fuzz) (author book : string) (cands : list book_row) :
  fuzzy_match fz author book cands = approximate_match fz author book cands.
Proof.
  unfold fuzzy_match, approximate_match, select, running_max, normalised.
  set (q := unaccented fz (PyStr.lower book)).
  set (core := fst (split_title fz author q)).
  destruct (fuzzy_loop_running fz q core cands best_init) as (E1 & E2 & E3).
  - intros _. cbn. lia.
  - cbn. lia.
  - cbv zeta in E1, E2, E3. cbn [best_init best_ratio best_partial best_partname
                                 ratio_id partial_id partname_id] in E1, E2, E3.
    rewrite <- E1, <- E2, <- E3. reflexivity.
Qed.

End MatcherFacts.

(* ------------------------------------------------------------------ *)
(** ** The exact-match path of [find_book_in_db] *)

Module ExactMatchFacts.
Import Db Matcher.

(** The exact path, in another case than the catalog has. *)
Example exact_match_any_case :
  find_book_in_db toy_fuzz austen_catalog "JANE AUSTEN" "emma" = Some "b1".
Proof. reflexivity. Qed.

(** The approximate path: the partial score of the first candidate, 100
    less the two extra words, is above 85; the second candidate scores
    nothing. *)
Example approximate_match_partial :
  find_book_in_db toy_fuzz austen_catalog "jane austen" "Emma (illustrated edition)"
  = Some "b1".
Proof. reflexivity. Qed.

(** No candidate is close, and no book of another author is looked at. *)
Example approximate_match_none :
  find_book_in_db toy_fuzz austen_catalog "Jane Austen" "Persuasion" = None
  /\ find_book_in_db toy_fuzz austen_catalog "Jane Eyre" "Emma" = None.
Proof. split; reflexivity. Qed.

Lemma prefix_dquote (c : ascii) (r : string) :
  prefix dquote (String c r) = Ascii.eqb dquote_char c.
Proof.
  unfold dquote. cbn [prefix].
  destruct (ascii_dec dquote_char c) as [->|Hne].
  - rewrite Ascii.eqb_refl. destruct r; reflexivity.
  - apply Ascii.eqb_neq in Hne. rewrite Hne. reflexivity.
Qed.

(** A text without double quotes is bound as it is. *)
Lemma sql_param_no_quote (s : string) :
  PyStr.contains dquote s = false -> sql_param s = s.
Proof.
  unfold sql_param, PyStr.replace. cbn [String.eqb dquote].
  induction s as [|c r IH]; intros H; [reflexivity|].
  cbn [PyStr.contains] in H. cbn [PyStr.replace_from].
  rewrite prefix_dquote in *.
  destruct (Ascii.eqb dquote_char c); [discriminate|].
  rewrite IH by exact H. reflexivity.
Qed.

(** For a query without double quotes, the exact-match path answers with
    the first catalog entry that equals the query up to ASCII case, and
    the scoring functions play no part in the answer. *)
Lemma find_book_in_db_exact (fz : fuzz) (d : db) (author book : string)
      (ba : book_row * author_row) :
  PyStr.contains dquote author = false ->
  PyStr.contains dquote book = false ->
  match_where
    (fun ba => nocase_eqb (a_AuthorName (snd ba)) author
               && nocase_eqb (b_BookName (fst ba)) book)
    (books_authors d) = Some ba ->
  find_book_in_db fz d author book = Some (b_BookID (fst ba)).
Proof.
  intros Ha Hb Hm. unfold find_book_in_db.
  rewrite (sql_param_no_quote _ Ha), (sql_param_no_quote _ Hb), Hm.
  reflexivity.
Qed.

(** C2 (fails on the code): the catalog holds exactly the queried author
    and title, yet [find_book_in_db] answers 0: the double quotes of the
    author name are doubled before the name is bound to the query, so
    neither the exact match nor the selection of the author's books finds
    the entry. *)
Theorem find_book_in_db_misses_quoted_author (fz : fuzz) :
  match_where
    (fun ba => nocase_eqb (a_AuthorName (snd ba)) quoted_author
               && nocase_eqb (b_BookName (fst ba)) "Foo")
    (books_authors quoted_catalog) <> None
  /\ find_book_in_db fz quoted_catalog quoted_author "Foo" = None.
Proof.
  split.
  - vm_compute. discriminate.
  - vm_compute. reflexivity.
Qed.

End ExactMatchFacts.

(* ------------------------------------------------------------------ *)
(** ** Queries *)

Module DbFacts.
Import Db.

Lemma match_where_none {R} (p : R -> bool) (rows : list R) :
  match_where p rows = None <-> forall r, In r rows -> p r = false.
Proof.
  unfold match_where. induction rows as [|x rows IH]; cbn.
  - split; [intros _ r [] | reflexivity].
  - destruct (p x) eqn:Hx.
    + split; [discriminate|]. intros H. specialize (H x (or_introl eq_refl)).
      congruence.
    + rewrite IH. split.
      * intros H r [<-|Hin]; [exact Hx | apply H, Hin].
      * intros H r Hin. apply H. right. exact Hin.
Qed.

Lemma match_where_app_some {R} (p : R -> bool) (rows more : list R) (r : R) :
  match_where p rows = Some r -> match_where p (rows ++ more) = Some r.
Proof.
  unfold match_where. rewrite filter_app.
  destruct (filter p rows); [discriminate|]. cbn. trivial.
Qed.

Lemma match_where_app_none {R} (p : R -> bool) (rows more : list R) :
  match_where p rows = None ->
  match_where p (rows ++ more) = match_where p more.
Proof.
  unfold match_where. rewrite filter_app.
  destruct (filter p rows); [reflexivity | discriminate].
Qed.

End DbFacts.

(* ------------------------------------------------------------------ *)
(** ** Language cache *)

Module LangCacheFacts.
Import Db LangCache DbFacts.

Lemma match_lang_fresh (isbnhead : string) (tbl : list language_row) :
  match_lang isbnhead tbl = None -> ~ In isbnhead (map fst tbl).
Proof.
  unfold match_lang. rewrite match_where_none. intros H Hin.
  apply in_map_iff in Hin. destruct Hin as (row & <- & Hin).
  specialize (H row Hin). cbn in H. rewrite String.eqb_refl in H. discriminate.
Qed.

Lemma length_substring (n m : nat) (s : string) :
  (n + m <= String.length s)%nat -> String.length (substring n m s) = m.
Proof.
  revert n m. induction s as [|c s IH]; intros n m H; cbn in H.
  - assert (n = 0%nat) by lia. assert (m = 0%nat) by lia. subst. reflexivity.
  - destruct n as [|n]; cbn.
    + destruct m as [|m]; cbn; [reflexivity|]. f_equal. apply IH. lia.
    + apply IH. lia.
Qed.

Section Writes.
Variable is_valid_isbn : string -> bool.

(** What [is_valid_isbn] is relied on for: the length. *)
Hypothesis valid_length :
  forall isbn, is_valid_isbn isbn = true ->
               String.length isbn = 10%nat \/ String.length isbn = 13%nat.

(** One write: the prefixes stay distinct, a cached language stays, and
    a row that comes in has a prefix of three characters. *)
Lemma cache_language_keeps (language : option string) (isbn : string)
      (tbl : list language_row) :
  NoDup (map fst tbl) ->
  NoDup (map fst (cache_language is_valid_isbn language isbn tbl))
  /\ (forall p l, cached p tbl = Some l ->
                  cached p (cache_language is_valid_isbn language isbn tbl) = Some l)
  /\ (forall row, In row (cache_language is_valid_isbn language isbn tbl) ->
                  In row tbl \/ String.length (fst row) = 3%nat).
Proof.
  intros Hnd. unfold cache_language.
  destruct (negb _ && is_valid_isbn isbn) eqn:Hok; [|repeat split; auto].
  apply andb_true_iff in Hok. destruct Hok as [_ Hvalid].
  set (isbnhead := if (String.length isbn =? 10)%nat
                   then PyStr.slice 0 3 isbn else PyStr.slice 3 6 isbn).
  assert (Hlen : String.length isbnhead = 3%nat).
  { unfold isbnhead, PyStr.slice.
    destruct (valid_length isbn Hvalid) as [H|H]; rewrite H; cbn [Nat.eqb];
      apply length_substring; rewrite H; cbn; lia. }
  destruct (match_lang isbnhead tbl) as [row|] eqn:Hm; [repeat split; auto|].
  unfold insert_lang. repeat split.
  - rewrite map_app. cbn. apply NoDup_app; [exact Hnd | | ].
    + constructor; [intros [] | constructor].
    + intros a Ha [<-|[]]. exact (match_lang_fresh _ _ Hm Ha).
  - intros p l. unfold cached, match_lang.
    destruct (match_where (fun row => fst row =? p) tbl) as [r|] eqn:Hr;
      [|discriminate].
    intros H. rewrite (match_where_app_some _ _ _ _ Hr). exact H.
  - intros row Hin. apply in_app_or in Hin.
    destruct Hin as [Hin|[<-|[]]]; [left; exact Hin | right; exact Hlen].
Qed.

(** A write for a prefix that is not cached yet is recorded. *)
Lemma cache_language_fresh (language isbn : string) (tbl : list language_row) :
  language <> "Unknown" -> is_valid_isbn isbn = true ->
  String.length isbn = 10%nat ->
  cached (PyStr.slice 0 3 isbn) tbl = None ->
  cached (PyStr.slice 0 3 isbn)
         (cache_language is_valid_isbn (Some language) isbn tbl)
  = Some (Some language).
Proof.
  intros Hlang Hvalid Hlen Hfresh. unfold cache_language.
  apply String.eqb_neq in Hlang. rewrite Hlang, Hvalid, Hlen. cbn [negb andb Nat.eqb].
  unfold cached in *.
  destruct (match_lang (PyStr.slice 0 3 isbn) tbl) eqn:Hm;
    [cbn in Hfresh; discriminate Hfresh|].
  unfold insert_lang, match_lang in *.
  rewrite (match_where_app_none _ _ _ Hm). unfold match_where. cbn.
  rewrite String.eqb_refl. reflexivity.
Qed.

End Writes.

(** C3: through the cache writes of a scan, whatever the files give,
    the table keeps at most one row per prefix; a language that is cached
    for a prefix, at the start or by an earlier write, is still the one
    cached after every later write; and the prefixes written have three
    characters. *)
Theorem language_cache_first_writer_wins
        (is_valid_isbn : string -> bool)
        (valid_length :
           forall isbn, is_valid_isbn isbn = true ->
                        String.length isbn = 10%nat \/ String.length isbn = 13%nat)
        (found : list (option string * string)) (tbl : list language_row) :
  NoDup (map fst tbl) ->
  NoDup (map fst (cache_languages is_valid_isbn found tbl))
  /\ (forall earlier later p l,
         found = earlier ++ later ->
         cached p (cache_languages is_valid_isbn earlier tbl) = Some l ->
         cached p (cache_languages is_valid_isbn found tbl) = Some l)
  /\ (forall row, In row (cache_languages is_valid_isbn found tbl) ->
                  In row tbl \/ String.length (fst row) = 3%nat).
Proof.
  intros Hnd.
  assert (Hall : forall found tbl,
             NoDup (map fst tbl) ->
             NoDup (map fst (cache_languages is_valid_isbn found tbl))
             /\ (forall p l, cached p tbl = Some l ->
                   cached p (cache_languages is_valid_isbn found tbl) = Some l)
             /\ (forall row, In row (cache_languages is_valid_isbn found tbl) ->
                   In row tbl \/ String.length (fst row) = 3%nat)).
  { clear found tbl Hnd. induction found as [|m found IH]; intros tbl Hnd.
    - cbn. repeat split; auto.
    - unfold cache_languages in *. cbn [fold_left].
      destruct (cache_language_keeps is_valid_isbn valid_length (fst m) (snd m) tbl Hnd)
        as (Hnd1 & Hkeep1 & Hlen1).
      destruct (IH _ Hnd1) as (Hnd2 & Hkeep2 & Hlen2).
      repeat split.
      + exact Hnd2.
      + intros p l H. apply Hkeep2, Hkeep1, H.
      + intros row Hin. destruct (Hlen2 row Hin) as [H|H]; [|right; exact H].
        apply Hlen1, H. }
  destruct (Hall found tbl Hnd) as (H1 & _ & H3).
  split; [exact H1|]. split; [|exact H3].
  intros earlier later p l -> Hc.
  unfold cache_languages in *. rewrite fold_left_app.
  destruct (Hall earlier tbl Hnd) as (Hnd' & _ & _).
  destruct (Hall later _ Hnd') as (_ & Hkeep & _).
  apply Hkeep, Hc.
Qed.

(** A table with one row, a file whose isbn has the same prefix and
    another language, and a file with a new prefix. *)
Lemma language_cache_first_writer_wins_witness :
  NoDup (map fst (cache_languages length_10_or_13
                    [(Some "fr", "0141439580"); (Some "de", "9783161484100")]
                    [("014", Some "en")]))
  /\ cached "014" (cache_languages length_10_or_13
                     [(Some "fr", "0141439580"); (Some "de", "9783161484100")]
                     [("014", Some "en")]) = Some (Some "en").
Proof.
  assert (Hlen : forall isbn, length_10_or_13 isbn = true ->
                   String.length isbn = 10%nat \/ String.length isbn = 13%nat).
  { intros isbn H. unfold length_10_or_13 in H. apply orb_true_iff in H.
    destruct H as [H|H]; apply Nat.eqb_eq in H; auto. }
  assert (Hnd : NoDup (map fst [("014", Some "en")]))
    by (cbn; constructor; [intros [] | constructor]).
  destruct (language_cache_first_writer_wins length_10_or_13 Hlen
              [(Some "fr", "0141439580"); (Some "de", "9783161484100")]
              [("014", Some "en")] Hnd) as (H1 & H2 & _).
  split; [exact H1|].
  apply (H2 [] [(Some "fr", "0141439580"); (Some "de", "9783161484100")]);
    reflexivity.
Defined.

End LangCacheFacts.

(* ------------------------------------------------------------------ *)
(** ** Removal detection *)

Module RemovalFacts.
Import Db Removal.

Lemma in_books_authors (d : db) (b : book_row) (a : author_row) :
  In (b, a) (books_authors d)
  <-> In b (books d) /\ In a (authors d) /\ a_AuthorID a = b_AuthorID b.
Proof.
  unfold books_authors. rewrite in_flat_map. split.
  - intros (b' & Hb & Hin). apply in_map_iff in Hin.
    destruct Hin as (a' & Heq & Ha). inversion Heq; subst.
    apply filter_In in Ha. destruct Ha as [Ha He].
    apply String.eqb_eq in He. auto.
  - intros (Hb & Ha & He). exists b. split; [exact Hb|].
    apply in_map, filter_In. split; [exact Ha|].
    apply String.eqb_eq, He.
Qed.

Section Columns.
Variables file lib : book_row -> option string.
Variable mark : string -> string -> book_row -> book_row.
Variable isfile : string -> bool.
Variables status startdir destdir : string.

Hypothesis mark_id : forall i b, b_BookID (mark status i b) = b_BookID b.
Hypothesis mark_other :
  forall i b, (b_BookID b =? i) = false -> mark status i b = b.
Hypothesis mark_again :
  forall i b, mark status (b_BookID b) (mark status i b)
              = mark status (b_BookID b) b.

Let step := remove_step file mark isfile status.
Let gone := gone file isfile.
Let touched := touched file isfile.
Let selected := selected file lib startdir destdir.

Lemma step_gone (d : db) (ba : book_row * author_row) :
  step d ba = if gone (fst ba)
              then update_books (mark status (b_BookID (fst ba))) d
              else d.
Proof.
  unfold step, gone, remove_step, Removal.gone.
  destruct (file (fst ba)); reflexivity.
Qed.

(** The loop of updates, row by row, as one pass over the table. *)
Lemma fold_step_books (rows : list (book_row * author_row)) :
  forall d,
    books (fold_left step rows d)
    = map (fun b => if touched rows b then mark status (b_BookID b) b else b)
          (books d)
    /\ authors (fold_left step rows d) = authors d
    /\ languages (fold_left step rows d) = languages d.
Proof.
  induction rows as [|ba rows IH]; intros d; cbn [fold_left].
  - cbn. rewrite map_id. auto.
  - destruct (IH (step d ba)) as (Hb & Ha & Hl).
    rewrite Hb, Ha, Hl, step_gone. clear Hb Ha Hl IH.
    destruct (gone (fst ba)) eqn:Hg.
    + cbn [update_books books authors languages]. rewrite map_map.
      repeat split. apply map_ext. intros b.
      unfold touched at 2, Removal.touched. cbn [existsb].
      fold (Removal.touched file isfile rows b). fold (touched rows b).
      fold (gone (fst ba)). rewrite Hg. cbn [andb].
      assert (Ht : touched rows (mark status (b_BookID (fst ba)) b) = touched rows b).
      { unfold touched, Removal.touched. rewrite mark_id. reflexivity. }
      rewrite Ht, mark_id, mark_again.
      destruct (b_BookID b =? b_BookID (fst ba)) eqn:He; cbn [orb].
      * apply String.eqb_eq in He. rewrite <- He.
        destruct (touched rows b); reflexivity.
      * rewrite (mark_other _ _ He). reflexivity.
    + repeat split. apply map_ext. intros b.
      unfold touched at 2, Removal.touched. cbn [existsb].
      fold (Removal.touched file isfile rows b). fold (touched rows b).
      fold (gone (fst ba)). rewrite Hg. reflexivity.
Qed.

Lemma remove_columns_books (d : db) :
  books (remove_columns file lib mark isfile status startdir destdir d)
  = map (fun b => if touched (filter selected (books_authors d)) b
                  then mark status (b_BookID b) b else b)
        (books d)
  /\ authors (remove_columns file lib mark isfile status startdir destdir d)
     = authors d.
Proof.
  destruct (fold_step_books (filter selected (books_authors d)) d) as (Hb & Ha & _).
  split; [exact Hb | exact Ha].
Qed.

End Columns.

Lemma mark_ebook_facts (status : string) :
  (forall i b, b_BookID (mark_ebook status i b) = b_BookID b)
  /\ (forall i b, (b_BookID b =? i) = false -> mark_ebook status i b = b)
  /\ (forall i b, mark_ebook status (b_BookID b) (mark_ebook status i b)
                  = mark_ebook status (b_BookID b) b).
Proof.
  repeat split; intros i b; unfold mark_ebook.
  - destruct (b_BookID b =? i); reflexivity.
  - intros ->. reflexivity.
  - destruct (b_BookID b =? i); cbn; rewrite !String.eqb_refl; reflexivity.
Qed.

Lemma mark_audio_facts (status : string) :
  (forall i b, b_BookID (mark_audio status i b) = b_BookID b)
  /\ (forall i b, (b_BookID b =? i) = false -> mark_audio status i b = b)
  /\ (forall i b, mark_audio status (b_BookID b) (mark_audio status i b)
                  = mark_audio status (b_BookID b) b).
Proof.
  repeat split; intros i b; unfold mark_audio.
  - destruct (b_BookID b =? i); reflexivity.
  - intros ->. reflexivity.
  - destruct (b_BookID b =? i); cbn; rewrite !String.eqb_refl; reflexivity.
Qed.

Lemma remove_missing_columns (isfile : string -> bool)
      (status library startdir destdir : string) (d d' : db) :
  remove_missing isfile status library startdir destdir d = Some d' ->
  d' = remove_columns (file_column library) (lib_column library) (mark_of library)
                      isfile status startdir destdir d.
Proof.
  unfold remove_missing, file_column, lib_column, mark_of.
  destruct (negb (startdir =? destdir) && PyStr.contains dquote startdir);
    [discriminate|].
  destruct (library =? "eBook"); intros H; inversion H; reflexivity.
Qed.

Lemma mark_of_facts (library status : string) :
  (forall i b, b_BookID (mark_of library status i b) = b_BookID b)
  /\ (forall i b, (b_BookID b =? i) = false -> mark_of library status i b = b)
  /\ (forall i b, mark_of library status (b_BookID b) (mark_of library status i b)
                  = mark_of library status (b_BookID b) b).
Proof.
  unfold mark_of. destruct (library =? "eBook");
    [apply mark_ebook_facts | apply mark_audio_facts].
Qed.

(** The rows that the loop updates are those with the id of a lost
    entry. *)
Lemma touched_lost (isfile : string -> bool)
      (library startdir destdir : string) (d : db) (b : book_row) :
  touched (file_column library) isfile
          (filter (selected (file_column library) (lib_column library)
                            startdir destdir)
                  (books_authors d)) b = true
  <-> exists b0, lost isfile library startdir destdir d b0
                 /\ b_BookID b0 = b_BookID b.
Proof.
  unfold touched. rewrite existsb_exists. split.
  - intros ([b0 a] & Hin & Hhit). apply filter_In in Hin.
    destruct Hin as [Hin Hsel]. apply in_books_authors in Hin.
    destruct Hin as (Hb & Ha & He). cbn [fst] in *.
    apply andb_true_iff in Hhit. destruct Hhit as [Hgone Hid].
    apply String.eqb_eq in Hid.
    unfold selected in Hsel. cbn [fst] in Hsel.
    apply andb_true_iff in Hsel. destruct Hsel as [Hlib Hunder].
    exists b0. split; [|symmetry; exact Hid].
    unfold lost. split; [exact Hb|]. split; [exists a; auto|].
    split; [destruct (lib_column library b0); [discriminate | discriminate Hlib]|].
    split.
    + destruct (startdir =? destdir) eqn:Hs; cbn [negb] in Hunder.
      * left. apply String.eqb_eq, Hs.
      * right. exact Hunder.
    + unfold gone in Hgone. destruct (file_column library b0) as [f|]; [|discriminate].
      apply andb_true_iff in Hgone. destruct Hgone as [Ht Hf].
      exists f. split; [reflexivity|]. split.
      * unfold PyStr.truthy in Ht. apply negb_true_iff, String.eqb_neq in Ht. exact Ht.
      * apply negb_true_iff, Hf.
  - intros (b0 & (Hb & (a & Ha & He) & Hlib & Hunder & f & Hf & Hne & Hgone) & Hid).
    exists (b0, a). split.
    + apply filter_In. split; [apply in_books_authors; auto|].
      unfold selected. cbn [fst]. apply andb_true_iff. split.
      * destruct (lib_column library b0); [reflexivity | contradiction].
      * destruct (startdir =? destdir) eqn:Hs; cbn [negb]; [reflexivity|].
        destruct Hunder as [Heq|Hu]; [|exact Hu].
        apply String.eqb_neq in Hs. contradiction.
    + cbn [fst]. apply andb_true_iff. split.
      * unfold gone. rewrite Hf. apply andb_true_iff. split.
        -- unfold PyStr.truthy. apply negb_true_iff, String.eqb_neq, Hne.
        -- rewrite Hgone. reflexivity.
      * apply String.eqb_eq. symmetry. exact Hid.
Qed.

(** What the update writes: the not-found status and an empty path. *)
Lemma mark_ebook_fields (status : string) (b : book_row) :
  b_Status (mark_ebook status (b_BookID b) b) = status
  /\ b_BookFile (mark_ebook status (b_BookID b) b) = Some ""
  /\ b_BookLibrary (mark_ebook status (b_BookID b) b) = Some "".
Proof. unfold mark_ebook. rewrite String.eqb_refl. cbn. auto. Qed.

Lemma mark_audio_fields (status : string) (b : book_row) :
  b_AudioStatus (mark_audio status (b_BookID b) b) = status
  /\ b_AudioFile (mark_audio status (b_BookID b) b) = Some ""
  /\ b_AudioLibrary (mark_audio status (b_BookID b) b) = Some "".
Proof. unfold mark_audio. rewrite String.eqb_refl. cbn. auto. Qed.

(** C5 (amended): the removal pass, which [LibraryScan] runs before the
    walk when [remove] is set, takes as lost the entries of the scanned
    library that have an author row and a library date and whose
    recorded path is not empty and is not a file on disk; in a scan of a
    part of the library, only those whose path is like the start
    directory followed by anything.  An entry with the id of a lost one
    gets the not-found status and an empty path and library date, in a
    full scan and in a partial scan alike; every other entry is left as
    it is. *)
Theorem removal_pass_effect (isfile : string -> bool)
        (status library startdir destdir : string) (d d' : db) :
  remove_missing isfile status library startdir destdir d = Some d' ->
  forall i b,
    nth_error (books d) i = Some b ->
    ((exists b0, lost isfile library startdir destdir d b0
                 /\ b_BookID b0 = b_BookID b) ->
     nth_error (books d') i = Some (mark_of library status (b_BookID b) b))
    /\ ((forall b0, lost isfile library startdir destdir d b0 ->
                    b_BookID b0 <> b_BookID b) ->
        nth_error (books d') i = Some b).
Proof.
  intros Hrm i b Hnth. apply remove_missing_columns in Hrm. subst d'.
  destruct (mark_of_facts library status) as (M1 & M2 & M3).
  destruct (remove_columns_books (file_column library) (lib_column library)
              (mark_of library) isfile status startdir destdir M1 M2 M3 d)
    as [Hbooks _].
  rewrite Hbooks, nth_error_map, Hnth. cbn [option_map].
  pose proof (touched_lost isfile library startdir destdir d b) as Ht.
  split.
  - intros Hlost. apply Ht in Hlost. rewrite Hlost. reflexivity.
  - intros Hnone.
    destruct (touched _ _ _ b) eqn:E; [|reflexivity].
    destruct (proj1 Ht eq_refl) as (b0 & Hl & Hid).
    exfalso. exact (Hnone b0 Hl Hid).
Qed.

(** A partial scan of [/lib/a] in the library [/lib]: the book recorded
    at [/lib/a/Emma.epub], which is not on disk, is marked. *)
Lemma removal_pass_effect_witness :
  nth_error
    (books (remove_columns b_BookFile b_BookLibrary mark_ebook empty_disk
                           "Skipped" "/lib/a" "/lib" one_book_catalog)) 0
  = option_map (mark_ebook "Skipped" "b1") (nth_error (books one_book_catalog) 0).
Proof.
  refine (proj1 (removal_pass_effect empty_disk "Skipped" "eBook" "/lib/a" "/lib"
                   one_book_catalog _ eq_refl 0 _ eq_refl) _).
  eexists. split; [|reflexivity].
  unfold lost. split; [left; reflexivity|].
  split; [eexists; split; [left; reflexivity | reflexivity]|].
  split; [discriminate|].
  split; [right; reflexivity|].
  eexists. split; [reflexivity|]. split; [discriminate | reflexivity].
Defined.

Lemma remove_missing_authors (isfile : string -> bool)
      (status library startdir destdir : string) (d d' : db) :
  remove_missing isfile status library startdir destdir d = Some d' ->
  authors d' = authors d.
Proof.
  intros Hrm. apply remove_missing_columns in Hrm. subst d'.
  destruct (mark_of_facts library status) as (M1 & M2 & M3).
  apply (remove_columns_books (file_column library) (lib_column library)
           (mark_of library) isfile status startdir destdir M1 M2 M3 d).
Qed.

End RemovalFacts.

(* ------------------------------------------------------------------ *)
(** ** The scan and the status of its author *)

Module ScanFacts.
Import Db Scan.

(** C5 (fails as stated): a scan of the part [/lib/a] of the library
    [/lib] does not leave the entry alone whose file under [/lib/a] is
    gone: its status becomes the not-found status and its path is
    cleared. *)
Lemma partial_scan_marks_lost_entry :
  let s' := fst (LibraryScan quiet_env (Some "/lib/a") "eBook" None true
                             one_book_state) in
  "/lib/a" <> DIRECTORY quiet_env "eBook"
  /\ map (fun b => (b_Status b, b_BookFile b)) (books (database one_book_state))
     = [("Open", Some "/lib/a/Emma.epub")]
  /\ isfile quiet_env "/lib/a/Emma.epub" = false
  /\ map (fun b => (b_Status b, b_BookFile b)) (books (database s'))
     = [("Skipped", Some "")].
Proof.
  cbv zeta. split; [discriminate|]. repeat split.
Qed.

Lemma known_of_statuses (authid : string) (s s' : state) :
  statuses s' = statuses s -> author_known authid s -> author_known authid s'.
Proof. unfold author_known. intros ->. trivial. Qed.

Lemma has_status_of_statuses (authid status : string) (s s' : state) :
  statuses s' = statuses s ->
  author_has_status authid status s -> author_has_status authid status s'.
Proof. unfold author_has_status, author_known. intros ->. trivial. Qed.

(** Setting the status of a known author gives it that status. *)
Lemma set_author_status_known (authid status : string) (s : state) :
  PyStr.truthy authid = true ->
  author_known authid s ->
  snd (set_author_status (Some authid) status s) = Returned tt
  /\ author_has_status authid status (fst (set_author_status (Some authid) status s)).
Proof.
  intros Ht Hk. unfold set_author_status, modify. cbn [fst snd PyStr.truthy_opt].
  rewrite Ht. split; [reflexivity|].
  unfold author_known, statuses in Hk. rewrite map_map in Hk. cbn [fst] in Hk.
  apply in_map_iff in Hk. destruct Hk as (a0 & He & Hin).
  destruct (match_where _ _) as [a|] eqn:Hm.
  - clear Hm. unfold author_has_status, author_known, statuses.
    cbn [on_db database upsert_author_status authors].
    rewrite !map_map. cbn [fst]. split.
    + apply in_map_iff. exists a0. split; [|exact Hin].
      destruct (a_AuthorID a0 =? authid); cbn; exact He.
    + intros row Hrow Hid. apply in_map_iff in Hrow.
      destruct Hrow as (a1 & <- & Hin1).
      destruct (a_AuthorID a1 =? authid) eqn:E; cbn in *; [reflexivity|].
      apply String.eqb_neq in E. contradiction.
  - exfalso.
    pose proof (proj1 (DbFacts.match_where_none _ _) Hm a0 Hin) as Hf.
    cbn in Hf. apply String.eqb_neq in Hf. contradiction.
Qed.

(** *** Rules for [bind] *)

Lemma keeps_bind {A B} (I : state -> Prop) (c : M A) (k : A -> M B) :
  keeps I c -> (forall a, keeps I (k a)) -> keeps I (bind c k).
Proof.
  intros Hc Hk s Hs. unfold bind. specialize (Hc s Hs).
  destruct (c s) as [s' [a|e]]; cbn [fst] in *; [apply Hk, Hc | exact Hc].
Qed.

Lemma keeps_ret {A} (I : state -> Prop) (a : A) : keeps I (ret a).
Proof. intros s Hs. exact Hs. Qed.

Lemma keeps_raise {A} (I : state -> Prop) (e : exn) : keeps I (@raise A e).
Proof. intros s Hs. exact Hs. Qed.

Lemma yields_bind_last {A B} (I Q : state -> Prop) (c : M A) (k : A -> M B) :
  keeps I c -> (forall a, yields I Q (k a)) -> yields I Q (bind c k).
Proof.
  intros Hc Hk s Hs s' b. unfold bind. specialize (Hc s Hs).
  destruct (c s) as [s1 [a|e]]; cbn [fst] in *; [|discriminate].
  apply (Hk a s1 Hc).
Qed.

Lemma yields_bind_first {A B} (I Q : state -> Prop) (c : M A) (k : A -> M B) :
  yields I Q c -> (forall a, keeps Q (k a)) -> yields I Q (bind c k).
Proof.
  intros Hc Hk s Hs s' b. unfold bind.
  destruct (c s) as [s1 [a|e]] eqn:Ec; [|discriminate].
  intros Hkb. specialize (Hc s Hs s1 a Ec). specialize (Hk a s1 Hc).
  rewrite Hkb in Hk. exact Hk.
Qed.

Section AuthorStatus.
Variable e : env.
Variable authid : string.

(** The id is not empty. *)
Hypothesis authid_given : PyStr.truthy authid = true.

(** The walk does not delete the author, and [update_totals] leaves
    the ids and statuses of the authors as they are. *)
Hypothesis walk_keeps_author :
  forall startdir library, keeps (author_known authid) (walk e startdir library).
Hypothesis totals_keep_statuses :
  forall id s, statuses (fst (update_totals e id s)) = statuses s.

Let known := author_known authid.
Let active := author_has_status authid "Active".

Lemma active_known (s : state) : active s -> known s.
Proof. intros [H _]. exact H. Qed.

Lemma set_status_keeps_known (status : string) :
  keeps known (set_author_status (Some authid) status).
Proof.
  intros s Hs.
  apply (set_author_status_known authid status s authid_given Hs).
Qed.

Lemma set_active_yields :
  yields known active (set_author_status (Some authid) "Active").
Proof.
  intros s Hs s' a Hrun.
  pose proof (proj2 (set_author_status_known authid "Active" s authid_given Hs)) as H.
  rewrite Hrun in H. exact H.
Qed.

Lemma remove_pass_statuses (library startdir destdir : string) (s : state) :
  statuses (fst (remove_pass e library startdir destdir s)) = statuses s.
Proof.
  unfold remove_pass.
  destruct (Removal.remove_missing _ _ _ _ _ _) as [d|] eqn:Hrm; [|reflexivity].
  apply RemovalFacts.remove_missing_authors in Hrm.
  unfold statuses. cbn. rewrite Hrm. reflexivity.
Qed.

Lemma update_all_statuses (ids : list string) :
  forall s, statuses (fst (update_all e ids s)) = statuses s.
Proof.
  induction ids as [|id ids IH]; intros s; cbn [update_all]; [reflexivity|].
  unfold bind. pose proof (totals_keep_statuses id s) as Hs.
  destruct (update_totals e id s) as [s1 [a|x]]; cbn [fst] in *.
  - rewrite IH. exact Hs.
  - exact Hs.
Qed.

Lemma update_all_keeps (P : state -> Prop) (ids : list string) :
  (forall s s', statuses s' = statuses s -> P s -> P s') ->
  keeps P (update_all e ids).
Proof. intros HP s Hs. exact (HP _ _ (update_all_statuses ids s) Hs). Qed.

Lemma remove_step_keeps (P : state -> Prop) (remove : bool)
      (library startdir destdir : string) :
  (forall s s', statuses s' = statuses s -> P s -> P s') ->
  keeps P (if remove then remove_pass e library startdir destdir else ret tt).
Proof.
  intros HP s Hs. destruct remove; [|exact Hs].
  exact (HP _ _ (remove_pass_statuses library startdir destdir s) Hs).
Qed.

(** The end of a partial scan: the status is set, then the totals of
    the last author are brought up to date. *)
Let partial_end (found : Z * option string) : M (option Z) :=
  authors <-
    (set_author_status (Some authid) "Active" ;;;
     match snd found with
     | None => raise (OtherError "AttributeError")
     | Some author =>
         fun s =>
           (s, Returned
                 (map a_AuthorID
                      (select_where
                         (fun a => a_AuthorName a =? Matcher.sql_param author)
                         (authors (database s)))))
     end) ;;
  update_all e authors ;;;
  ret (Some (fst found)).

Lemma partial_end_keeps (found : Z * option string) :
  keeps known (partial_end found).
Proof.
  unfold partial_end. apply keeps_bind.
  - apply keeps_bind; [apply set_status_keeps_known|].
    intros _. destruct (snd found) as [name|]; [|apply keeps_raise].
    intros s Hs. exact Hs.
  - intros ids. apply keeps_bind; [|intros; apply keeps_ret].
    apply update_all_keeps. intros s s'. apply known_of_statuses.
Qed.

Lemma partial_end_yields (found : Z * option string) :
  yields known active (partial_end found).
Proof.
  unfold partial_end. apply yields_bind_first.
  - apply yields_bind_first; [apply set_active_yields|].
    intros _. destruct (snd found) as [name|]; [|apply keeps_raise].
    intros s Hs. exact Hs.
  - intros ids. apply keeps_bind; [|intros; apply keeps_ret].
    apply update_all_keeps. intros s s'. apply has_status_of_statuses.
Qed.

Lemma scan_body_partial (startdir destdir library : string) (remove : bool) :
  (startdir =? destdir) = false ->
  keeps known (scan_body e startdir destdir library (Some authid) remove)
  /\ yields known active (scan_body e startdir destdir library (Some authid) remove).
Proof.
  intros Hpart. unfold scan_body. rewrite Hpart.
  fold partial_end. split.
  - apply keeps_bind; [apply set_status_keeps_known|]. intros _.
    apply keeps_bind;
      [apply remove_step_keeps; intros s s'; apply known_of_statuses|].
    intros _. apply keeps_bind; [apply walk_keeps_author|].
    intros found. apply (partial_end_keeps found).
  - apply yields_bind_last; [apply set_status_keeps_known|]. intros _.
    apply yields_bind_last;
      [apply remove_step_keeps; intros s s'; apply known_of_statuses|].
    intros _. apply yields_bind_last; [apply walk_keeps_author|].
    intros found. apply (partial_end_yields found).
Qed.

Lemma scan_except_partial (startdir destdir library : string) (s : state) :
  (startdir =? destdir) = false ->
  known s ->
  active (fst (scan_except startdir destdir library (Some authid) s))
  /\ snd (scan_except startdir destdir library (Some authid) s) = Returned None.
Proof.
  intros Hpart Hs. unfold scan_except, bind. rewrite Hpart.
  destruct (set_author_status_known authid "Active" s authid_given Hs) as [Hr Ha].
  destruct (set_author_status (Some authid) "Active" s) as [s1 o].
  cbn [fst snd] in *. subst o. cbn. auto.
Qed.

(** While the walk runs the author is at [Loading]. *)
Lemma loading_during_scan (library startdir destdir : string) (remove : bool)
      (s : state) :
  known s ->
  author_has_status authid "Loading"
    (fst ((set_author_status (Some authid) "Loading" ;;;
           (if remove then remove_pass e library startdir destdir else ret tt)) s)).
Proof.
  intros Hs. unfold bind.
  destruct (set_author_status_known authid "Loading" s authid_given Hs) as [Hr Hl].
  destruct (set_author_status (Some authid) "Loading" s) as [s1 o].
  cbn [fst snd] in *. subst o.
  apply (remove_step_keeps (author_has_status authid "Loading") remove
           library startdir destdir); [|exact Hl].
  intros s0 s'. apply has_status_of_statuses.
Qed.

Lemma library_scan_partial (startdir library : string) (remove : bool) (s : state) :
  PyStr.truthy startdir = true ->
  startdir <> DIRECTORY e library ->
  isdir e startdir = true ->
  known s ->
  active (fst (LibraryScan e (Some startdir) library (Some authid) remove s))
  /\ exists r, snd (LibraryScan e (Some startdir) library (Some authid) remove s)
               = Returned r.
Proof.
  intros Hdir Hpart Hisdir Hs. unfold LibraryScan.
  cbn [PyStr.truthy_opt]. rewrite Hdir. cbn [negb andb]. rewrite Hisdir.
  cbn [negb]. apply String.eqb_neq in Hpart.
  destruct (scan_body_partial startdir (DIRECTORY e library) library remove Hpart)
    as [Hkeep Hyield].
  unfold try_except. specialize (Hkeep s Hs). specialize (Hyield s Hs).
  destruct (scan_body e startdir (DIRECTORY e library) library (Some authid) remove s)
    as [s' [r|x]]; cbn [fst snd] in *.
  - split; [apply (Hyield s' r eq_refl) | exists r; reflexivity].
  - destruct (scan_except_partial startdir (DIRECTORY e library) library s' Hpart Hkeep)
      as [Ha Hr].
    split; [exact Ha | exists None; exact Hr].
Qed.

End AuthorStatus.

(** C4: a scan of a part of the library for an author that is in the
    catalog, which sets the author to [Loading] first, ends with the
    author at [Active], and it returns: when the walk and the update of
    the totals return, and when either of them raises.  The walk is any
    that does not delete the author, and [update_totals] any that leaves
    the statuses of the authors as they are. *)
Theorem library_scan_resets_author_status
        (e : env) (authid startdir library : string) (remove : bool) (s : state) :
  PyStr.truthy authid = true ->
  (forall startdir library, keeps (author_known authid) (walk e startdir library)) ->
  (forall id s, statuses (fst (update_totals e id s)) = statuses s) ->
  PyStr.truthy startdir = true ->
  startdir <> DIRECTORY e library ->
  isdir e startdir = true ->
  author_known authid s ->
  author_has_status authid "Active"
    (fst (LibraryScan e (Some startdir) library (Some authid) remove s))
  /\ exists r, snd (LibraryScan e (Some startdir) library (Some authid) remove s)
               = Returned r.
Proof.
  intros Hid Hwalk Htotals. apply library_scan_partial; assumption.
Qed.

(** A scan of [/lib/a] for the author [a1] in which the walk raises. *)
Lemma library_scan_resets_author_status_witness :
  author_has_status "a1" "Active"
    (fst (LibraryScan failing_env (Some "/lib/a") "eBook" (Some "a1") true
                      one_book_state))
  /\ snd (walk failing_env "/lib/a" "eBook" one_book_state)
     = Raised (IOError "/lib/a").
Proof.
  split; [|reflexivity].
  refine (proj1 (library_scan_resets_author_status failing_env "a1" "/lib/a" "eBook"
                   true one_book_state eq_refl _ _ eq_refl _ eq_refl _)).
  - intros startdir library s Hs. exact Hs.
  - intros id s. reflexivity.
  - discriminate.
  - left. reflexivity.
Defined.

End ScanFacts.

(* ------------------------------------------------------------------ *)
(** ** The metadata cascade *)

Module ResolverFacts.
Import Resolver.


(** The same file as a mobi is read first. *)
Example mobi_container_is_read :
  resolve kindle_readers Pattern.default_pattern "/lib/a" "Emma.mobi"
  = ([GetBookInfo "/lib/a/Emma.mobi"; GetBookInfo ""],
     Returned {| matched := true; author := Some "Jane Austen";
                 book := Some "Emma"; language := Some "en"; isbn := None;
                 gr_id := Some ""; extn := Some "mobi" |}).
Proof. reflexivity. Qed.





(** A capture of three characters or more on both sides is kept. *)
Lemma pattern_step_keeps_long_captures
      (rd : readers) (m : meta) (groups : Dict.t string) (a b ua ub : string) :
  Dict.get groups "author" = Some a ->
  Dict.get groups "book" = Some b ->
  BookInfo.decode (world rd) a = Some ua ->
  BookInfo.decode (world rd) b = Some ub ->
  a <> "" -> b <> "" ->
  2 < PyStr.chars ua -> 2 < PyStr.chars ub ->
  exists m', pattern_step rd m (Some groups) = Returned m' /\ matched m' = true.
Proof.
  intros Ha Hb Hua Hub Hna Hnb Hla Hlb. unfold pattern_step.
  rewrite Ha, Hb, Hua, Hub.
  eexists. split; [reflexivity|]. cbn [matched].
  apply String.eqb_neq in Hna, Hnb. unfold PyStr.truthy. rewrite Hna, Hnb.
  cbn [negb orb].
  apply Nat.leb_gt in Hla, Hlb. rewrite Hla, Hlb. reflexivity.
Qed.

(** A capture that is no text of the encoding of the system makes the
    step raise, also when the other capture is empty. *)
Example pattern_step_undecodable :
  pattern_step plain_readers (meta_init Samples.undecodable_name)
               (Pattern.re_match Pattern.default_pattern Samples.undecodable_name)
  = Raised (OtherError "UnicodeDecodeError").
Proof. reflexivity. Qed.



End ResolverFacts.

(* ------------------------------------------------------------------ *)
(** ** Files of a directory that was seen before *)

Module WalkFacts.
Import Resolver.

Section Files.
Variable found : string -> bool.
Variables startdir r : string.

Let subdirectory := PyStr.replace startdir "" r.

(** In the Audio library no file of a directory in the list is looked
    at, and the list stays as it is. *)
Lemma scan_files_audio_seen (IMP_SINGLEBOOK : bool) (f processed : list string) :
  mem subdirectory processed = true ->
  scan_files found "Audio" IMP_SINGLEBOOK startdir r f processed = ([], processed).
Proof.
  intros Hseen. induction f as [|files rest IH]; cbn [scan_files]; [reflexivity|].
  fold subdirectory. unfold already_scanned. rewrite Hseen.
  cbn. destruct IMP_SINGLEBOOK; exact IH.
Qed.

(** The same in the eBook library with the option set. *)
Lemma scan_files_ebook_single_seen (f processed : list string) :
  mem subdirectory processed = true ->
  scan_files found "eBook" true startdir r f processed = ([], processed).
Proof.
  intros Hseen. induction f as [|files rest IH]; cbn [scan_files]; [reflexivity|].
  fold subdirectory. unfold already_scanned. rewrite Hseen. cbn. exact IH.
Qed.

(** In the eBook library without the option every file is looked at,
    whatever the list holds. *)
Lemma scan_files_ebook_multi (f : list string) :
  forall processed,
    fst (scan_files found "eBook" false startdir r f processed) = f.
Proof.
  induction f as [|files rest IH]; intros processed; cbn [scan_files];
    [reflexivity|].
  unfold already_scanned. cbn [String.eqb Ascii.eqb Bool.eqb andb].
  specialize (IH (if found files
                  then processed ++ [PyStr.replace startdir "" r]
                  else processed)).
  destruct (scan_files found "eBook" false startdir r rest _) as [looked p].
  cbn [fst] in *. rewrite IH. reflexivity.
Qed.

End Files.

(** C10: for the files of a directory that is in the list of the
    directories seen, a scan of the Audio library looks at none, with
    the option [IMP_SINGLEBOOK] set or not; a scan of the eBook library
    looks at none when the option is set and at every one of them when
    it is not. *)
Theorem seen_directory_is_skipped
        (found : string -> bool) (startdir r : string)
        (f processed : list string) (IMP_SINGLEBOOK : bool) :
  mem (PyStr.replace startdir "" r) processed = true ->
  fst (scan_files found "Audio" IMP_SINGLEBOOK startdir r f processed) = []
  /\ fst (scan_files found "eBook" true startdir r f processed) = []
  /\ fst (scan_files found "eBook" false startdir r f processed) = f.
Proof.
  intros Hseen.
  rewrite (scan_files_audio_seen found startdir r IMP_SINGLEBOOK f processed Hseen).
  rewrite (scan_files_ebook_single_seen found startdir r f processed Hseen).
  rewrite scan_files_ebook_multi. auto.
Qed.

Lemma seen_directory_is_skipped_witness :
  fst (scan_files (fun _ => true) "Audio" false "/lib" "/lib/a"
                  ["Emma.mp3"; "Emma.m4b"] ["/a"]) = []
  /\ fst (scan_files (fun _ => true) "eBook" true "/lib" "/lib/a"
                     ["Emma.mp3"; "Emma.m4b"] ["/a"]) = []
  /\ fst (scan_files (fun _ => true) "eBook" false "/lib" "/lib/a"
                     ["Emma.mp3"; "Emma.m4b"] ["/a"])
     = ["Emma.mp3"; "Emma.m4b"].
Proof.
  apply (seen_directory_is_skipped (fun _ => true) "/lib" "/lib/a"
           ["Emma.mp3"; "Emma.m4b"] ["/a"] false).
  reflexivity.
Defined.

(** The first file of a directory in which a book is found puts the
    directory in the list, and with the option set the files after it
    are passed over. *)
Example second_format_is_skipped :
  scan_files (fun _ => true) "eBook" true "/lib" "/lib/a"
             ["Emma.epub"; "Emma.mobi"] []
  = (["Emma.epub"], ["/a"]).
Proof. reflexivity. Qed.

End WalkFacts.

(* ------------------------------------------------------------------ *)
(** ** The pattern of file names *)

Module PatternFacts.
Import Pattern.

Example default_matchString :
  matchString default_template default_booktypes
  = "(?P<book>.*?)\ \-\ (?P<author>.*?)\.[epub|mobi|pdf]".
Proof. reflexivity. Qed.

Example default_pattern_compiled :
  scan_pattern default_template default_booktypes = Some default_pattern.
Proof. reflexivity. Qed.

(** The types end up as the characters of one set, the bars between them
    included. *)
Example default_pattern_tail :
  last default_pattern (Lit "x")
  = CharSet (list_ascii_of_string "epub|mobi|pdf").
Proof. reflexivity. Qed.

(** C8 (fails on the code): with the types [epub], [mobi] and [pdf], the
    pattern matches file names that do not end with one of them: after
    the dot it takes one character of [epub|mobi|pdf], and nothing has
    to follow.  In [Emma - Jane Austen.old.epub], a name that the scan
    does hand to the pattern, the match ends after [.o]. *)
Theorem pattern_matches_other_extensions :
  re_match default_pattern "Emma - Jane Austen.bak"
  = Some [("book", "Emma"); ("author", "Jane Austen")]
  /\ re_match default_pattern "Emma - Jane Austen.|"
     = Some [("book", "Emma"); ("author", "Jane Austen")]
  /\ re_match default_pattern "Emma - Jane Austen.old.epub"
     = Some [("book", "Emma"); ("author", "Jane Austen")]
  /\ re_match default_pattern "Emma - J.d. Austen.epub"
     = Some [("book", "Emma"); ("author", "J")].
Proof. repeat split. Qed.

End PatternFacts.


(* ================================================================== *)
(** * Further properties of the code *)

(* ------------------------------------------------------------------ *)
(** ** Dictionaries *)

Module DictFacts.

Lemma get_set_same {V} (d : Dict.t V) (k : string) (v : V) :
  Dict.get (Dict.set d k v) k = Some v.
Proof.
  induction d as [|[k' v'] d IH]; cbn.
  - rewrite String.eqb_refl. reflexivity.
  - destruct (k' =? k) eqn:E; cbn.
    + rewrite String.eqb_refl. reflexivity.
    + rewrite E. exact IH.
Qed.

Lemma get_set_other {V} (d : Dict.t V) (k k' : string) (v : V) :
  k <> k' -> Dict.get (Dict.set d k v) k' = Dict.get d k'.
Proof.
  intros Hne. induction d as [|[k0 v0] d IH]; cbn.
  - apply String.eqb_neq in Hne. rewrite Hne. reflexivity.
  - destruct (k0 =? k) eqn:E; cbn.
    + apply String.eqb_eq in E. subst k0.
      apply String.eqb_neq in Hne. rewrite Hne. reflexivity.
    + destruct (k0 =? k'); [reflexivity | exact IH].
Qed.

End DictFacts.

(* ------------------------------------------------------------------ *)
(** ** What [get_book_info] gives *)

Module BookInfoMore.
Import BookInfo Opf DictFacts.

(** One turn of the loop writes none of the keys but [title], [language],
    [creator], [identifier] and [gr_id]. *)
Lemma repackage_one_other_key (w : world) (res : result) (e : element)
      (k : string) :
  k <> "title" -> k <> "language" -> k <> "creator" ->
  k <> "identifier" -> k <> "gr_id" ->
  Dict.get (repackage_one w res e) k = Dict.get res k.
Proof.
  intros H1 H2 H3 H4 H5. unfold repackage_one.
  repeat match goal with
         | |- context [if ?c then _ else _] => destruct c
         end;
    try reflexivity; apply get_set_other; congruence.
Qed.

Lemma repackage_other_key (w : world) (res res' : result) (txt k : string) :
  k <> "title" -> k <> "language" -> k <> "creator" ->
  k <> "identifier" -> k <> "gr_id" ->
  repackage w res txt = Returned res' ->
  Dict.get res' k = Dict.get res k.
Proof.
  intros H1 H2 H3 H4 H5. unfold repackage.
  destruct (fromstring w txt) as [tree|]; [|intros H; inversion H; reflexivity].
  destruct (children tree) as [|tree0 rest]; [intros H; inversion H; reflexivity|].
  intros H. injection H as <-.
  generalize res. induction (children tree0) as [|e l IH]; intros r; cbn [fold_left];
    [reflexivity|].
  rewrite IH. apply repackage_one_other_key; assumption.
Qed.

(** X2: a result that [get_book_info] returns for a mobi, an azw3, an epub
    or an opf names the type of the file: its [type] is the extension
    without the dot, whatever the file holds and also when it cannot be
    parsed. *)
Theorem get_book_info_type (w : world) (fname : string) (res : result) :
  get_book_info w fname = Returned res ->
  In (snd (PyStr.splitext fname)) [".mobi"; ".azw3"; ".epub"; ".opf"] ->
  exists type,
    snd (PyStr.splitext fname) = ("." ++ type)%string
    /\ Dict.get res "type" = Some (Some type).
Proof.
  intros Hres Hin. unfold get_book_info in Hres.
  assert (Hkeep : forall r txt type,
             repackage w (Dict.set [] "type" (Some type)) txt = Returned r ->
             Dict.get r "type" = Some (Some type)).
  { intros r txt type Hr.
    rewrite (repackage_other_key w _ r txt "type") by (congruence || exact Hr).
    reflexivity. }
  destruct Hin as [H|[H|[H|[H|[]]]]]; rewrite <- H in *; cbn in Hres.
  - exists "mobi". split; [reflexivity|].
    destruct (Mobi w fname) as [book|]; [|inversion Hres; reflexivity].
    repeat match type of Hres with
           | match ?c with _ => _ end = _ => destruct c; [|discriminate]
           end.
    inversion Hres; reflexivity.
  - exists "azw3". split; [reflexivity|].
    destruct (Mobi w fname) as [book|]; [|inversion Hres; reflexivity].
    repeat match type of Hres with
           | match ?c with _ => _ end = _ => destruct c; [|discriminate]
           end.
    inversion Hres; reflexivity.
  - exists "epub". split; [reflexivity|].
    destruct (ZipFile w fname) as [zipdata|]; [|inversion Hres; reflexivity].
    destruct (zip_read zipdata "META-INF/container.xml") as [txt|]; [|discriminate].
    destruct (fromstring w txt) as [tree|]; [|inversion Hres; reflexivity].
    destruct (children tree) as [|tree0 rest]; [inversion Hres; reflexivity|].
    destruct (zip_read zipdata _) as [txt'|]; [|discriminate].
    apply (Hkeep res txt' "epub" Hres).
  - exists "opf". split; [reflexivity|].
    destruct (open_read w fname) as [txt|]; [|discriminate].
    apply (Hkeep res _ "opf" Hres).
Qed.

Lemma get_book_info_type_witness :
  exists type,
    snd (PyStr.splitext "/lib/a/metadata.opf") = ("." ++ type)%string
    /\ Dict.get [("type", Some "opf"); ("title", Some "Emma");
                 ("creator", Some "Jane Austen"); ("language", Some "en");
                 ("identifier", Some "0141439580"); ("gr_id", Some "6969")]
                "type" = Some (Some type).
Proof.
  apply (get_book_info_type sample_world "/lib/a/metadata.opf").
  - reflexivity.
  - right. right. right. left. reflexivity.
Defined.

(** A property of the result that holds at the start and that every turn
    of the loop keeps holds for what [get_book_info] returns for an epub
    or an opf. *)
Lemma get_book_info_loop_invariant (P : result -> Prop) (w : world)
      (fname : string) (res : result) :
  (forall type, P (Dict.set [] "type" (Some type))) ->
  (forall r e, P r -> P (repackage_one w r e)) ->
  snd (PyStr.splitext fname) = ".epub" \/ snd (PyStr.splitext fname) = ".opf" ->
  get_book_info w fname = Returned res ->
  P res.
Proof.
  intros Hinit Hstep Hext Hres.
  assert (Hrep : forall r0 txt r, P r0 -> repackage w r0 txt = Returned r -> P r).
  { intros r0 txt r H0. unfold repackage.
    destruct (fromstring w txt) as [tree|]; [|intros H; injection H as <-; exact H0].
    destruct (children tree) as [|tree0 rest]; [intros H; injection H as <-; exact H0|].
    intros H. injection H as <-. revert r0 H0.
    induction (children tree0) as [|e l IH]; intros r0 H0; cbn [fold_left];
      [exact H0|].
    apply IH, Hstep, H0. }
  unfold get_book_info in Hres.
  destruct Hext as [H|H]; rewrite H in Hres; cbn in Hres.
  - destruct (ZipFile w fname) as [zipdata|]; [|injection Hres as <-; apply Hinit].
    destruct (zip_read zipdata "META-INF/container.xml") as [txt|]; [|discriminate].
    destruct (fromstring w txt) as [tree|]; [|injection Hres as <-; apply Hinit].
    destruct (children tree) as [|tree0 rest]; [injection Hres as <-; apply Hinit|].
    destruct (zip_read zipdata _) as [txt'|]; [|discriminate].
    apply (Hrep _ txt' res (Hinit "epub") Hres).
  - destruct (open_read w fname) as [txt|]; [|discriminate].
    apply (Hrep _ _ res (Hinit "opf") Hres).
Qed.

Lemma not_creator_keeps (w : world) (res : result) (e : element) :
  is_creator e = false ->
  Dict.get (repackage_one w res e) "creator" = Dict.get res "creator".
Proof.
  unfold is_creator, local_tag, repackage_one.
  destruct (PyStr.contains "}" (PyStr.lower (tag e))); [|reflexivity].
  set (t := PyStr.split_second "}" (PyStr.lower (tag e))).
  destruct (PyStr.contains "title" t); cbn [negb andb];
    [intros _; apply get_set_other; discriminate|].
  destruct (PyStr.contains "language" t); cbn [negb andb];
    [intros _; apply get_set_other; discriminate|].
  intros ->. cbn [andb].
  repeat match goal with
         | |- context [if ?c then _ else _] => destruct c
         end;
    try reflexivity; apply get_set_other; discriminate.
Qed.

Lemma creator_stays (w : world) (res : result) (e : element) (v : option string) :
  Dict.get res "creator" = Some v ->
  Dict.get (repackage_one w res e) "creator" = Some v.
Proof.
  intros Hv. unfold repackage_one, Dict.has. rewrite Hv. cbn [negb].
  rewrite andb_false_r.
  repeat match goal with
         | |- context [if ?c then _ else _] => destruct c
         end;
    try exact Hv; rewrite get_set_other by discriminate; exact Hv.
Qed.

Lemma creator_taken (w : world) (res : result) (e : element) :
  Dict.get res "creator" = None ->
  is_creator e = true ->
  Dict.get (repackage_one w res e) "creator" = Some (text e).
Proof.
  intros Hnone. unfold is_creator, local_tag, repackage_one, Dict.has.
  rewrite Hnone.
  destruct (PyStr.contains "}" (PyStr.lower (tag e))); [|discriminate].
  set (t := PyStr.split_second "}" (PyStr.lower (tag e))).
  destruct (PyStr.contains "title" t); [discriminate|].
  destruct (PyStr.contains "language" t); [discriminate|].
  cbn [negb andb]. intros ->. cbn [andb]. apply get_set_same.
Qed.

(** X3: of several creators the first is the one kept: when the result has
    no creator yet, it gets the text of the first element that the loop
    takes as a creator, and no element after it changes that. *)
Theorem first_creator_wins (w : world) (res : result)
        (before after : list element) (e : element) :
  Dict.get res "creator" = None ->
  Forall (fun x => is_creator x = false) before ->
  is_creator e = true ->
  Dict.get (fold_left (repackage_one w) (before ++ e :: after) res) "creator"
  = Some (text e).
Proof.
  intros Hnone Hbefore He. rewrite fold_left_app. cbn [fold_left].
  assert (H1 : Dict.get (fold_left (repackage_one w) before res) "creator" = None).
  { revert res Hnone. induction Hbefore as [|x l Hx _ IH]; intros res Hnone;
      cbn [fold_left]; [exact Hnone|].
    apply IH. rewrite (not_creator_keeps w res x Hx). exact Hnone. }
  pose proof (creator_taken w _ e H1 He) as H2.
  revert H2. generalize (repackage_one w (fold_left (repackage_one w) before res) e).
  induction after as [|x l IH]; intros r Hr; cbn [fold_left]; [exact Hr|].
  apply IH, creator_stays, Hr.
Qed.

(** The sample sidecar: a title, then two creators. *)
Lemma first_creator_wins_witness :
  Dict.get
    (fold_left (repackage_one sample_world)
       ([Element (dc "title") [] (Some "Emma") []]
        ++ Element (dc "creator") [] (Some "Jane Austen") []
        :: [Element (dc "creator") [] (Some "Fiona Stafford") []])
       [("type", Some "opf")])
    "creator"
  = Some (Some "Jane Austen").
Proof.
  apply (first_creator_wins sample_world [("type", Some "opf")]
           [Element (dc "title") [] (Some "Emma") []]
           [Element (dc "creator") [] (Some "Fiona Stafford") []]
           (Element (dc "creator") [] (Some "Jane Austen") [])).
  - reflexivity.
  - constructor; [reflexivity | constructor].
  - reflexivity.
Defined.

(** X4: the identifier of a result that [get_book_info] returns for an
    epub or an opf has passed [is_valid_isbn]. *)
Theorem get_book_info_identifier_valid (w : world) (fname : string)
        (res : result) (isbn : option string) :
  snd (PyStr.splitext fname) = ".epub" \/ snd (PyStr.splitext fname) = ".opf" ->
  get_book_info w fname = Returned res ->
  Dict.get res "identifier" = Some isbn ->
  is_valid_isbn w isbn = true.
Proof.
  intros Hext Hres.
  apply (get_book_info_loop_invariant
           (fun r => Dict.get r "identifier" = Some isbn -> is_valid_isbn w isbn = true)
           w fname res); [| |exact Hext|exact Hres].
  - intros type. cbn. discriminate.
  - intros r e Hr. unfold repackage_one.
    repeat match goal with
           | |- context [if ?c then _ else _] => destruct c eqn:?
           end;
      try exact Hr;
      try (rewrite get_set_other by discriminate; exact Hr).
    rewrite get_set_same. intros H. injection H as <-. assumption.
Qed.

Lemma get_book_info_identifier_valid_witness :
  is_valid_isbn sample_world (Some "0141439580") = true.
Proof.
  apply (get_book_info_identifier_valid sample_world "/lib/a/metadata.opf"
           [("type", Some "opf"); ("title", Some "Emma");
            ("creator", Some "Jane Austen"); ("language", Some "en");
            ("identifier", Some "0141439580"); ("gr_id", Some "6969")]
           (Some "0141439580")).
  - right. reflexivity.
  - reflexivity.
  - reflexivity.
Defined.

End BookInfoMore.

(* ------------------------------------------------------------------ *)
(** ** What [find_book_in_db] answers *)

Module MatcherMore.
Import Db Matcher.

Local Open Scope Z_scope.

Lemma match_where_some {R} (p : R -> bool) (rows : list R) (r : R) :
  match_where p rows = Some r -> In r rows /\ p r = true.
Proof.
  unfold match_where. destruct (filter p rows) as [|x l] eqn:E; [discriminate|].
  intros H. injection H as ->. apply filter_In. rewrite E. left. reflexivity.
Qed.

(** The three pairs of the loop at its end, as running maxima. *)
Lemma fuzzy_state (fz : fuzz) (author book : string) (cands : list book_row) :
  let q := normalised fz book in
  let core := fst (split_title fz author q) in
  let st := fold_left (fuzzy_step fz q (if (core =? q)%string then ""%string else core))
                      cands best_init in
  (best_ratio st, ratio_id st) = running_max (adjusted_ratio fz q) cands
  /\ (best_partial st, partial_id st) = running_max (adjusted_partial fz q) cands
  /\ (best_partname st, partname_id st)
     = running_max (adjusted_partname fz core q) cands.
Proof.
  cbv zeta.
  apply (MatcherFacts.fuzzy_loop_running fz (normalised fz book)
           (fst (split_title fz author (normalised fz book))) cands best_init).
  - intros _. cbn. lia.
  - cbn. lia.
Qed.

Lemma fuzzy_match_state (fz : fuzz) (author book : string) (cands : list book_row) :
  let q := normalised fz book in
  let core := fst (split_title fz author q) in
  let st := fold_left (fuzzy_step fz q (if (core =? q)%string then ""%string else core))
                      cands best_init in
  fuzzy_match fz author book cands
  = if best_ratio st >? 90 then ratio_id st
    else if best_partial st >? 85 then partial_id st
    else if best_partname st >? 95 then partname_id st
    else None.
Proof. reflexivity. Qed.

(** The id of a running maximum is that of a candidate. *)
Lemma running_max_id (score : book_row -> option Z) (l : list book_row) (id : string) :
  snd (running_max score l) = Some id ->
  exists b, In b l /\ b_BookID b = id.
Proof.
  unfold running_max. intros H.
  destruct (MatcherFacts.running_fold_first score l (0, None))
    as [Heq | (l1 & b & l2 & -> & _ & Hid & _)].
  - rewrite Heq in H. discriminate.
  - exists b. split; [apply in_or_app; right; left; reflexivity|].
    rewrite Hid in H. injection H as <-. reflexivity.
Qed.

(** A running maximum above 0 has an id. *)
Lemma running_max_positive_id (score : book_row -> option Z) (l : list book_row) :
  0 < fst (running_max score l) -> snd (running_max score l) <> None.
Proof.
  intros Hpos. destruct (MatcherFacts.running_max_first score l Hpos)
    as (l1 & b & l2 & _ & _ & Hid & _).
  rewrite Hid. discriminate.
Qed.

Lemma running_max_le (score : book_row -> option Z) (l : list book_row) (bound : Z) :
  0 <= bound ->
  (fst (running_max score l) <= bound
   <-> forall b s, In b l -> score b = Some s -> s <= bound).
Proof.
  intros Hb. split.
  - intros Hmax b s Hin Hs.
    pose proof (MatcherFacts.running_max_upper score l b s Hin Hs). lia.
  - intros Hall.
    destruct (Z_lt_le_dec 0 (fst (running_max score l))) as [Hpos|Hle]; [|lia].
    destruct (MatcherFacts.running_max_first score l Hpos)
      as (l1 & b & l2 & -> & Hs & _).
    apply (Hall b _); [|exact Hs]. apply in_or_app. right. left. reflexivity.
Qed.

(** X5: [find_book_in_db] never answers with a book of another author: an
    id it gives is that of a catalog entry whose author's name equals the
    bound author parameter up to case. *)
Theorem find_book_in_db_same_author
        (fz : fuzz) (d : db) (author book id : string) :
  find_book_in_db fz d author book = Some id ->
  exists b a,
    In b (books d) /\ In a (authors d) /\ a_AuthorID a = b_AuthorID b
    /\ nocase_eqb (a_AuthorName a) (sql_param author) = true
    /\ b_BookID b = id.
Proof.
  unfold find_book_in_db.
  destruct (match_where _ (books_authors d)) as [[b a]|] eqn:Hm.
  - intros H. injection H as <-. apply match_where_some in Hm.
    destruct Hm as [Hin Hp]. apply RemovalFacts.in_books_authors in Hin.
    destruct Hin as (Hb & Ha & He). cbn [fst snd] in Hp.
    apply andb_true_iff in Hp. exists b, a. tauto.
  - clear Hm. intros H.
    assert (Hcand : exists b, In b (map fst (select_where
                      (fun ba => nocase_eqb (a_AuthorName (snd ba)) (sql_param author))
                      (books_authors d))) /\ b_BookID b = id).
    { revert H. generalize (map fst (select_where
                      (fun ba => nocase_eqb (a_AuthorName (snd ba)) (sql_param author))
                      (books_authors d))). intros cands H.
      rewrite fuzzy_match_state in H. cbv zeta in H.
      destruct (fuzzy_state fz author book cands) as (E1 & E2 & E3).
      cbv zeta in E1, E2, E3.
      destruct (_ >? 90).
      { apply (running_max_id (adjusted_ratio fz (normalised fz book)) cands).
        rewrite <- E1. exact H. }
      destruct (_ >? 85).
      { apply (running_max_id (adjusted_partial fz (normalised fz book)) cands).
        rewrite <- E2. exact H. }
      destruct (_ >? 95); [|discriminate].
      apply (running_max_id
               (adjusted_partname fz (fst (split_title fz author (normalised fz book)))
                                  (normalised fz book)) cands).
      rewrite <- E3. exact H. }
    destruct Hcand as (b & Hin & Hid). apply in_map_iff in Hin.
    destruct Hin as ([b' a] & Hfst & Hin). cbn [fst] in Hfst. subst b'.
    apply filter_In in Hin. destruct Hin as [Hin Hp]. cbn [snd] in Hp.
    apply RemovalFacts.in_books_authors in Hin. destruct Hin as (Hb & Ha & He).
    exists b, a. tauto.
Qed.

Lemma find_book_in_db_same_author_witness :
  exists b a,
    In b (books austen_catalog) /\ In a (authors austen_catalog)
    /\ a_AuthorID a = b_AuthorID b
    /\ nocase_eqb (a_AuthorName a) (sql_param "jane austen") = true
    /\ b_BookID b = "b1"%string.
Proof.
  apply (find_book_in_db_same_author toy_fuzz austen_catalog "jane austen"
           "Emma (illustrated edition)" "b1").
  reflexivity.
Defined.

(** X6: the approximate match answers 0 exactly when no candidate is above
    a threshold: no penalised ratio above 90, no penalised partial ratio
    above 85, and no penalised partial ratio of the reduced title, where
    that is in use, above 95. *)
Theorem fuzzy_match_not_found
        (fz : fuzz) (author book : string) (cands : list book_row) :
  let q := normalised fz book in
  let core := fst (split_title fz author q) in
  fuzzy_match fz author book cands = None
  <-> (forall b s, In b cands -> adjusted_ratio fz q b = Some s -> s <= 90)
      /\ (forall b s, In b cands -> adjusted_partial fz q b = Some s -> s <= 85)
      /\ (forall b s, In b cands -> adjusted_partname fz core q b = Some s -> s <= 95).
Proof.
  cbv zeta. rewrite fuzzy_match_state. cbv zeta.
  destruct (fuzzy_state fz author book cands) as (E1 & E2 & E3).
  cbv zeta in E1, E2, E3.
  set (q := normalised fz book) in *.
  set (core := fst (split_title fz author q)) in *.
  set (st := fold_left _ cands best_init) in *.
  rewrite <- (running_max_le (adjusted_ratio fz q) cands 90) by lia.
  rewrite <- (running_max_le (adjusted_partial fz q) cands 85) by lia.
  rewrite <- (running_max_le (adjusted_partname fz core q) cands 95) by lia.
  rewrite <- E1, <- E2, <- E3. cbn [fst].
  pose proof (running_max_positive_id (adjusted_ratio fz q) cands) as P1.
  pose proof (running_max_positive_id (adjusted_partial fz q) cands) as P2.
  pose proof (running_max_positive_id (adjusted_partname fz core q) cands) as P3.
  rewrite <- E1 in P1. rewrite <- E2 in P2. rewrite <- E3 in P3. cbn [fst snd] in *.
  destruct (best_ratio st >? 90) eqn:G1.
  { apply Z.gtb_lt in G1. split; [intros H; exfalso; apply P1; [lia | exact H] | lia]. }
  rewrite Z.gtb_ltb in G1. apply Z.ltb_ge in G1.
  destruct (best_partial st >? 85) eqn:G2.
  { apply Z.gtb_lt in G2. split; [intros H; exfalso; apply P2; [lia | exact H] | lia]. }
  rewrite Z.gtb_ltb in G2. apply Z.ltb_ge in G2.
  destruct (best_partname st >? 95) eqn:G3.
  { apply Z.gtb_lt in G3. split; [intros H; exfalso; apply P3; [lia | exact H] | lia]. }
  rewrite Z.gtb_ltb in G3. apply Z.ltb_ge in G3.
  split; [intros _; lia | reflexivity].
Qed.

(** X7: of the candidates with the best penalised ratio the first in the
    order of the query is the one whose id the loop keeps: the scores
    before it are below the best, and no score is above it. *)
Theorem fuzzy_ratio_first_best
        (fz : fuzz) (author book : string) (cands : list book_row) :
  let q := normalised fz book in
  let core := fst (split_title fz author q) in
  let st := fold_left (fuzzy_step fz q (if (core =? q)%string then ""%string else core))
                      cands best_init in
  0 < best_ratio st ->
  exists before b after,
    cands = before ++ b :: after
    /\ ratio_id st = Some (b_BookID b)
    /\ adjusted_ratio fz q b = Some (best_ratio st)
    /\ (forall x s, In x before -> adjusted_ratio fz q x = Some s -> s < best_ratio st)
    /\ (forall x s, In x cands -> adjusted_ratio fz q x = Some s -> s <= best_ratio st).
Proof.
  cbv zeta. intros Hpos.
  destruct (fuzzy_state fz author book cands) as (E1 & _ & _).
  cbv zeta in E1.
  set (q := normalised fz book) in *.
  set (st := fold_left _ cands best_init) in *.
  assert (Hf : best_ratio st = fst (running_max (adjusted_ratio fz q) cands))
    by (rewrite <- E1; reflexivity).
  assert (Hs : ratio_id st = snd (running_max (adjusted_ratio fz q) cands))
    by (rewrite <- E1; reflexivity).
  rewrite Hf in Hpos.
  destruct (MatcherFacts.running_max_first (adjusted_ratio fz q) cands Hpos)
    as (l1 & b & l2 & Hc & Hb & Hid & Hbefore).
  exists l1, b, l2. rewrite Hf, Hs. repeat split; try assumption.
  intros x s Hin Hx.
  apply (MatcherFacts.running_max_upper (adjusted_ratio fz q) cands x s Hin Hx).
Qed.

Lemma fuzzy_ratio_first_best_witness :
  exists before b after,
    books austen_catalog = before ++ b :: after
    /\ Some "b1"%string = Some (b_BookID b)
    /\ adjusted_ratio toy_fuzz "emma" b = Some 100
    /\ (forall x s, In x before -> adjusted_ratio toy_fuzz "emma" x = Some s -> s < 100)
    /\ (forall x s, In x (books austen_catalog) ->
                    adjusted_ratio toy_fuzz "emma" x = Some s -> s <= 100).
Proof.
  apply (fuzzy_ratio_first_best toy_fuzz "Jane Austen" "Emma" (books austen_catalog)).
  reflexivity.
Defined.

(** X8: for an author and a title without double quotes, when the catalog
    has an entry that equals both up to the case of ASCII letters,
    [find_book_in_db] answers with the id of such an entry, the first
    that the query gives, whatever the scores of the other books are. *)
Theorem find_book_in_db_exact_first
        (fz : fuzz) (d : db) (author book : string) (b : book_row) (a : author_row) :
  PyStr.contains dquote author = false ->
  PyStr.contains dquote book = false ->
  In b (books d) -> In a (authors d) -> a_AuthorID a = b_AuthorID b ->
  nocase_eqb (a_AuthorName a) author = true ->
  nocase_eqb (b_BookName b) book = true ->
  exists b' a',
    find_book_in_db fz d author book = Some (b_BookID b')
    /\ In (b', a') (books_authors d)
    /\ nocase_eqb (a_AuthorName a') author = true
    /\ nocase_eqb (b_BookName b') book = true.
Proof.
  intros Hqa Hqb Hb Ha He Hna Hnb.
  destruct (match_where
              (fun ba => nocase_eqb (a_AuthorName (snd ba)) author
                         && nocase_eqb (b_BookName (fst ba)) book)
              (books_authors d)) as [[b' a']|] eqn:Hm.
  - exists b', a'.
    rewrite (ExactMatchFacts.find_book_in_db_exact fz d author book (b', a') Hqa Hqb Hm).
    apply match_where_some in Hm. destruct Hm as [Hin Hp].
    cbn [fst snd] in Hp. apply andb_true_iff in Hp. tauto.
  - exfalso.
    pose proof (proj1 (DbFacts.match_where_none _ _) Hm (b, a)) as Hf.
    cbn [fst snd] in Hf. rewrite Hna, Hnb in Hf.
    assert (In (b, a) (books_authors d))
      by (apply RemovalFacts.in_books_authors; auto).
    specialize (Hf H). discriminate.
Qed.

Lemma find_book_in_db_exact_first_witness :
  exists b' a',
    find_book_in_db toy_fuzz austen_catalog "JANE AUSTEN" "emma" = Some (b_BookID b')
    /\ In (b', a') (books_authors austen_catalog)
    /\ nocase_eqb (a_AuthorName a') "JANE AUSTEN" = true
    /\ nocase_eqb (b_BookName b') "emma" = true.
Proof.
  apply (find_book_in_db_exact_first toy_fuzz austen_catalog "JANE AUSTEN" "emma"
           {| b_BookID := "b1"; b_AuthorID := "a1"; b_BookName := "Emma";
              b_BookISBN := None; b_Status := "Open";
              b_BookFile := None; b_BookLibrary := None;
              b_AudioStatus := "Skipped"; b_AudioFile := None;
              b_AudioLibrary := None |}
           {| a_AuthorID := "a1"; a_AuthorName := "Jane Austen";
              a_Status := "Active" |});
    try reflexivity.
  - left. reflexivity.
  - left. reflexivity.
Defined.

End MatcherMore.

(* ------------------------------------------------------------------ *)
(** ** What the removal pass leaves alone *)

Module RemovalMore.
Import Db Removal RemovalFacts.

Lemma remove_missing_books (isfile : string -> bool)
      (status library startdir destdir : string) (d d' : db) :
  remove_missing isfile status library startdir destdir d = Some d' ->
  books d'
  = map (fun b =>
           if touched (file_column library) isfile
                      (filter (selected (file_column library) (lib_column library)
                                        startdir destdir)
                              (books_authors d)) b
           then mark_of library status (b_BookID b) b else b)
        (books d)
  /\ authors d' = authors d
  /\ languages d' = languages d.
Proof.
  intros Hrm. apply remove_missing_columns in Hrm. subst d'.
  destruct (mark_of_facts library status) as (M1 & M2 & M3).
  unfold remove_columns, select_where.
  destruct (fold_step_books (file_column library) (mark_of library) isfile status
              M1 M2 M3
              (filter (selected (file_column library) (lib_column library)
                                startdir destdir) (books_authors d)) d)
    as (Hb & Ha & Hl).
  auto.
Qed.

(** X9: the removal pass changes nothing but the status, the path and the
    library date of the library that is scanned: the authors, the
    language cache, the number and the order of the entries, their ids,
    authors, names and isbns stay, and so do the columns of the other
    library. *)
Theorem removal_pass_frame (isfile : string -> bool)
        (status library startdir destdir : string) (d d' : db) :
  remove_missing isfile status library startdir destdir d = Some d' ->
  authors d' = authors d
  /\ languages d' = languages d
  /\ map (fun b => (b_BookID b, b_AuthorID b, b_BookName b, b_BookISBN b)) (books d')
     = map (fun b => (b_BookID b, b_AuthorID b, b_BookName b, b_BookISBN b)) (books d)
  /\ (if (library =? "eBook")%string
      then map (fun b => (b_AudioStatus b, b_AudioFile b, b_AudioLibrary b)) (books d')
           = map (fun b => (b_AudioStatus b, b_AudioFile b, b_AudioLibrary b)) (books d)
      else map (fun b => (b_Status b, b_BookFile b, b_BookLibrary b)) (books d')
           = map (fun b => (b_Status b, b_BookFile b, b_BookLibrary b)) (books d)).
Proof.
  intros Hrm. destruct (remove_missing_books _ _ _ _ _ _ _ Hrm) as (Hb & Ha & Hl).
  split; [exact Ha|]. split; [exact Hl|]. rewrite Hb, !map_map.
  split.
  - apply map_ext. intros b. destruct (touched _ _ _ b); [|reflexivity].
    unfold mark_of, mark_ebook, mark_audio.
    destruct (library =? "eBook")%string; rewrite String.eqb_refl; reflexivity.
  - unfold mark_of. destruct (library =? "eBook")%string; rewrite ?map_map;
      apply map_ext; intros b; destruct (touched _ _ _ b); try reflexivity;
      unfold mark_ebook, mark_audio; rewrite String.eqb_refl; reflexivity.
Qed.

Lemma removal_pass_frame_witness :
  map (fun b => (b_AudioStatus b, b_AudioFile b, b_AudioLibrary b))
      (books (remove_columns b_BookFile b_BookLibrary mark_ebook empty_disk
                             "Skipped" "/lib" "/lib" one_book_catalog))
  = map (fun b => (b_AudioStatus b, b_AudioFile b, b_AudioLibrary b))
        (books one_book_catalog).
Proof.
  apply (removal_pass_frame empty_disk "Skipped" "eBook" "/lib" "/lib"
           one_book_catalog _ eq_refl).
Defined.

Lemma mark_of_file (library status : string) (b : book_row) :
  file_column library (mark_of library status (b_BookID b) b) = Some ""%string.
Proof.
  unfold file_column, mark_of, mark_ebook, mark_audio.
  destruct (library =? "eBook")%string; rewrite String.eqb_refl; reflexivity.
Qed.

(** After the pass no entry is lost any more. *)
Lemma nothing_lost_after (isfile : string -> bool)
      (status library startdir destdir : string) (d d' : db) (b' : book_row) :
  remove_missing isfile status library startdir destdir d = Some d' ->
  ~ lost isfile library startdir destdir d' b'.
Proof.
  intros Hrm (Hin & (a & Ha & He) & Hlib & Hunder & f & Hf & Hne & Hgone).
  destruct (remove_missing_books _ _ _ _ _ _ _ Hrm) as (Hb & Hauth & _).
  rewrite Hb in Hin. apply in_map_iff in Hin. destruct Hin as (b & Hb' & Hin).
  destruct (touched _ _ _ b) eqn:Ht.
  - subst b'. rewrite mark_of_file in Hf. injection Hf as <-. contradiction.
  - subst b'.
    assert (Hl : lost isfile library startdir destdir d b).
    { unfold lost. split; [exact Hin|]. split; [exists a; rewrite <- Hauth; auto|].
      split; [exact Hlib|]. split; [exact Hunder|]. exists f. auto. }
    pose proof (proj2 (touched_lost isfile library startdir destdir d b)
                      (ex_intro _ b (conj Hl eq_refl))) as Ht'.
    rewrite Ht in Ht'. discriminate.
Qed.

(** X10: the removal pass is idempotent: run again on its own result, with
    the same disk, it changes nothing. *)
Theorem removal_pass_idempotent (isfile : string -> bool)
        (status library startdir destdir : string) (d d' : db) :
  remove_missing isfile status library startdir destdir d = Some d' ->
  remove_missing isfile status library startdir destdir d' = Some d'.
Proof.
  intros Hrm.
  destruct (remove_missing isfile status library startdir destdir d') as [d''|] eqn:Hrm'.
  - destruct (remove_missing_books _ _ _ _ _ _ _ Hrm') as (Hb & Ha & Hl).
    assert (Hsame : books d'' = books d').
    { rewrite Hb. rewrite <- (map_id (books d')) at 2. apply map_ext_in.
      intros b' Hin. destruct (touched _ _ _ b') eqn:Ht; [|reflexivity].
      apply touched_lost in Ht. destruct Ht as (b0 & Hl0 & _).
      exfalso. exact (nothing_lost_after _ _ _ _ _ _ _ _ Hrm Hl0). }
    clear - Ha Hl Hsame. destruct d'', d'.
    cbn [authors books languages] in *. congruence.
  - exfalso. unfold remove_missing in Hrm, Hrm'.
    destruct (negb (startdir =? destdir)%string && PyStr.contains dquote startdir);
      [discriminate Hrm|].
    destruct (library =? "eBook")%string; discriminate Hrm'.
Qed.

Lemma removal_pass_idempotent_witness :
  remove_missing empty_disk "Skipped" "eBook" "/lib/a" "/lib"
    (remove_columns b_BookFile b_BookLibrary mark_ebook empty_disk
                    "Skipped" "/lib/a" "/lib" one_book_catalog)
  = Some (remove_columns b_BookFile b_BookLibrary mark_ebook empty_disk
                         "Skipped" "/lib/a" "/lib" one_book_catalog).
Proof.
  apply (removal_pass_idempotent empty_disk "Skipped" "eBook" "/lib/a" "/lib"
           one_book_catalog).
  reflexivity.
Defined.

End RemovalMore.

(* ------------------------------------------------------------------ *)
(** ** How [LibraryScan] ends *)

Module ScanMore.
Import Db Scan Flags ScanFacts.

Lemma keeps_true {A} (c : M A) : keeps (fun _ => True) c.
Proof. intros s _. exact I. Qed.

Section FullScan.
Variable e : env.
Variable library : string.

Hypothesis library_known : library = "eBook" \/ library = "Audio".

(** [update_totals] leaves the update flags as they are. *)
Hypothesis totals_keep_flag :
  forall id s, update_flag library (fst (update_totals e id s)) = update_flag library s.

Let cleared (s : state) : Prop := update_flag library s = 0%Z.

Lemma set_flag_yields (v : Z) (s : state) :
  update_flag library (set_update_flag library v s) = v.
Proof.
  unfold update_flag, set_update_flag.
  destruct library_known as [-> | ->]; reflexivity.
Qed.

Lemma update_all_keeps_flag (ids : list string) : keeps cleared (update_all e ids).
Proof.
  induction ids as [|id ids IH]; intros s Hs; cbn [update_all]; [exact Hs|].
  unfold bind. pose proof (totals_keep_flag id s) as Hk.
  destruct (update_totals e id s) as [s1 [a|x]]; cbn [fst] in *.
  - apply IH. unfold cleared in *. congruence.
  - unfold cleared in *. congruence.
Qed.

Lemma scan_body_full (authid : option string) (remove : bool) :
  yields (fun _ => True) cleared
         (scan_body e (DIRECTORY e library) (DIRECTORY e library) library authid remove).
Proof.
  unfold scan_body. rewrite String.eqb_refl.
  apply yields_bind_last; [apply keeps_true|]. intros _.
  apply yields_bind_last; [apply keeps_true|]. intros _.
  apply yields_bind_last; [apply keeps_true|]. intros found.
  apply yields_bind_first.
  - apply yields_bind_last; [apply keeps_true|]. intros _.
    apply yields_bind_first.
    + intros s _ s' a H. unfold modify in H. injection H as <- _.
      apply set_flag_yields.
    + intros _ s Hs. exact Hs.
  - intros ids. apply keeps_bind; [apply update_all_keeps_flag|].
    intros _. apply keeps_ret.
Qed.

Lemma library_scan_full (startdir : option string) (authid : option string)
      (remove : bool) (s : state) :
  scanned e startdir library = DIRECTORY e library ->
  PyStr.truthy (DIRECTORY e library) = true ->
  isdir e (DIRECTORY e library) = true ->
  cleared (fst (LibraryScan e startdir library authid remove s)).
Proof.
  intros Hscan Hdir Hisdir. unfold LibraryScan. fold (scanned e startdir library).
  rewrite Hscan, Hdir, Hisdir. rewrite andb_false_r. cbn [negb].
  unfold try_except.
  pose proof (scan_body_full authid remove s I) as Hy.
  destruct (scan_body e (DIRECTORY e library) (DIRECTORY e library) library authid remove s)
    as [s' [r|x]]; cbn [fst].
  - apply (Hy s' r eq_refl).
  - unfold scan_except, bind, modify. rewrite String.eqb_refl. cbn [fst].
    apply set_flag_yields.
Qed.

End FullScan.

(** X12: a scan of a whole library ends with the update flag of the
    library at 0, when the scan completes and when anything in it raises,
    given that [update_totals] does not touch the flag. *)
Theorem full_scan_clears_update_flag
        (e : env) (startdir : option string) (library : string)
        (authid : option string) (remove : bool) (s : state) :
  library = "eBook" \/ library = "Audio" ->
  (forall id s, update_flag library (fst (update_totals e id s)) = update_flag library s) ->
  scanned e startdir library = DIRECTORY e library ->
  PyStr.truthy (DIRECTORY e library) = true ->
  isdir e (DIRECTORY e library) = true ->
  update_flag library (fst (LibraryScan e startdir library authid remove s)) = 0%Z.
Proof.
  intros Hl Ht. apply library_scan_full; assumption.
Qed.

(** A scan of the whole library [/lib] in which the walk raises, started
    with the flag at 1. *)
Lemma full_scan_clears_update_flag_witness :
  update_flag "eBook"
    (fst (LibraryScan failing_env None "eBook" None true
            {| database := Removal.one_book_catalog;
               EBOOK_UPDATE := 1; AUDIO_UPDATE := 0 |}))
  = 0%Z.
Proof.
  apply (full_scan_clears_update_flag failing_env None "eBook" None true).
  - left. reflexivity.
  - intros id s. reflexivity.
  - reflexivity.
  - reflexivity.
  - reflexivity.
Defined.

End ScanMore.

(* ------------------------------------------------------------------ *)
(** ** The text of the pattern *)

Module PatternMore.
Import Pattern.

Local Open Scope string_scope.

Lemma append_assoc (a b c : string) : (a ++ b) ++ c = a ++ b ++ c.
Proof. induction a as [|x a IH]; cbn; [reflexivity | rewrite IH; reflexivity]. Qed.

Lemma join_booktypes_later (l : list string) :
  forall count booktypes,
    (0 <= count)%Z ->
    join_booktypes count booktypes l
    = fold_left (fun acc book_type => acc ++ "|" ++ book_type) l booktypes.
Proof.
  induction l as [|t l IH]; intros count booktypes Hc; cbn [join_booktypes fold_left];
    [reflexivity|].
  assert ((count + 1 =? 0)%Z = false) as -> by (apply Z.eqb_neq; lia).
  apply IH. lia.
Qed.

Lemma fold_bar (l : list string) :
  forall x, fold_left (fun acc book_type => acc ++ "|" ++ book_type) l x
            = String.concat "|" (x :: l).
Proof.
  induction l as [|t l IH]; intros x; cbn [fold_left].
  - reflexivity.
  - rewrite IH. destruct l as [|u l]; cbn [String.concat];
      rewrite ?append_assoc; reflexivity.
Qed.

(** X13: the text handed to [re.compile] ends with a dot and, between
    square brackets, the configured types joined by bars; the loop with
    its counter is a join. *)
Theorem matchString_tail (template : string) (booktype_list : list string) :
  join_booktypes (-1) "" booktype_list = String.concat "|" booktype_list
  /\ matchString template booktype_list
     = PyStr.replace "\$\T\i\t\l\e" "(?P<book>.*?)"
         (PyStr.replace "\$\A\u\t\h\o\r" "(?P<author>.*?)" (escape_each template))
       ++ "\.[" ++ String.concat "|" booktype_list ++ "]".
Proof.
  assert (H : join_booktypes (-1) "" booktype_list = String.concat "|" booktype_list).
  { destruct booktype_list as [|t l]; [reflexivity|].
    cbn [join_booktypes]. change (-1 + 1 =? 0)%Z with true. cbv iota.
    rewrite join_booktypes_later by lia. apply fold_bar. }
  split; [exact H|]. unfold matchString. rewrite H. reflexivity.
Qed.

End PatternMore.

(* ------------------------------------------------------------------ *)
(** ** One book for a directory *)

Module WalkMore.
Import Resolver Aids.

Lemma mem_app_last (x : string) (l : list string) : mem x (l ++ [x]) = true.
Proof.
  unfold mem. rewrite existsb_app. cbn. rewrite String.eqb_refl.
  apply orb_true_iff. right. reflexivity.
Qed.

(** X14: in the Audio library, and in the eBook library with the option
    [IMP_SINGLEBOOK] set, the files of a directory that was not seen
    before are looked at up to the first in which a book is found; the
    files after it are passed over, and the directory is then in the list
    once. *)
Theorem one_book_per_directory
        (found : string -> bool) (library : string) (IMP_SINGLEBOOK : bool)
        (startdir r : string) (f processed : list string) :
  library = "Audio" \/ (library = "eBook" /\ IMP_SINGLEBOOK = true) ->
  mem (PyStr.replace startdir "" r) processed = false ->
  scan_files found library IMP_SINGLEBOOK startdir r f processed
  = (until_found found f,
     if existsb found f
     then processed ++ [PyStr.replace startdir "" r]
     else processed).
Proof.
  intros Hmode Hnew. induction f as [|files rest IH]; cbn [scan_files until_found existsb];
    [reflexivity|].
  assert (Hskip : already_scanned library IMP_SINGLEBOOK (PyStr.replace startdir "" r)
                                  processed = false).
  { unfold already_scanned. rewrite Hnew, !andb_false_r. reflexivity. }
  rewrite Hskip. destruct (found files) eqn:Hf; cbn [orb].
  - assert (Hseen : scan_files found library IMP_SINGLEBOOK startdir r rest
                               (processed ++ [PyStr.replace startdir "" r])
                    = ([], processed ++ [PyStr.replace startdir "" r])).
    { destruct Hmode as [-> | [-> ->]].
      - apply WalkFacts.scan_files_audio_seen, mem_app_last.
      - apply WalkFacts.scan_files_ebook_single_seen, mem_app_last. }
    rewrite Hseen. reflexivity.
  - rewrite IH. reflexivity.
Qed.

Lemma one_book_per_directory_witness :
  scan_files (fun files => snd (PyStr.splitext files) =? ".mobi")%string
             "eBook" true "/lib" "/lib/a"
             ["cover.jpg"; "Emma.mobi"; "Emma.epub"] []
  = (["cover.jpg"; "Emma.mobi"], ["/a"]).
Proof.
  apply (one_book_per_directory
           (fun files => snd (PyStr.splitext files) =? ".mobi")%string
           "eBook" true "/lib" "/lib/a" ["cover.jpg"; "Emma.mobi"; "Emma.epub"] []).
  - right. split; reflexivity.
  - reflexivity.
Defined.

End WalkMore.

(* ------------------------------------------------------------------ *)
(** ** A second write to the language cache *)

Module LangCacheMore.
Import Db LangCache Aids DbFacts.

(** X15: once a file has written the language of a prefix, the write of
    any later file whose isbn has the same prefix leaves the table as it
    is, row for row. *)
Theorem cache_language_second_write
        (is_valid_isbn : string -> bool)
        (language1 language2 : option string) (isbn1 isbn2 : string)
        (tbl : list language_row) :
  language1 <> Some "Unknown"%string ->
  is_valid_isbn isbn1 = true ->
  isbn_prefix isbn2 = isbn_prefix isbn1 ->
  cache_language is_valid_isbn language2 isbn2
                 (cache_language is_valid_isbn language1 isbn1 tbl)
  = cache_language is_valid_isbn language1 isbn1 tbl.
Proof.
  intros Hl Hv Hp.
  assert (Hcached : match_lang (isbn_prefix isbn1)
                      (cache_language is_valid_isbn language1 isbn1 tbl) <> None).
  { unfold cache_language. rewrite Hv.
    assert (negb match language1 with
                 | Some l => (l =? "Unknown")%string
                 | None => false
                 end = true) as ->.
    { destruct language1 as [l|]; [|reflexivity].
      apply negb_true_iff, String.eqb_neq. congruence. }
    cbn [andb]. fold (isbn_prefix isbn1).
    destruct (match_lang (isbn_prefix isbn1) tbl) eqn:Hm; [congruence|].
    unfold insert_lang, match_lang in *.
    rewrite (match_where_app_none _ _ _ Hm). unfold match_where. cbn.
    rewrite String.eqb_refl. discriminate. }
  unfold cache_language at 1. fold (isbn_prefix isbn2). rewrite Hp.
  destruct (negb _ && is_valid_isbn isbn2); [|reflexivity].
  destruct (match_lang (isbn_prefix isbn1) _); [reflexivity | contradiction].
Qed.

Lemma cache_language_second_write_witness :
  cache_language length_10_or_13 (Some "fr"%string) "0141439580"
                 (cache_language length_10_or_13 (Some "en"%string) "0141441143" [])
  = cache_language length_10_or_13 (Some "en"%string) "0141441143" [].
Proof.
  apply (cache_language_second_write length_10_or_13
           (Some "en"%string) (Some "fr"%string) "0141441143" "0141439580" []).
  - discriminate.
  - reflexivity.
  - reflexivity.
Defined.

End LangCacheMore.

(* ------------------------------------------------------------------ *)
(** ** The cascade: sidecar and pattern *)

Module ResolverMore.
Import Resolver Samples DictFacts.


(** A creator of two characters is not usable, whatever the number of
    its bytes. *)
Example accented_creator_not_usable :
  usable (Some accents) (Some "Emma") = false
  /\ String.length accents = 4 /\ PyStr.chars accents = 2.
Proof. repeat split. Qed.



Lemma has_set {V} (d : Dict.t V) (k k' : string) (v : V) :
  Dict.has (Dict.set d k v) k' = (k =? k')%string || Dict.has d k'.
Proof.
  unfold Dict.has. destruct (k =? k')%string eqn:E.
  - apply String.eqb_eq in E. subst. rewrite get_set_same. reflexivity.
  - apply String.eqb_neq in E. rewrite get_set_other by exact E. reflexivity.
Qed.

(** A match defines the groups of the pattern and no other. *)
Lemma match_nodes_keys (ns : list Pattern.node) :
  forall s groups found,
    Pattern.match_nodes ns s groups = Some found ->
    forall k, Dict.has found k = true
              <-> In k (Pattern.group_names ns) \/ Dict.has groups k = true.
Proof.
  induction ns as [|n ns IH]; intros s groups found H k.
  - cbn in H. injection H as <-. cbn. tauto.
  - destruct n as [c|name|cs]; cbn [Pattern.match_nodes] in H.
    + destruct s as [|a s']; [discriminate|].
      destruct (Ascii.eqb a c); [|discriminate].
      rewrite (IH _ _ _ H k). cbn. tauto.
    + assert (Hex : exists s' taken,
                 Pattern.match_nodes ns s' (Dict.set groups name taken) = Some found).
      { match type of H with
        | ?F EmptyString s = Some found =>
            assert (Hgen : forall s taken, F taken s = Some found ->
                     exists s' taken',
                       Pattern.match_nodes ns s' (Dict.set groups name taken')
                       = Some found)
        end.
        { clear H. intros s0. induction s0 as [|a s' IHs]; intros taken H.
          - destruct (Pattern.match_nodes ns EmptyString (Dict.set groups name taken))
              eqn:E; [|discriminate].
            injection H as <-. eauto.
          - destruct (Pattern.match_nodes ns (String a s') (Dict.set groups name taken))
              eqn:E.
            + injection H as <-. eauto.
            + destruct (Ascii.eqb a Pattern.newline); [discriminate|].
              apply (IHs _ H). }
        apply (Hgen _ _ H). }
      destruct Hex as (s' & taken & Hm).
      rewrite (IH _ _ _ Hm k), has_set.
      change (Pattern.group_names (Pattern.LazyAny name :: ns))
        with (name :: Pattern.group_names ns).
      cbn [In]. rewrite orb_true_iff, String.eqb_eq. tauto.
    + destruct s as [|a s']; [discriminate|].
      destruct (existsb (Ascii.eqb a) cs); [|discriminate].
      rewrite (IH _ _ _ H k). cbn. tauto.
Qed.

(** X17: the step of the pattern raises [IndexError] for a file exactly
    when the pattern matches its name and does not define both groups,
    [author] and [book]: with a template that lacks one every file name
    the pattern matches raises, and with a template that holds both
    tokens the step raises nothing but the [UnicodeDecodeError] of a
    capture that is no text of the encoding of the system. *)
Theorem pattern_step_raises_iff
        (rd : readers) (m : meta) (pattern : list Pattern.node)
        (files : string) :
  (pattern_step rd m (Pattern.re_match pattern files)
   = Raised (OtherError "IndexError")
   <-> Pattern.re_match pattern files <> None
       /\ ~ (In "author"%string (Pattern.group_names pattern)
             /\ In "book"%string (Pattern.group_names pattern)))
  /\ (forall x,
        pattern_step rd m (Pattern.re_match pattern files) = Raised x ->
        x = OtherError "IndexError"
        \/ (x = OtherError "UnicodeDecodeError"
            /\ exists groups a b,
                 Pattern.re_match pattern files = Some groups
                 /\ Dict.get groups "author" = Some a
                 /\ Dict.get groups "book" = Some b
                 /\ (BookInfo.decode (world rd) b = None
                     \/ BookInfo.decode (world rd) a = None))).
Proof.
  unfold pattern_step, Pattern.re_match.
  destruct (Pattern.match_nodes pattern files []) as [groups|] eqn:Hm.
  - pose proof (match_nodes_keys pattern files [] groups Hm) as Hk.
    pose proof (Hk "author"%string) as Ha. pose proof (Hk "book"%string) as Hb.
    unfold Dict.has in Ha, Hb. cbn [Dict.get] in Ha, Hb.
    destruct (Dict.get groups "author") as [a|] eqn:Hga;
      destruct (Dict.get groups "book") as [b|] eqn:Hgb.
    + split.
      * split.
        -- destruct (BookInfo.decode (world rd) b);
             [destruct (BookInfo.decode (world rd) a)|];
             intros H; discriminate H.
        -- intros [_ Hn]. exfalso. apply Hn.
           destruct (proj1 Ha eq_refl) as [H1|H1]; [|discriminate].
           destruct (proj1 Hb eq_refl) as [H2|H2]; [|discriminate].
           split; assumption.
      * intros x Hx. right.
        destruct (BookInfo.decode (world rd) b) as [ub|] eqn:Hub.
        -- destruct (BookInfo.decode (world rd) a) as [ua|] eqn:Hua;
             [discriminate|].
           injection Hx as <-. split; [reflexivity|].
           exists groups, a, b. auto.
        -- injection Hx as <-. split; [reflexivity|].
           exists groups, a, b. auto.
    + split; [|intros x Hx; left; congruence].
      split; [|reflexivity].
      intros _. split; [discriminate|]. intros [_ Hin].
      discriminate (proj2 Hb (or_introl Hin)).
    + split; [|intros x Hx; left; congruence].
      split; [|reflexivity].
      intros _. split; [discriminate|]. intros [Hin _].
      discriminate (proj2 Ha (or_introl Hin)).
    + split; [|intros x Hx; left; congruence].
      split; [|reflexivity].
      intros _. split; [discriminate|]. intros [Hin _].
      discriminate (proj2 Ha (or_introl Hin)).
  - split; [|discriminate].
    split; [discriminate | intros [Hn _]; contradiction].
Qed.

(** With the template [$Title] the file [Emma.epub] makes the step raise;
    with the template as shipped it does not. *)
Example title_only_template_raises :
  pattern_step plain_readers (meta_init "Emma.epub")
               (Pattern.re_match title_only_pattern "Emma.epub")
  = Raised (OtherError "IndexError")
  /\ pattern_step plain_readers (meta_init "Emma.epub")
                  (Pattern.re_match Pattern.default_pattern "Emma.epub")
     = Returned (meta_init "Emma.epub").
Proof. split; reflexivity. Qed.

End ResolverMore.

(* ------------------------------------------------------------------ *)
(** ** Directories that the walk does not enter *)

Module PruneFacts.
Import Prune.

Lemma remove_first_middle (x : string) (pre rest : list string) :
  ~ In x pre -> remove_first x (pre ++ x :: rest) = pre ++ rest.
Proof.
  induction pre as [|p pre IH]; intros Hn; cbn.
  - rewrite String.eqb_refl. reflexivity.
  - destruct (p =? x)%string eqn:E.
    + apply String.eqb_eq in E. exfalso. apply Hn. left. exact E.
    + rewrite IH; [reflexivity|]. intros H. apply Hn. right. exact H.
Qed.

Lemma nth_error_middle (pre rest : list string) :
  nth_error (pre ++ rest) (List.length pre) = hd_error rest.
Proof.
  induction pre as [|p pre IH]; cbn; [destruct rest; reflexivity | exact IH].
Qed.

(** The loop from the index [length pre], after it has passed [pre]. *)
Lemma prune_from_kept (skip : string -> bool) (fuel : nat) :
  forall pre rest,
    NoDup (pre ++ rest) ->
    List.length rest <= fuel ->
    prune_from skip fuel (List.length pre) (pre ++ rest) = pre ++ kept skip rest.
Proof.
  induction fuel as [|fuel IH]; intros pre rest Hnd Hlen.
  - destruct rest; [reflexivity | cbn in Hlen; lia].
  - cbn [prune_from]. rewrite nth_error_middle.
    destruct rest as [|x rest]; [reflexivity|]. cbn [hd_error kept].
    assert (Hx : ~ In x pre).
    { intros Hin. apply NoDup_remove_2 in Hnd. apply Hnd.
      apply in_or_app. left. exact Hin. }
    destruct (skip x).
    + rewrite (remove_first_middle x pre rest Hx).
      apply NoDup_remove_1 in Hnd.
      destruct rest as [|y rest].
      * rewrite app_nil_r. destruct fuel; cbn [prune_from]; [reflexivity|].
        rewrite (proj2 (nth_error_None pre (S (List.length pre)))) by lia.
        reflexivity.
      * replace (S (List.length pre)) with (List.length (pre ++ [y]))
          by (rewrite length_app; cbn; lia).
        replace (pre ++ y :: rest) with ((pre ++ [y]) ++ rest) in *
          by (rewrite <- app_assoc; reflexivity).
        rewrite IH; [rewrite <- app_assoc; reflexivity | exact Hnd |].
        cbn in Hlen. lia.
    + replace (S (List.length pre)) with (List.length (pre ++ [x]))
        by (rewrite length_app; cbn; lia).
      replace (pre ++ x :: rest) with ((pre ++ [x]) ++ rest) in *
        by (rewrite <- app_assoc; reflexivity).
      rewrite IH; [rewrite <- app_assoc; reflexivity | exact Hnd |].
      cbn in Hlen. lia.
Qed.

(** X18: the loop that takes the directories to skip out of the list while
    it runs over the list misses the directory that follows one it takes
    out: of the distinct names of a directory it leaves those that are
    not to be skipped and, to be skipped or not, every one that comes
    right after a name it removed. *)
Theorem prune_skips_after_removed
        (exists_ : string -> bool) (r : string) (d : list string) :
  NoDup d ->
  prune exists_ r d = kept (skipped exists_ r) d.
Proof.
  intros Hnd. unfold prune.
  apply (prune_from_kept (skipped exists_ r) (List.length d) [] d Hnd).
  lia.
Qed.

(** Two directories to skip, side by side: the second is entered. *)
Lemma prune_skips_after_removed_witness :
  prune no_marker "/lib" ["_magazines"; ".cache"; "Jane Austen"]
  = [".cache"; "Jane Austen"].
Proof.
  apply (prune_skips_after_removed no_marker "/lib"
           ["_magazines"; ".cache"; "Jane Austen"]).
  repeat constructor; cbn; intuition discriminate.
Defined.

Lemma kept_filter (skip : string -> bool) (n : nat) :
  forall d,
    List.length d <= n ->
    adjacent skip d = false ->
    kept skip d = filter (fun x => negb (skip x)) d.
Proof.
  induction n as [|n IH]; intros d Hlen Hadj.
  - destruct d; [reflexivity | cbn in Hlen; lia].
  - destruct d as [|x rest]; [reflexivity|].
    assert (Hrest : adjacent skip rest = false).
    { destruct rest as [|y rest']; [reflexivity|].
      cbn [adjacent] in Hadj. apply orb_false_iff in Hadj. apply Hadj. }
    change (kept skip (x :: rest))
      with (if skip x
            then match rest with [] => [] | y :: rest' => y :: kept skip rest' end
            else x :: kept skip rest).
    change (filter (fun x => negb (skip x)) (x :: rest))
      with (if negb (skip x)
            then x :: filter (fun x => negb (skip x)) rest
            else filter (fun x => negb (skip x)) rest).
    cbn [List.length] in Hlen.
    destruct (skip x) eqn:Hx; cbn [negb].
    + destruct rest as [|y rest']; [reflexivity|].
      assert (Hy : skip y = false).
      { cbn [adjacent] in Hadj. apply orb_false_iff in Hadj.
        destruct Hadj as [Hxy _]. rewrite Hx in Hxy. exact Hxy. }
      assert (Hrest' : adjacent skip rest' = false).
      { destruct rest' as [|z rest'']; [reflexivity|].
        cbn [adjacent] in Hrest. apply orb_false_iff in Hrest. apply Hrest. }
      change (filter (fun x => negb (skip x)) (y :: rest'))
        with (if negb (skip y)
              then y :: filter (fun x => negb (skip x)) rest'
              else filter (fun x => negb (skip x)) rest').
      rewrite Hy. cbn [negb]. f_equal.
      apply IH; [cbn [List.length] in Hlen; lia | exact Hrest'].
    + f_equal. apply IH; [lia | exact Hrest].
Qed.

(** X19: when no two directories to skip stand side by side in the list,
    the loop does what it is meant to: the walk goes on with exactly the
    directories that are not to be skipped, in their order. *)
Theorem prune_filters
        (exists_ : string -> bool) (r : string) (d : list string) :
  NoDup d ->
  adjacent (skipped exists_ r) d = false ->
  prune exists_ r d = filter (fun x => negb (skipped exists_ r x)) d.
Proof.
  intros Hnd Hadj. unfold prune.
  pose proof (prune_from_kept (skipped exists_ r) (List.length d) [] d Hnd
                              (le_n _)) as H.
  cbn [List.length app] in H. rewrite H.
  apply (kept_filter _ (List.length d)); [lia | exact Hadj].
Qed.

Lemma prune_filters_witness :
  prune no_marker "/lib" ["_magazines"; "Jane Austen"; ".cache"]
  = filter (fun x => negb (skipped no_marker "/lib" x))
           ["_magazines"; "Jane Austen"; ".cache"].
Proof.
  apply (prune_filters no_marker "/lib" ["_magazines"; "Jane Austen"; ".cache"]).
  - repeat constructor; cbn; intuition discriminate.
  - reflexivity.
Defined.

End PruneFacts.

(* ------------------------------------------------------------------ *)
(** ** A matched file on record *)

Module LocationFacts.
Import Db Location.

(** An update that leaves the ids of the rows alone leaves the join of the
    books and their authors in place. *)
Lemma books_authors_update (u : book_row -> book_row) (d : db) :
  (forall b, b_BookID (u b) = b_BookID b /\ b_AuthorID (u b) = b_AuthorID b) ->
  books_authors (Removal.update_books u d)
  = map (fun ba => (u (fst ba), snd ba)) (books_authors d).
Proof.
  intros Hid. unfold books_authors, Removal.update_books. cbn [books authors].
  induction (books d) as [|b l IH]; [reflexivity|].
  cbn [map flat_map]. rewrite map_app, IH. f_equal.
  rewrite map_map. cbn [fst snd].
  destruct (Hid b) as [_ Ha]. rewrite Ha. reflexivity.
Qed.

Lemma check_status_update (u : book_row -> book_row) (bookid : string) (d : db) :
  (forall b, b_BookID (u b) = b_BookID b /\ b_AuthorID (u b) = b_AuthorID b) ->
  check_status bookid (Removal.update_books u d)
  = option_map (fun ba => (u (fst ba), snd ba)) (check_status bookid d).
Proof.
  intros Hid. unfold check_status, match_where.
  rewrite (books_authors_update u d Hid).
  induction (books_authors d) as [|[b a] l IH]; [reflexivity|].
  cbn [map filter fst snd]. destruct (Hid b) as [Hb _]. rewrite Hb.
  destruct (b_BookID b =? bookid)%string; [reflexivity | exact IH].
Qed.

Lemma check_status_id (bookid : string) (d : db) (row : book_row) (a : author_row) :
  check_status bookid d = Some (row, a) -> b_BookID row = bookid.
Proof.
  intros H. apply MatcherMore.match_where_some in H. destruct H as [_ H].
  apply String.eqb_eq in H. exact H.
Qed.

Section Columns.
Variable status : book_row -> string.
Variable file : book_row -> option string.
Variable open_ : string -> book_row -> book_row.
Variables date_ file_ : string -> string -> book_row -> book_row.

Hypothesis open_ids :
  forall i b, b_BookID (open_ i b) = b_BookID b /\ b_AuthorID (open_ i b) = b_AuthorID b.
Hypothesis date_ids :
  forall n i b, b_BookID (date_ n i b) = b_BookID b
                /\ b_AuthorID (date_ n i b) = b_AuthorID b.
Hypothesis file_ids :
  forall n i b, b_BookID (file_ n i b) = b_BookID b
                /\ b_AuthorID (file_ n i b) = b_AuthorID b.
Hypothesis open_columns :
  forall b, status (open_ (b_BookID b) b) = "Open"%string
            /\ file (open_ (b_BookID b) b) = file b.
Hypothesis date_columns :
  forall n i b, status (date_ n i b) = status b /\ file (date_ n i b) = file b.
Hypothesis file_columns :
  forall n b, status (file_ n (b_BookID b) b) = status b
              /\ file (file_ n (b_BookID b) b) = Some n.
Hypothesis file_other :
  forall n i b, (b_BookID b =? i)%string = false -> file_ n i b = b.
Hypothesis file_same :
  forall n b, file b = Some n -> file_ n (b_BookID b) b = b.

Let record := record_columns status file open_ date_ file_.

(** What one run leaves: the row of the id is open and has the file. *)
Lemma record_columns_row (now_ fn bookid : string) (row : book_row) (a : author_row)
      (c : counts) (d : db) :
  check_status bookid d = Some (row, a) ->
  exists row',
    check_status bookid (snd (record now_ fn bookid row c d)) = Some (row', a)
    /\ status row' = "Open"%string
    /\ file row' = Some fn
    /\ (PyStr.truthy fn = false ->
        forall b, In b (books (snd (record now_ fn bookid row c d))) ->
                  b_BookID b = bookid -> file b = Some fn).
Proof.
  intros Hcs. pose proof (check_status_id _ _ _ _ Hcs) as Hid.
  unfold record, record_columns.
  set (opened := negb (status row =? "Open")%string).
  assert (Hopen : exists d1 row1,
             (if opened
              then ({| new_book_count := new_book_count c + 1;
                       modified_count := modified_count c |},
                    Removal.update_books (date_ now_ bookid)
                      (Removal.update_books (open_ bookid) d))
              else (c, d))
             = (if opened
                then {| new_book_count := new_book_count c + 1;
                        modified_count := modified_count c |}
                else c, d1)
             /\ check_status bookid d1 = Some (row1, a)
             /\ status row1 = "Open"%string /\ file row1 = file row
             /\ b_BookID row1 = bookid).
  { unfold opened. destruct (status row =? "Open")%string eqn:Hs; cbn [negb].
    - exists d, row. apply String.eqb_eq in Hs. auto.
    - exists (Removal.update_books (date_ now_ bookid)
                (Removal.update_books (open_ bookid) d)),
             (date_ now_ bookid (open_ bookid row)).
      split; [reflexivity|].
      rewrite (check_status_update _ _ _ (date_ids now_ bookid)).
      rewrite (check_status_update _ _ _ (open_ids bookid)), Hcs. cbn.
      split; [reflexivity|].
      destruct (date_columns now_ bookid (open_ bookid row)) as [-> ->].
      rewrite <- Hid at 1 2. destruct (open_columns row) as [-> ->].
      destruct (date_ids now_ bookid (open_ bookid row)) as [-> _].
      destruct (open_ids bookid row) as [-> _]. auto. }
  destruct Hopen as (d1 & row1 & -> & Hcs1 & Hs1 & Hf1 & Hid1).
  assert (Hmoved : exists row',
             check_status bookid (Removal.update_books (file_ fn bookid) d1)
             = Some (row', a)
             /\ status row' = "Open"%string /\ file row' = Some fn
             /\ forall b, In b (books (Removal.update_books (file_ fn bookid) d1)) ->
                          b_BookID b = bookid -> file b = Some fn).
  { exists (file_ fn bookid row1).
    rewrite (check_status_update _ _ _ (file_ids fn bookid)), Hcs1. cbn.
    split; [reflexivity|]. rewrite <- Hid1 at 1 2.
    destruct (file_columns fn row1) as [-> ->]. split; [exact Hs1|].
    split; [reflexivity|]. intros b Hin Hb. cbn in Hin.
    apply in_map_iff in Hin. destruct Hin as (b0 & <- & _).
    destruct (file_ids fn bookid b0) as [Hb0 _]. rewrite Hb0 in Hb.
    rewrite <- Hb. apply file_columns. }
  destruct (negb (PyStr.truthy_opt (file row))) eqn:Hfalsy; cbn [snd].
  - destruct Hmoved as (row' & H1 & H2 & H3 & H4). exists row'. auto.
  - destruct (file row) as [f|] eqn:Hfile; [|discriminate].
    destruct (f =? fn)%string eqn:Hsame; cbn [negb snd].
    + apply String.eqb_eq in Hsame. subst f. exists row1.
      split; [exact Hcs1|]. split; [exact Hs1|]. split; [exact Hf1|].
      intros Ht. cbn in Hfalsy. rewrite Ht in Hfalsy. discriminate.
    + destruct Hmoved as (row' & H1 & H2 & H3 & H4). exists row'. auto.
Qed.

(** A second run for the same file changes nothing and counts nothing. *)
Lemma record_columns_again (now_ fn bookid : string) (row row' : book_row)
      (a : author_row) (c : counts) (d : db) :
  status row' = "Open"%string ->
  file row' = Some fn ->
  check_status bookid d = Some (row', a) ->
  (PyStr.truthy fn = false ->
   forall b, In b (books d) -> b_BookID b = bookid -> file b = Some fn) ->
  record now_ fn bookid row' c d = (c, d).
Proof.
  intros Hs Hf Hcs Hall. unfold record, record_columns.
  rewrite Hs, Hf, !String.eqb_refl. cbn [negb PyStr.truthy_opt]. cbv beta iota.
  destruct (PyStr.truthy fn) eqn:Ht; cbn [negb]; [reflexivity|].
  f_equal. specialize (Hall eq_refl).
  destruct d as [au bs la]. unfold Removal.update_books. cbn [authors books languages] in *.
  f_equal. rewrite <- (map_id bs) at 2. apply map_ext_in. intros b Hin.
  destruct (b_BookID b =? bookid)%string eqn:E.
  - apply String.eqb_eq in E. rewrite <- E. apply file_same.
    apply (Hall b Hin E).
  - apply file_other, E.
Qed.

Lemma record_columns_idempotent (now_ fn bookid : string) (row : book_row)
      (a : author_row) (c : counts) (d : db) :
  check_status bookid d = Some (row, a) ->
  exists row',
    check_status bookid (snd (record now_ fn bookid row c d)) = Some (row', a)
    /\ record now_ fn bookid row' (fst (record now_ fn bookid row c d))
              (snd (record now_ fn bookid row c d))
       = record now_ fn bookid row c d.
Proof.
  intros Hcs.
  destruct (record_columns_row now_ fn bookid row a c d Hcs)
    as (row' & Hcs' & Hs & Hf & Hall).
  exists row'. split; [exact Hcs'|].
  rewrite (record_columns_again now_ fn bookid row row' a _ _ Hs Hf Hcs' Hall).
  destruct (record now_ fn bookid row c d); reflexivity.
Qed.

(** The counters after a run. *)
Lemma record_columns_counts (now_ fn bookid : string) (row : book_row)
      (c : counts) (d : db) :
  new_book_count (fst (record now_ fn bookid row c d))
  = (new_book_count c + (if (status row =? "Open")%string then 0 else 1))%Z
  /\ modified_count (fst (record now_ fn bookid row c d))
     = (modified_count c + (if Columns.moved (file row) fn then 1 else 0))%Z.
Proof.
  unfold record, record_columns, Columns.moved.
  destruct (status row =? "Open")%string; cbn [negb];
    destruct (file row) as [f|]; cbn [PyStr.truthy_opt];
    try destruct (PyStr.truthy f); cbn [negb andb];
    try destruct (f =? fn)%string; cbn; split; lia.
Qed.

End Columns.

Lemma ebook_ids :
  (forall i b, b_BookID (open_ebook i b) = b_BookID b
               /\ b_AuthorID (open_ebook i b) = b_AuthorID b)
  /\ (forall n i b, b_BookID (date_ebook n i b) = b_BookID b
                    /\ b_AuthorID (date_ebook n i b) = b_AuthorID b)
  /\ (forall n i b, b_BookID (file_ebook n i b) = b_BookID b
                    /\ b_AuthorID (file_ebook n i b) = b_AuthorID b).
Proof.
  repeat split; unfold open_ebook, date_ebook, file_ebook;
    destruct (b_BookID b =? i)%string; reflexivity.
Qed.

Lemma audio_ids :
  (forall i b, b_BookID (open_audio i b) = b_BookID b
               /\ b_AuthorID (open_audio i b) = b_AuthorID b)
  /\ (forall n i b, b_BookID (date_audio n i b) = b_BookID b
                    /\ b_AuthorID (date_audio n i b) = b_AuthorID b)
  /\ (forall n i b, b_BookID (file_audio n i b) = b_BookID b
                    /\ b_AuthorID (file_audio n i b) = b_AuthorID b).
Proof.
  repeat split; unfold open_audio, date_audio, file_audio;
    destruct (b_BookID b =? i)%string; reflexivity.
Qed.

Lemma ebook_columns :
  (forall b, b_Status (open_ebook (b_BookID b) b) = "Open"%string
             /\ b_BookFile (open_ebook (b_BookID b) b) = b_BookFile b)
  /\ (forall n i b, b_Status (date_ebook n i b) = b_Status b
                    /\ b_BookFile (date_ebook n i b) = b_BookFile b)
  /\ (forall n b, b_Status (file_ebook n (b_BookID b) b) = b_Status b
                  /\ b_BookFile (file_ebook n (b_BookID b) b) = Some n)
  /\ (forall n i b, (b_BookID b =? i)%string = false -> file_ebook n i b = b)
  /\ (forall n b, b_BookFile b = Some n -> file_ebook n (b_BookID b) b = b).
Proof.
  split; [|split; [|split; [|split]]].
  - intros b. unfold open_ebook. rewrite String.eqb_refl. split; reflexivity.
  - intros n i b. unfold date_ebook.
    destruct (b_BookID b =? i)%string; split; reflexivity.
  - intros n b. unfold file_ebook. rewrite String.eqb_refl. split; reflexivity.
  - intros n i b H. unfold file_ebook. rewrite H. reflexivity.
  - intros n b H. unfold file_ebook. rewrite String.eqb_refl.
    destruct b. cbn in *. rewrite H. reflexivity.
Qed.

Lemma audio_columns :
  (forall b, b_AudioStatus (open_audio (b_BookID b) b) = "Open"%string
             /\ b_AudioFile (open_audio (b_BookID b) b) = b_AudioFile b)
  /\ (forall n i b, b_AudioStatus (date_audio n i b) = b_AudioStatus b
                    /\ b_AudioFile (date_audio n i b) = b_AudioFile b)
  /\ (forall n b, b_AudioStatus (file_audio n (b_BookID b) b) = b_AudioStatus b
                  /\ b_AudioFile (file_audio n (b_BookID b) b) = Some n)
  /\ (forall n i b, (b_BookID b =? i)%string = false -> file_audio n i b = b)
  /\ (forall n b, b_AudioFile b = Some n -> file_audio n (b_BookID b) b = b).
Proof.
  split; [|split; [|split; [|split]]].
  - intros b. unfold open_audio. rewrite String.eqb_refl. split; reflexivity.
  - intros n i b. unfold date_audio.
    destruct (b_BookID b =? i)%string; split; reflexivity.
  - intros n b. unfold file_audio. rewrite String.eqb_refl. split; reflexivity.
  - intros n i b H. unfold file_audio. rewrite H. reflexivity.
  - intros n b H. unfold file_audio. rewrite String.eqb_refl.
    destruct b. cbn in *. rewrite H. reflexivity.
Qed.

(** X20: putting a matched file on record is idempotent: run again for the
    same file on the catalog and the counters it has left, it changes no
    row and counts neither a new nor a moved book. *)
Theorem record_location_idempotent
        (dk : disk) (EBOOK_TYPE : list string) (library r files bookid : string)
        (c : counts) (d : db) :
  record_location dk EBOOK_TYPE library r files bookid
                  (fst (record_location dk EBOOK_TYPE library r files bookid c d))
                  (snd (record_location dk EBOOK_TYPE library r files bookid c d))
  = record_location dk EBOOK_TYPE library r files bookid c d.
Proof.
  unfold record_location at 2 3 4.
  destruct (check_status bookid d) as [[row a]|] eqn:Hcs.
  - destruct ebook_ids as (E1 & E2 & E3).
    destruct ebook_columns as (E4 & E5 & E6 & E7 & E8).
    destruct audio_ids as (A1 & A2 & A3).
    destruct audio_columns as (A4 & A5 & A6 & A7 & A8).
    destruct (library =? "eBook")%string eqn:Hl.
    + destruct (record_columns_idempotent b_Status b_BookFile open_ebook date_ebook
                  file_ebook E1 E2 E3 E4 E5 E6 E7 E8 (now dk)
                  (location dk EBOOK_TYPE library r files) bookid row a c d Hcs)
        as (row' & Hcs' & Hsame).
      unfold record_location. rewrite Hcs', Hl. exact Hsame.
    + destruct (library =? "Audio")%string eqn:Hl2.
      * destruct (record_columns_idempotent b_AudioStatus b_AudioFile open_audio
                    date_audio file_audio A1 A2 A3 A4 A5 A6 A7 A8 (now dk)
                    (location dk EBOOK_TYPE library r files) bookid row a c d Hcs)
          as (row' & Hcs' & Hsame).
        unfold record_location. rewrite Hcs', Hl, Hl2. exact Hsame.
      * cbn [fst snd]. unfold record_location. rewrite Hcs, Hl, Hl2. reflexivity.
  - cbn [fst snd]. unfold record_location. rewrite Hcs. reflexivity.
Qed.

(** X21: for a book that the catalog has, with its author, a run leaves
    the entry open with the file on record: the row that the query by id
    then gives has the status [Open] and the location as its file; the
    count of new books goes up by one exactly when the entry was not
    open, and the count of moved books exactly when another, non-empty
    file was on record. *)
Theorem record_location_effect
        (dk : disk) (EBOOK_TYPE : list string) (library r files bookid : string)
        (c : counts) (d : db) (row : book_row) (a : author_row) :
  library = "eBook"%string \/ library = "Audio"%string ->
  check_status bookid d = Some (row, a) ->
  let after := record_location dk EBOOK_TYPE library r files bookid c d in
  let fn := location dk EBOOK_TYPE library r files in
  (exists row',
      check_status bookid (snd after) = Some (row', a)
      /\ Columns.status_column library row' = "Open"%string
      /\ Removal.file_column library row' = Some fn)
  /\ new_book_count (fst after)
     = (new_book_count c
        + (if (Columns.status_column library row =? "Open")%string then 0 else 1))%Z
  /\ modified_count (fst after)
     = (modified_count c
        + (if Columns.moved (Removal.file_column library row) fn then 1 else 0))%Z.
Proof.
  intros Hl Hcs. cbv zeta. unfold record_location. rewrite Hcs.
  destruct ebook_ids as (E1 & E2 & E3).
  destruct ebook_columns as (E4 & E5 & E6 & E7 & E8).
  destruct audio_ids as (A1 & A2 & A3).
  destruct audio_columns as (A4 & A5 & A6 & A7 & A8).
  unfold Columns.status_column, Removal.file_column.
  destruct Hl as [-> | ->]; cbn [String.eqb Ascii.eqb Bool.eqb].
  - destruct (record_columns_row b_Status b_BookFile open_ebook date_ebook
                file_ebook E1 E2 E3 E4 E5 E6 (now dk)
                (location dk EBOOK_TYPE "eBook" r files) bookid row a c d Hcs)
      as (row' & H1 & H2 & H3 & _).
    split; [exists row'; auto|].
    apply record_columns_counts.
  - destruct (record_columns_row b_AudioStatus b_AudioFile open_audio date_audio
                file_audio A1 A2 A3 A4 A5 A6 (now dk)
                (location dk EBOOK_TYPE "Audio" r files) bookid row a c d Hcs)
      as (row' & H1 & H2 & H3 & _).
    split; [exists row'; auto|].
    apply record_columns_counts.
Qed.

Lemma record_location_effect_witness :
  (exists row',
      check_status "b1"
        (snd (record_location two_formats ["epub"; "mobi"; "pdf"] "eBook"
                              "/lib/a" "Emma.mobi" "b1" no_counts wanted_catalog))
      = Some (row', {| a_AuthorID := "a1"; a_AuthorName := "Jane Austen";
                       a_Status := "Active" |})
      /\ b_Status row' = "Open"%string
      /\ b_BookFile row' = Some "/lib/a/Emma.epub"%string)
  /\ new_book_count
       (fst (record_location two_formats ["epub"; "mobi"; "pdf"] "eBook"
                             "/lib/a" "Emma.mobi" "b1" no_counts wanted_catalog))
     = 1%Z
  /\ modified_count
       (fst (record_location two_formats ["epub"; "mobi"; "pdf"] "eBook"
                             "/lib/a" "Emma.mobi" "b1" no_counts wanted_catalog))
     = 0%Z.
Proof.
  apply (record_location_effect two_formats ["epub"; "mobi"; "pdf"] "eBook"
           "/lib/a" "Emma.mobi" "b1" no_counts wanted_catalog
           {| b_BookID := "b1"; b_AuthorID := "a1"; b_BookName := "Emma";
              b_BookISBN := None; b_Status := "Wanted";
              b_BookFile := None; b_BookLibrary := None;
              b_AudioStatus := "Skipped"; b_AudioFile := None;
              b_AudioLibrary := None |}
           {| a_AuthorID := "a1"; a_AuthorName := "Jane Austen";
              a_Status := "Active" |}).
  - left. reflexivity.
  - reflexivity.
Defined.

End LocationFacts.

(* ------------------------------------------------------------------ *)
(** ** The configuration of the web server *)

Module WebStartFacts.
Import WebStart DictFacts.

Lemma bind_returned {A B} (c : outcome A) (k : A -> outcome B) (b : B) :
  bind c k = Returned b -> exists a, c = Returned a /\ k a = Returned b.
Proof. destruct c as [a|e]; cbn; [eauto | discriminate]. Qed.

Lemma getitem_returned (options : Dict.t value) (key : string) (v : value) :
  getitem options key = Returned v -> Dict.get options key = Some v.
Proof.
  unfold getitem. destruct (Dict.get options key); [|discriminate].
  intros H. injection H as ->. reflexivity.
Qed.

Ltac step H x Hx :=
  apply bind_returned in H; destruct H as (x & Hx & H).

(** A call that returns has read all its options, and what it hands on is
    built from them. *)
Lemma initialize_returned (h : host) (options : option (Dict.t value)) (sv : server) :
  initialize h options = Returned sv ->
  exists e cert key https port host_ proxy pass root cf,
    Dict.get (given options) "https_enabled" = Some e
    /\ Dict.get (given options) "https_cert" = Some cert
    /\ Dict.get (given options) "https_key" = Some key
    /\ tls h e cert key = Returned https
    /\ Dict.get (given options) "http_port" = Some port
    /\ Dict.get (given options) "http_host" = Some host_
    /\ number port = Returned tt
    /\ Dict.get (given options) "http_proxy" = Some proxy
    /\ Dict.get (given options) "http_pass" = Some pass
    /\ (if not_empty_text pass
        then exists user, Dict.get (given options) "http_user" = Some user
                          /\ cf = protect (static_conf h proxy) user pass
        else cf = static_conf h proxy)
    /\ Dict.get (given options) "http_root" = Some root
    /\ sv = {| config :=
                 if https
                 then Dict.set (Dict.set (base_config port host_)
                                         "server.ssl_certificate" cert)
                               "server.ssl_private_key" key
                 else base_config port host_;
               mount_root := str h root;
               conf := cf;
               ended := if check_port h (str h host_) port then Started else Exit 1 |}.
Proof.
  intros H. unfold initialize in H.
  step H e He. step H cert Hcert. step H key Hkey. step H https Htls.
  step H port Hport. step H host_ Hhost. step H u Hu. step H proxy Hproxy.
  step H pass Hpass. step H cf Hcf. step H root Hroot.
  exists e, cert, key, https, port, host_, proxy, pass, root, cf.
  apply getitem_returned in He, Hcert, Hkey, Hport, Hhost, Hproxy, Hpass, Hroot.
  destruct u. injection H as <-.
  repeat (split; [assumption|]).
  split; [|split; [assumption | reflexivity]].
  destruct (not_empty_text pass).
  - step Hcf user Huser. apply getitem_returned in Huser.
    injection Hcf as <-. eauto.
  - injection Hcf as <-. reflexivity.
Qed.




(** X23: the password check is switched on exactly when the option
    [http_pass] is not the empty text: then the root section asks for the
    user and the password of the options and the section [/api] switches
    the check off; with an empty password no section of the configuration
    sets anything of the check, and there is no section [/api]. *)
Theorem password_check_iff_password
        (h : host) (options : option (Dict.t value)) (sv : server) :
  initialize h options = Returned sv ->
  exists pass,
    Dict.get (given options) "http_pass" = Some pass
    /\ (not_empty_text pass = true ->
        exists user section,
          Dict.get (given options) "http_user" = Some user
          /\ Dict.get (conf sv) "/" = Some section
          /\ Dict.get section "tools.auth_basic.on" = Some (VBool true)
          /\ Dict.get section "tools.auth_basic.checkpassword"
             = Some (VCheckPassword user pass)
          /\ Dict.get (conf sv) "/api" = Some [("tools.auth_basic.on", VBool false)])
    /\ (not_empty_text pass = false ->
        Dict.get (conf sv) "/api" = None
        /\ forall name section,
            In (name, section) (conf sv) -> sets_auth section = false).
Proof.
  intros H.
  destruct (initialize_returned h options sv H)
    as (e & cert & key & https & port & host_ & proxy & pass & root & cf
        & _ & _ & _ & _ & _ & _ & _ & _ & Hpass & Hcf & _ & ->).
  exists pass. split; [exact Hpass|]. cbn [conf].
  destruct (not_empty_text pass).
  - destruct Hcf as (user & Huser & ->). split; [|discriminate].
    intros _. exists user. eexists. split; [exact Huser|].
    cbn. repeat split.
  - subst cf. split; [discriminate|]. intros _. split; [reflexivity|].
    intros name section Hin. cbn in Hin.
    repeat (destruct Hin as [Hin|Hin]; [injection Hin as <- <-; reflexivity|]).
    contradiction.
Qed.

Lemma password_check_iff_password_witness :
  exists sv pass,
    initialize sample_host (Some sample_options) = Returned sv
    /\ Dict.get (given (Some sample_options)) "http_pass" = Some pass
    /\ Dict.get (conf sv) "/api" = Some [("tools.auth_basic.on", VBool false)].
Proof.
  eexists.
  destruct (password_check_iff_password sample_host (Some sample_options) _ eq_refl)
    as (pass & Hpass & Hon & _).
  exists pass. split; [reflexivity|]. split; [exact Hpass|].
  cbn in Hpass. injection Hpass as <-.
  destruct (Hon eq_refl) as (user & section & _ & _ & _ & _ & Hapi). exact Hapi.
Defined.

(** X24: the function starts nothing without its options: called without
    options it raises [KeyError] for the first it reads, and a call that
    returns has found all eight options that every call reads, with a
    number for the port; it ends with the server started when the port is
    free and with the exit code 1 when it is not. *)
Theorem initialize_reads_all_options
        (h : host) (options : option (Dict.t value)) :
  initialize h None = Raised (KeyError "https_enabled")
  /\ forall sv,
      initialize h options = Returned sv ->
      Forall (fun key => Dict.has (given options) key = true) required
      /\ exists port host_,
          Dict.get (given options) "http_port" = Some port
          /\ Dict.get (given options) "http_host" = Some host_
          /\ number port = Returned tt
          /\ ended sv = if check_port h (str h host_) port then Started else Exit 1.
Proof.
  split; [reflexivity|]. intros sv H.
  destruct (initialize_returned h options sv H)
    as (e & cert & key & https & port & host_ & proxy & pass & root & cf
        & He & Hcert & Hkey & _ & Hport & Hhost & Hnum & Hproxy & Hpass & _
        & Hroot & ->).
  split.
  - unfold required, Dict.has.
    repeat constructor;
      first [rewrite He | rewrite Hcert | rewrite Hkey | rewrite Hport
            | rewrite Hhost | rewrite Hproxy | rewrite Hpass | rewrite Hroot];
      reflexivity.
  - exists port, host_. auto.
Qed.

End WebStartFacts.

(* ------------------------------------------------------------------ *)
(** ** The id of a matched file *)

Module LookupFacts.
Import Db Matcher Lookup.

(** An id that [find_book_in_db] gives is the id of a book. *)
Lemma find_book_in_db_known (fz : fuzz) (d : db) (author book id : string) :
  find_book_in_db fz d author book = Some id ->
  exists b, In b (books d) /\ b_BookID b = id.
Proof.
  unfold find_book_in_db.
  destruct (match_where _ (books_authors d)) as [[b a]|] eqn:Hm.
  - intros H. injection H as <-. apply MatcherMore.match_where_some in Hm.
    destruct Hm as [Hin _]. apply RemovalFacts.in_books_authors in Hin.
    exists b. tauto.
  - clear Hm. intros H.
    set (cands := map fst _) in H.
    assert (Hc : exists b, In b cands /\ b_BookID b = id).
    { rewrite MatcherMore.fuzzy_match_state in H. cbv zeta in H.
      destruct (MatcherMore.fuzzy_state fz author book cands) as (E1 & E2 & E3).
      cbv zeta in E1, E2, E3.
      destruct (_ >? 90)%Z.
      { apply (MatcherMore.running_max_id (adjusted_ratio fz (normalised fz book)) cands).
        rewrite <- E1. exact H. }
      destruct (_ >? 85)%Z.
      { apply (MatcherMore.running_max_id (adjusted_partial fz (normalised fz book)) cands).
        rewrite <- E2. exact H. }
      destruct (_ >? 95)%Z; [|discriminate].
      apply (MatcherMore.running_max_id
               (adjusted_partname fz (fst (split_title fz author (normalised fz book)))
                                  (normalised fz book)) cands).
      rewrite <- E3. exact H. }
    destruct Hc as (b & Hin & Hid). exists b. split; [|exact Hid].
    unfold cands in Hin. apply in_map_iff in Hin.
    destruct Hin as ([b' a] & Hfst & Hin). cbn [fst] in Hfst. subst b'.
    apply filter_In in Hin. destruct Hin as [Hin _].
    apply RemovalFacts.in_books_authors in Hin. tauto.
Qed.

Lemma id_text_known (fz : fuzz) (d : db) (author book : string) :
  known (id_text (find_book_in_db fz d author book)) d.
Proof.
  unfold known. destruct (find_book_in_db fz d author book) as [id|] eqn:H; cbn.
  - intros _. apply (find_book_in_db_known fz d author book id H).
  - discriminate.
Qed.

Lemma has_book_known (bookid : string) (d : db) :
  has_book bookid d = true -> exists b, In b (books d) /\ b_BookID b = bookid.
Proof.
  unfold has_book. destruct (match_where _ (books d)) as [b|] eqn:H; [|discriminate].
  intros _. apply MatcherMore.match_where_some in H. destruct H as [Hin Hid].
  apply String.eqb_eq in Hid. eauto.
Qed.

Lemma by_metadata_id_known (pr : provider) (gr_id : option string)
      (bookid bookid' : string) (d d' : db) :
  known bookid d ->
  by_metadata_id pr gr_id bookid d = Returned (d', bookid') ->
  known bookid' d'.
Proof.
  intros Hk. unfold by_metadata_id. cbn [PyStr.truthy String.eqb negb].
  rewrite andb_false_r.
  destruct (negb (PyStr.truthy bookid)) eqn:Hb.
  2:{ intros H. injection H as <- <-. exact Hk. }
  destruct (PyStr.truthy_opt gr_id) eqn:Hg.
  - destruct (PyStr.truthy (text_of gr_id)) eqn:Ht.
    + destruct (has_book (text_of gr_id) d) eqn:Hh.
      * intros H. injection H as <- <-. intros _. apply has_book_known, Hh.
      * destruct (if (BOOK_API pr =? "GoodReads")%string && true
                  then find_book pr (text_of gr_id) d else Returned d)
          as [d1|e]; [|discriminate].
        destruct (has_book (text_of gr_id) d1) eqn:Hh1; intros H;
          injection H as <- <-.
        -- intros _. apply has_book_known, Hh1.
        -- intros Hf. discriminate.
    + intros H. injection H as <- <-. intros Hf. rewrite Ht in Hf. discriminate.
  - apply negb_true_iff in Hb. rewrite Hb.
    intros H. injection H as <- <-. exact Hk.
Qed.

Lemma by_isbn_known (isbn : option string) (bookid : string) (d : db) :
  known bookid d -> known (by_isbn isbn bookid d) d.
Proof.
  intros Hk. unfold by_isbn.
  destruct (negb (PyStr.truthy bookid) && PyStr.truthy_opt isbn); [|exact Hk].
  destruct (match_where _ (books d)) as [b|] eqn:H; [|exact Hk].
  apply MatcherMore.match_where_some in H. destruct H as [Hin _].
  intros _. eauto.
Qed.

Lemma by_parent_known (fz : fuzz) (author book r bookid : string) (d : db) :
  known bookid d -> known (by_parent fz author book r bookid d) d.
Proof.
  intros Hk. unfold by_parent.
  destruct (negb (PyStr.truthy bookid)); [|exact Hk].
  destruct (negb _); [apply id_text_known | exact Hk].
Qed.

(** X25: an id that the cascade settles on, by author and title, by the id
    of the metadata, by the isbn or by the directory above, is the id of a
    book that the catalog has at that point. *)
Theorem lookup_gives_known_book
        (fz : fuzz) (pr : provider) (author book : string)
        (isbn gr_id : option string) (r : string) (d d' : db) (bookid : string) :
  lookup fz pr author book isbn gr_id r d = Returned (d', bookid) ->
  PyStr.truthy bookid = true ->
  exists b, In b (books d') /\ b_BookID b = bookid.
Proof.
  unfold lookup.
  destruct (by_metadata_id pr gr_id (id_text (find_book_in_db fz d author book)) d)
    as [[d1 id1]|e] eqn:H1; [|discriminate].
  intros H. injection H as <- <-.
  apply by_parent_known, by_isbn_known.
  apply (by_metadata_id_known pr gr_id _ id1 d d1 (id_text_known fz d author book) H1).
Qed.

Lemma lookup_gives_known_book_witness :
  exists b,
    In b (books Matcher.austen_catalog
          ++ [ {| b_BookID := "6969"; b_AuthorID := "a1";
                  b_BookName := "Persuasion";
                  b_BookISBN := None; b_Status := "Skipped";
                  b_BookFile := None; b_BookLibrary := None;
                  b_AudioStatus := "Skipped"; b_AudioFile := None;
                  b_AudioLibrary := None |} ])
    /\ b_BookID b = "6969"%string.
Proof.
  apply (lookup_gives_known_book toy_fuzz sample_provider "Jane Austen" "Persuasion"
           None (Some "6969"%string) "/lib/Jane Austen/Persuasion"
           Matcher.austen_catalog
           {| authors := authors Matcher.austen_catalog;
              books := books Matcher.austen_catalog
                       ++ [ {| b_BookID := "6969"; b_AuthorID := "a1";
                               b_BookName := "Persuasion";
                               b_BookISBN := None; b_Status := "Skipped";
                               b_BookFile := None; b_BookLibrary := None;
                               b_AudioStatus := "Skipped"; b_AudioFile := None;
                               b_AudioLibrary := None |} ];
              languages := languages Matcher.austen_catalog |}
           "6969");
    reflexivity.
Defined.

End LookupFacts.

(* ------------------------------------------------------------------ *)
(** ** The clean-up of author names *)

Module CleanupFacts.
Import Db Cleanup.

Lemma space_eqb (c : ascii) : isspace c = false -> Ascii.eqb c " " = false.
Proof.
  intros H. destruct (Ascii.eqb c " ") eqn:E; [|reflexivity].
  apply Ascii.eqb_eq in E. subst c. discriminate H.
Qed.

Lemma solid_app (w v : string) :
  solid w = true -> solid v = true -> solid (w ++ v) = true.
Proof.
  induction w as [|c w IH]; cbn; [tauto|].
  intros H Hv. apply andb_true_iff in H. destruct H as [Hc Hw].
  rewrite Hc, (IH Hw Hv). reflexivity.
Qed.

(** The words of [split()] are not empty and hold no whitespace. *)
Lemma split_from_words (s word : string) :
  solid word = true ->
  Forall (fun w => solid w = true /\ w <> ""%string) (split_from word s).
Proof.
  revert word. induction s as [|c r IH]; intros word Hw; cbn.
  - unfold PyStr.truthy. destruct (String.eqb_spec word ""); cbn; auto.
  - destruct (isspace c) eqn:Hc.
    + unfold PyStr.truthy. destruct (String.eqb_spec word ""); cbn.
      * apply IH. reflexivity.
      * constructor; [auto|]. apply IH. reflexivity.
    + apply IH. apply solid_app; [exact Hw|]. cbn. rewrite Hc. reflexivity.
Qed.

Lemma single_spaced_weak (s : string) :
  single_spaced true s = true -> single_spaced false s = true.
Proof.
  destruct s as [|c r]; cbn; [tauto|].
  destruct (Ascii.eqb c " "); cbn; [discriminate | tauto].
Qed.

Lemma single_spaced_word (w t : string) :
  solid w = true -> single_spaced false t = true ->
  single_spaced false (w ++ t) = true.
Proof.
  induction w as [|c w IH]; cbn; [tauto|].
  intros H Ht. apply andb_true_iff in H. destruct H as [Hc Hw].
  apply negb_true_iff in Hc. rewrite (space_eqb c Hc). apply IH; assumption.
Qed.

Lemma single_spaced_first (w t : string) :
  solid w = true -> w <> ""%string -> single_spaced false t = true ->
  single_spaced true (w ++ t) = true.
Proof.
  destruct w as [|c w]; [congruence|]. cbn.
  intros H _ Ht. apply andb_true_iff in H. destruct H as [Hc Hw].
  apply negb_true_iff in Hc. rewrite (space_eqb c Hc).
  apply single_spaced_word; assumption.
Qed.

Lemma single_spaced_solid (b : bool) (w : string) :
  solid w = true -> single_spaced b w = true.
Proof.
  revert b. induction w as [|c w IH]; intros b; cbn; [reflexivity|].
  intros H. apply andb_true_iff in H. destruct H as [Hc Hw].
  apply negb_true_iff in Hc. rewrite (space_eqb c Hc). apply IH, Hw.
Qed.

Lemma single_spaced_join (l : list string) :
  Forall (fun w => solid w = true /\ w <> ""%string) l ->
  single_spaced true (String.concat " " l) = true.
Proof.
  induction 1 as [|w l [Hw Hn] Hl IH]; [reflexivity|].
  destruct l as [|v l].
  - apply single_spaced_solid, Hw.
  - change (String.concat " " (w :: v :: l))
      with (w ++ String " " (String.concat " " (v :: l)))%string.
    apply single_spaced_first; [exact Hw | exact Hn |].
    cbn [single_spaced Ascii.eqb Bool.eqb negb andb]. exact IH.
Qed.

Lemma single_spaced_contains (s : string) :
  single_spaced false s = true -> double_space s = false.
Proof.
  unfold double_space.
  induction s as [|c r IH]; [reflexivity|].
  cbn [single_spaced PyStr.contains prefix].
  destruct (ascii_dec " " c) as [<-|Hc].
  - cbn [Ascii.eqb Bool.eqb negb andb]. intros H.
    destruct r as [|c' r'].
    + reflexivity.
    + destruct (ascii_dec " " c') as [<-|Hc'].
      * cbn in H. discriminate H.
      * cbn [prefix]. destruct (ascii_dec " " c') as [E|_]; [congruence|].
        apply IH. apply single_spaced_weak, H.
  - destruct (Ascii.eqb_spec c " ") as [->|_]; [congruence|].
    exact IH.
Qed.

(** A name that [' '.join(name.split())] gives has no two spaces in a
    row. *)
Lemma squeeze_single_spaced (name : string) :
  double_space (squeeze name) = false.
Proof.
  apply single_spaced_contains, single_spaced_weak, single_spaced_join.
  apply split_from_words. reflexivity.
Qed.

(** The table [authors] after one turn of the loop. *)
Lemma merge_step_authors (d : db) (r : author_row) :
  (exists dup, In dup (authors d)
               /\ a_AuthorName dup = squeeze (a_AuthorName r)
               /\ authors (merge_step d r)
                  = filter (fun a => negb (a_AuthorName a =? a_AuthorName r))
                           (authors d))
  \/ ((forall a, In a (authors d) ->
                 a_AuthorName a <> squeeze (a_AuthorName r))
      /\ merge_step d r = rename (squeeze (a_AuthorName r)) (a_AuthorID r) d).
Proof.
  unfold merge_step.
  destruct (match_where _ (authors d)) as [dup|] eqn:Hm.
  - apply MatcherMore.match_where_some in Hm. destruct Hm as [Hd Hn].
    apply String.eqb_eq in Hn. left. exists dup.
    split; [exact Hd|]. split; [exact Hn|].
    destruct (negb _); reflexivity.
  - right. split; [|reflexivity].
    intros a Hin. apply String.eqb_neq.
    apply (proj1 (DbFacts.match_where_none _ _) Hm a Hin).
Qed.

Lemma in_rename (n i : string) (d : db) (a' : author_row) :
  In a' (authors (rename n i d)) ->
  (In a' (authors d) /\ a_AuthorID a' <> i)
  \/ (a_AuthorName a' = n /\ a_AuthorID a' = i).
Proof.
  cbn. rewrite in_map_iff. intros (a & Ha & Hin).
  destruct (String.eqb_spec (a_AuthorID a) i) as [Hid|Hid]; subst a'.
  - right. cbn. auto.
  - left. auto.
Qed.

Lemma rename_in (n i : string) (d : db) (a : author_row) :
  In a (authors d) -> a_AuthorID a <> i -> In a (authors (rename n i d)).
Proof.
  intros Hin Hid. cbn. apply in_map_iff. exists a. split; [|exact Hin].
  apply String.eqb_neq in Hid. rewrite Hid. reflexivity.
Qed.

Lemma in_kept (n : string) (l : list author_row) (a : author_row) :
  In a (filter (fun a => negb (a_AuthorName a =? n)) l)
  <-> In a l /\ a_AuthorName a <> n.
Proof.
  rewrite filter_In, negb_true_iff, String.eqb_neq. reflexivity.
Qed.

(** A row whose name has two spaces in a row is one that the loop has yet
    to come to. *)
Lemma merge_step_spaced (d : db) (r : author_row) (rest : list author_row) :
  (forall a, In a (authors d) ->
             double_space (a_AuthorName a) = false \/ In a (r :: rest)) ->
  forall a, In a (authors (merge_step d r)) ->
            double_space (a_AuthorName a) = false \/ In a rest.
Proof.
  intros I a'.
  destruct (merge_step_authors d r) as [(dup & _ & _ & ->)|[_ ->]].
  - rewrite in_kept. intros [Hin Hne].
    destruct (I a' Hin) as [Hc|[<-|Hr]]; [left; exact Hc| congruence | right; exact Hr].
  - intros H. apply in_rename in H. destruct H as [[Hin Hid]|[Hn _]].
    + destruct (I a' Hin) as [Hc|[<-|Hr]]; [left; exact Hc| congruence | right; exact Hr].
    + left. rewrite Hn. apply squeeze_single_spaced.
Qed.

Lemma fold_spaced (rest : list author_row) (d : db) :
  (forall a, In a (authors d) ->
             double_space (a_AuthorName a) = false \/ In a rest) ->
  forall a, In a (authors (fold_left merge_step rest d)) ->
            double_space (a_AuthorName a) = false.
Proof.
  revert d. induction rest as [|r rest IH]; intros d I a; cbn [fold_left].
  - intros Hin. destruct (I a Hin) as [H|[]]. exact H.
  - apply IH. apply merge_step_spaced, I.
Qed.

(** X27: after the clean-up of a full scan no author name has two spaces
    in a row: the query that chose the rows to clean,
    [AuthorName like "%  %"], has no row left to give, whatever rows the
    table held, and whether a row was merged into another or renamed. *)
Theorem no_extra_spaces_left (d : db) :
  spaced (remove_extra_spaces d) = [].
Proof.
  unfold spaced at 1, select_where.
  assert (H : forall a, In a (authors (remove_extra_spaces d)) ->
                        double_space (a_AuthorName a) = false).
  { apply fold_spaced. intros a Hin.
    destruct (double_space (a_AuthorName a)) eqn:Ha; [right | left; reflexivity].
    apply filter_In. auto. }
  induction (authors (remove_extra_spaces d)) as [|a l IH]; [reflexivity|].
  cbn. rewrite (H a (or_introl eq_refl)). apply IH.
  intros x Hx. apply H. right. exact Hx.
Qed.

(** A row stays when the turn is for another name and another id. *)
Lemma merge_step_keeps (d : db) (r a : author_row) :
  In a (authors d) ->
  a_AuthorName a <> a_AuthorName r -> a_AuthorID a <> a_AuthorID r ->
  In a (authors (merge_step d r)).
Proof.
  intros Hin Hn Hid.
  destruct (merge_step_authors d r) as [(dup & _ & _ & ->)|[_ ->]].
  - apply in_kept. auto.
  - apply rename_in; assumption.
Qed.

(** With one row for each id, rows of one id are one row. *)
Lemma same_id_same_row (l : list author_row) (x y : author_row) :
  NoDup (map a_AuthorID l) -> In x l -> In y l ->
  a_AuthorID x = a_AuthorID y -> x = y.
Proof.
  induction l as [|z l IH]; cbn; [tauto|].
  intros Hnd. inversion Hnd as [|? ? Hz Hl]; subst.
  intros [<-|Hx] [<-|Hy] E.
  - reflexivity.
  - exfalso. apply Hz. rewrite E. apply in_map, Hy.
  - exfalso. apply Hz. rewrite <- E. apply in_map, Hx.
  - apply IH; assumption.
Qed.

(** X28: with one row for each [AuthorID], the clean-up leaves alone
    every author whose name has no two spaces in a row: the row is in the
    table afterwards as it was, also when another spelling of the name was
    merged into it. *)
Theorem tidy_author_untouched (d : db) (a : author_row) :
  NoDup (map a_AuthorID (authors d)) ->
  In a (authors d) ->
  double_space (a_AuthorName a) = false ->
  In a (authors (remove_extra_spaces d)).
Proof.
  intros Hnd Hin Hc. unfold remove_extra_spaces.
  assert (Hr : forall r, In r (spaced d) ->
                 a_AuthorName a <> a_AuthorName r /\ a_AuthorID a <> a_AuthorID r).
  { intros r Hr. apply filter_In in Hr. destruct Hr as [Hrin Hrs].
    split.
    - intros E. rewrite E in Hc. congruence.
    - intros E. apply (same_id_same_row _ _ _ Hnd Hin Hrin) in E.
      subst r. congruence. }
  revert Hin Hr. generalize (spaced d) as rest. generalize d as d0.
  intros d0 rest. revert d0.
  induction rest as [|r rest IH]; intros d0 Hin Hr; cbn [fold_left];
    [exact Hin|].
  apply IH.
  - apply merge_step_keeps; [exact Hin | apply Hr | apply Hr]; left; reflexivity.
  - intros x Hx. apply Hr. right. exact Hx.
Qed.

Lemma tidy_author_untouched_witness :
  In {| a_AuthorID := "a2"; a_AuthorName := "Jane Austen";
        a_Status := "Active" |}
     (authors (remove_extra_spaces spaced_catalog)).
Proof.
  apply (tidy_author_untouched spaced_catalog).
  - repeat constructor; cbn; intuition discriminate.
  - right. left. reflexivity.
  - reflexivity.
Defined.

(** The rows that the query chose have ids of their own when the rows of
    the table have. *)
Lemma spaced_ids (d : db) :
  NoDup (map a_AuthorID (authors d)) -> NoDup (map a_AuthorID (spaced d)).
Proof.
  unfold spaced, select_where.
  induction (authors d) as [|x l IH]; cbn; [tauto|].
  intros H. inversion H as [|? ? Hx Hl]; subst.
  destruct (double_space (a_AuthorName x)); [|apply IH, Hl].
  cbn. constructor; [|apply IH, Hl].
  intros Hin. apply Hx. apply in_map_iff in Hin.
  destruct Hin as (y & Hy & Hin). apply filter_In in Hin.
  rewrite <- Hy. apply in_map. tauto.
Qed.

(** The books after one turn of the loop. *)
Lemma merge_step_books (d : db) (r : author_row) (b' : book_row) :
  In b' (books (merge_step d r)) ->
  (In b' (books d) /\ b_AuthorID b' <> a_AuthorID r)
  \/ (exists dup, In dup (authors d)
                  /\ a_AuthorName dup = squeeze (a_AuthorName r)
                  /\ b_AuthorID b' = a_AuthorID dup)
  \/ ((forall a, In a (authors d) ->
                 a_AuthorName a <> squeeze (a_AuthorName r))
      /\ In b' (books d)).
Proof.
  unfold merge_step.
  destruct (match_where _ (authors d)) as [dup|] eqn:Hm.
  - apply MatcherMore.match_where_some in Hm. destruct Hm as [Hd Hn].
    apply String.eqb_eq in Hn.
    destruct (String.eqb_spec (a_AuthorID r) (a_AuthorID dup)) as [E|E];
      cbn [negb].
    + cbn. intros Hin.
      destruct (String.eqb_spec (b_AuthorID b') (a_AuthorID r)) as [Eb|Eb].
      * right. left. exists dup. split; [exact Hd|]. split; [exact Hn|].
        congruence.
      * left. auto.
    + cbn. rewrite in_map_iff. intros (b & Hb & Hin).
      destruct (String.eqb_spec (b_AuthorID b) (a_AuthorID r)) as [Eb|Eb];
        subst b'.
      * right. left. exists dup. cbn. auto.
      * left. auto.
  - cbn. intros Hin. right. right. split; [|exact Hin].
    intros a Ha. apply String.eqb_neq.
    apply (proj1 (DbFacts.match_where_none _ _) Hm a Ha).
Qed.

(** One turn of the loop keeps its state. *)
Lemma pending_step (d : db) (r : author_row) (rest : list author_row) :
  pending (r :: rest) d -> pending rest (merge_step d r).
Proof.
  intros [Hnd Hsp Hrows Hnamed Hbooks].
  cbn [map] in Hnd. inversion Hnd as [|? ? Hr Hnd']; subst.
  assert (Hrs : double_space (a_AuthorName r) = true)
    by (apply Hsp; left; reflexivity).
  (* a row of the name that [r] is to take is done *)
  assert (Hdone : forall a, In a (authors d) ->
            a_AuthorName a = squeeze (a_AuthorName r) ->
            double_space (a_AuthorName a) = false
            /\ ~ In (a_AuthorID a) (map a_AuthorID (r :: rest))).
  { intros a Hin Hn.
    destruct (Hrows a Hin) as [H|H]; [exact H|].
    apply Hsp in H. rewrite Hn, squeeze_single_spaced in H. discriminate H. }
  constructor.
  - exact Hnd'.
  - intros x Hx. apply Hsp. right. exact Hx.
  - (* rows_done *)
    intros a'.
    destruct (merge_step_authors d r) as [(dup & Hd & Hdn & ->)|[Hno ->]].
    + rewrite in_kept. intros [Hin Hne].
      destruct (Hrows a' Hin) as [[Hc Hid]|[<-|Hx]].
      * left. split; [exact Hc|]. intros Hi. apply Hid. right. exact Hi.
      * congruence.
      * right. exact Hx.
    + intros H. apply in_rename in H. destruct H as [[Hin Hid]|[Hn Hid]].
      * destruct (Hrows a' Hin) as [[Hc Hi]|[<-|Hx]].
        -- left. split; [exact Hc|]. intros Hi'. apply Hi. right. exact Hi'.
        -- congruence.
        -- right. exact Hx.
      * left. rewrite Hn, Hid. split; [apply squeeze_single_spaced | exact Hr].
  - (* rest_named *)
    intros x Hx.
    assert (Hxs : double_space (a_AuthorName x) = true)
      by (apply Hsp; right; exact Hx).
    destruct (merge_step_authors d r) as [(dup & Hd & Hdn & ->)|[Hno ->]].
    + destruct (Hdone dup Hd Hdn) as [Hdc _].
      assert (Hdup : In dup (filter (fun a => negb (a_AuthorName a =? a_AuthorName r))
                                    (authors d))).
      { apply in_kept. split; [exact Hd|]. intros E. congruence. }
      destruct (Hnamed x (or_intror Hx)) as [Hin|(a & Hin & Hn)].
      * destruct (String.eqb_spec (a_AuthorName x) (a_AuthorName r)) as [E|E].
        -- right. exists dup. split; [exact Hdup|]. rewrite E. exact Hdn.
        -- left. apply in_kept. auto.
      * right. exists a. split; [|exact Hn]. apply in_kept.
        split; [exact Hin|]. intros E.
        rewrite <- E, Hn, squeeze_single_spaced in Hrs. discriminate Hrs.
    + destruct (Hnamed x (or_intror Hx)) as [Hin|(a & Hin & Hn)].
      * left. apply rename_in; [exact Hin|].
        intros E. apply Hr. rewrite <- E. apply in_map, Hx.
      * right. exists a. split; [|exact Hn]. apply rename_in; [exact Hin|].
        assert (Ha : double_space (a_AuthorName a) = false)
          by (rewrite Hn; apply squeeze_single_spaced).
        destruct (Hrows a Hin) as [[_ Hi]|Hi].
        -- intros E. apply Hi. left. symmetry. exact E.
        -- apply Hsp in Hi. congruence.
  - (* books_held *)
    intros b' Hb'.
    assert (Hrow : forall a, In a (authors d) -> a_AuthorID a <> a_AuthorID r ->
              (exists a', In a' (authors (merge_step d r))
                          /\ a_AuthorID a' = a_AuthorID a)
              \/ In (a_AuthorID a) (map a_AuthorID rest)).
    { intros a Hin Hid.
      destruct (Hrows a Hin) as [[Hc Hi]|[E|Hx]].
      - left. exists a. split; [|reflexivity].
        apply merge_step_keeps; [exact Hin | | exact Hid].
        intros E. congruence.
      - subst a. congruence.
      - right. apply in_map, Hx. }
    apply merge_step_books in Hb'.
    destruct Hb' as [[Hb Hid]|[(dup & Hd & Hdn & Hid)|[Hno Hb]]].
    + destruct (Hbooks b' Hb) as [(a & Hin & Ha)|[E|Hx]].
      * rewrite <- Ha. apply Hrow; [exact Hin | congruence].
      * congruence.
      * right. exact Hx.
    + destruct (Hdone dup Hd Hdn) as [Hdc Hdi].
      left. exists dup. split; [|symmetry; exact Hid].
      apply merge_step_keeps; [exact Hd | congruence |].
      intros E. apply Hdi. left. symmetry. exact E.
    + destruct (String.eqb_spec (b_AuthorID b') (a_AuthorID r)) as [E|E].
      * (* the row of [r] is still in the table, and takes the name *)
        destruct (Hnamed r (or_introl eq_refl)) as [Hin|(a & Hin & Hn)];
          [|exfalso; apply (Hno a Hin Hn)].
        left.
        exists {| a_AuthorID := a_AuthorID r;
                  a_AuthorName := squeeze (a_AuthorName r);
                  a_Status := a_Status r |}.
        split; [|cbn; congruence].
        destruct (merge_step_authors d r) as [(dup & Hd & Hdn & _)|[_ ->]];
          [exfalso; apply (Hno dup Hd Hdn)|].
        cbn. apply in_map_iff. exists r. rewrite String.eqb_refl. auto.
      * destruct (Hbooks b' Hb) as [(a & Hin & Ha)|[E'|Hx]].
        -- rewrite <- Ha. apply Hrow; [exact Hin | congruence].
        -- congruence.
        -- right. exact Hx.
Qed.

Lemma pending_fold (rest : list author_row) (d : db) :
  pending rest d -> pending [] (fold_left merge_step rest d).
Proof.
  revert d. induction rest as [|r rest IH]; intros d H; cbn [fold_left];
    [exact H|].
  apply IH, pending_step, H.
Qed.

(** X29: merging the spellings of an author orphans no book: with one
    row for each [AuthorID], when every book has the row of its author
    before the clean-up, every book has the row of its author after it; the
    books of a row that was deleted were moved to the row it was merged
    into. *)
Theorem merge_keeps_books_attached (d : db) :
  NoDup (map a_AuthorID (authors d)) ->
  attached d ->
  attached (remove_extra_spaces d).
Proof.
  intros Hnd Hat.
  assert (H : pending (spaced d) d).
  { constructor.
    - apply spaced_ids, Hnd.
    - intros r Hr. apply filter_In in Hr. tauto.
    - intros a Hin.
      destruct (double_space (a_AuthorName a)) eqn:Ha.
      + right. apply filter_In. auto.
      + left. split; [reflexivity|]. intros Hi. apply in_map_iff in Hi.
        destruct Hi as (r & Hid & Hr). apply filter_In in Hr.
        destruct Hr as [Hrin Hrs].
        apply (same_id_same_row _ _ _ Hnd Hrin Hin) in Hid. subst r.
        congruence.
    - intros r Hr. left. apply filter_In in Hr. tauto.
    - intros b Hb. left. apply Hat, Hb. }
  apply pending_fold in H. destruct H as [_ _ _ _ Hbooks].
  intros b Hb. destruct (Hbooks b Hb) as [Ha|[]]. exact Ha.
Qed.

Lemma merge_keeps_books_attached_witness :
  attached (remove_extra_spaces spaced_catalog).
Proof.
  apply (merge_keeps_books_attached spaced_catalog).
  - repeat constructor; cbn; intuition discriminate.
  - intros b [<-|[<-|[]]].
    + eexists. split; [left; reflexivity | reflexivity].
    + eexists. split; [right; left; reflexivity | reflexivity].
Defined.

End CleanupFacts.
